(** * mcp-openai: a shallow embedding of the server's control logic

  The development follows the layout of the TypeScript sources:

  - [Js]            string and number helpers of the host language
  - [Types]         src/types.ts (model tables, error taxonomy, classifier)
  - [Pricing]       src/pricing.ts
  - [Logger]        src/logger.ts (event sink only)
  - [CostTracker]   src/cost-tracker.ts
  - [Retry]         src/retry.ts
  - [Runtime]       the remote Responses API seen from the client
  - [TextProvider]  src/providers/text-provider.ts
  - [DeepResearch]  src/providers/deep-research-provider.ts
  - [WebSearch]     src/providers/web-search-provider.ts
  - [Server]        src/index.ts (the check_research and get_cost_summary handlers)
  - [Tools]         src/index.ts (the generate_text, web_search and deep_research handlers)
  - [Vocabulary], [Notions]   predicates in which the properties are stated
  - [Samples], [Cases]        concrete services, states and options

  The second half proves the properties, in modules of facts that follow
  the source modules.

  Conventions.  JavaScript numbers that hold times and token counts are
  integers and are modelled by [Z].  Amounts of money are [Js.Number]: NaN,
  or a finite value idealised as an exact rational (so [Math.round] is
  [Qfloor (x + 1/2)]; the binary rounding of doubles is not modelled, and
  nothing is stated that depends on it).  Strings are [string], read as
  UTF-8; [toLowerCase] acts on the ASCII range, [trim] on the white space
  of the language.  A promise that rejects is an [Outcome] built with
  [Throw]; [await] is sequencing of state-passing functions.  Plain objects
  used as tables are finite maps over their own keys, together with the
  members every plain object inherits from [Object.prototype]. *)

From Stdlib Require Import ZArith QArith Qround Lqa String Ascii List Lia DecimalString.
From stdpp Require Import base option list gmap strings.

Local Open Scope string_scope.
Local Open Scope list_scope.
Local Open Scope Z_scope.

(* ===================================================================== *)
(** ** Host-language helpers *)
(* ===================================================================== *)

Module Js.

(** [s.startsWith(p)] *)
Fixpoint startsWith (p s : string) : bool :=
  match p, s with
  | EmptyString, _ => true
  | String a p', String b s' => Ascii.eqb a b && startsWith p' s'
  | String _ _, EmptyString => false
  end.

(** [s.includes(sub)]: [sub] occurs somewhere in [s]. *)
Fixpoint includes (sub s : string) : bool :=
  startsWith sub s ||
  match s with
  | EmptyString => false
  | String _ rest => includes sub rest
  end.

Definition lower_ascii (c : ascii) : ascii :=
  let n := nat_of_ascii c in
  if (Nat.leb 65 n && Nat.leb n 90)%bool then ascii_of_nat (n + 32) else c.

(** [s.toLowerCase()] *)
Fixpoint toLowerCase (s : string) : string :=
  match s with
  | EmptyString => EmptyString
  | String c rest => String (lower_ascii c) (toLowerCase rest)
  end.

(** White space of one byte: the space and the controls U+0009..U+000D.
    A stray byte 160 (U+00A0 in a single-byte reading, never the start of
    a character in UTF-8) is taken as white space too. *)
Definition is_space (c : ascii) : bool :=
  let n := nat_of_ascii c in
  (Nat.eqb n 32 || (Nat.leb 9 n && Nat.leb n 13) || Nat.eqb n 160)%bool.

(** White space of two bytes: U+00A0. *)
Definition is_space2 (a b : ascii) : bool :=
  (Nat.eqb (nat_of_ascii a) 194 && Nat.eqb (nat_of_ascii b) 160)%bool.

(** White space of three bytes: U+1680, U+2000..U+200A, U+2028, U+2029,
    U+202F, U+205F, U+3000 and U+FEFF. *)
Definition is_space3 (a b c : ascii) : bool :=
  let x := nat_of_ascii a in
  let y := nat_of_ascii b in
  let z := nat_of_ascii c in
  ((Nat.eqb x 225 && Nat.eqb y 154 && Nat.eqb z 128)
   || (Nat.eqb x 226 && Nat.eqb y 128
       && ((Nat.leb 128 z && Nat.leb z 138) || Nat.eqb z 168 || Nat.eqb z 169
           || Nat.eqb z 175))
   || (Nat.eqb x 226 && Nat.eqb y 129 && Nat.eqb z 159)
   || (Nat.eqb x 227 && Nat.eqb y 128 && Nat.eqb z 128)
   || (Nat.eqb x 239 && Nat.eqb y 187 && Nat.eqb z 191))%bool.

(** [s.trim().length === 0]: [s] consists of white space and line
    terminators only. *)
Fixpoint blank (s : string) : bool :=
  match s with
  | EmptyString => true
  | String a rest =>
      if is_space a then blank rest
      else
        match rest with
        | EmptyString => false
        | String b rest2 =>
            if is_space2 a b then blank rest2
            else
              match rest2 with
              | EmptyString => false
              | String c rest3 => is_space3 a b c && blank rest3
              end
        end
  end.

(** The text [s] between double quotes. *)
Definition quoted (s : string) : string :=
  String (ascii_of_nat 34) (s +:+ String (ascii_of_nat 34) EmptyString).

(** Template interpolation of an integer: [`${n}`]. *)
Definition show (n : Z) : string := NilZero.string_of_int (Z.to_int n).

(** [x || d] on an optional string: the empty string is falsy. *)
Definition str_or (x : option string) (d : string) : string :=
  match x with
  | Some s => if String.eqb s "" then d else s
  | None => d
  end.

(** [x || 0] on an optional integer. *)
Definition num_or0 (x : option Z) : Z := default 0 x.

(** [!x] on an optional string. *)
Definition falsy_str (x : option string) : bool :=
  match x with
  | Some s => String.eqb s ""
  | None => true
  end.

(** [Math.round] on rationals: halves go up. *)
Definition round (x : Q) : Z := Qfloor (x + (1 # 2)).

(** A number that holds an amount of money: NaN, or a finite value. *)
Inductive Number :=
| Fin (q : Q)
| NaN.

(** [a + b] and [a * b]: NaN is absorbing. *)
Definition add (a b : Number) : Number :=
  match a, b with
  | Fin x, Fin y => Fin (x + y)%Q
  | _, _ => NaN
  end.

Definition mul (a b : Number) : Number :=
  match a, b with
  | Fin x, Fin y => Fin (x * y)%Q
  | _, _ => NaN
  end.

(** [x || 0] on a property that may be missing: zero and NaN are falsy. *)
Definition or0 (x : option Number) : Number :=
  match x with
  | Some (Fin q) => Fin q
  | Some NaN | None => Fin 0
  end.

(** [Math.round(n * 1_000_000) / 1_000_000] *)
Definition round_micro (n : Number) : Number :=
  match n with
  | Fin q => Fin (inject_Z (round (q * 1000000)) / 1000000)%Q
  | NaN => NaN
  end.

(** Equality and order of numbers, as [===] and [<=] have them on the
    finite values; NaN is below nothing and above nothing. *)
Definition num_eq (a b : Number) : Prop :=
  match a, b with
  | Fin x, Fin y => (x == y)%Q
  | NaN, NaN => True
  | _, _ => False
  end.

Definition num_le (a b : Number) : Prop :=
  match a, b with
  | Fin x, Fin y => (x <= y)%Q
  | _, _ => False
  end.

(** The names every plain object inherits from [Object.prototype]: a
    property read with one of them as key finds a function (an object for
    [__proto__]) where the object has no key of its own. *)
Definition Object_prototype_keys : list string :=
  [ "constructor"; "hasOwnProperty"; "isPrototypeOf"; "propertyIsEnumerable";
    "toLocaleString"; "toString"; "valueOf"; "__proto__";
    "__defineGetter__"; "__defineSetter__"; "__lookupGetter__"; "__lookupSetter__" ].

Definition inherited (key : string) : bool :=
  existsb (String.eqb key) Object_prototype_keys.

(** The delay a timer really waits: [setTimeout] sets a delay below 1 or
    above 2147483647 to 1. *)
Definition timer_delay (ms : Z) : Z :=
  if (ms <? 1) || (2147483647 <? ms) then 1 else ms.

(** [Math.round(ms / 1000 / 60)] for an integer number of milliseconds. *)
Definition round_minutes (ms : Z) : Z := (ms + 30000) / 60000.

(** A value that was thrown.  [message] is [error.message]; [status] and
    [statusCode] are the numeric properties the SDK attaches to HTTP
    failures.  The value with none of the three stands for a thrown
    [undefined] (or [null]): a thrown object is taken to have at least one
    of them. *)
Record JsError := {
  message : option string;
  status : option Z;
  statusCode : option Z
}.

(** [new Error(msg)] *)
Definition Error (msg : string) : JsError :=
  {| message := Some msg; status := None; statusCode := None |}.

(** The value [undefined], thrown. *)
Definition undefined_thrown : JsError :=
  {| message := None; status := None; statusCode := None |}.

(** The thrown value is [undefined] or [null]: reading a property of it
    without a guard throws. *)
Definition nullish (e : JsError) : bool :=
  match message e, status e, statusCode e with
  | None, None, None => true
  | _, _, _ => false
  end.

(** The TypeError of [error.prop] on a thrown [undefined]. *)
Definition TypeError_reading (prop : string) : JsError :=
  Error ("Cannot read properties of undefined (reading '" +:+ prop +:+ "')").

(** [error instanceof Error ? error.message : String(error)] *)
Definition message_of (e : JsError) : string := default "undefined" (message e).

(** [error.message?.startsWith(p)] *)
Definition message_startsWith (p : string) (e : JsError) : bool :=
  match message e with
  | Some m => startsWith p m
  | None => false
  end.

(** [error.message?.includes(p)] *)
Definition message_includes (p : string) (e : JsError) : bool :=
  match message e with
  | Some m => includes p m
  | None => false
  end.

(** [error.status === code] *)
Definition status_eq (e : JsError) (code : Z) : bool :=
  match status e with
  | Some s => s =? code
  | None => false
  end.

(** How an awaited promise settles. *)
Inductive Outcome (T : Type) :=
| Return (v : T)
| Throw (e : JsError).
Arguments Return {T} v.
Arguments Throw {T} e.

End Js.

(** A rational is read as the finite number it denotes. *)
Coercion Js.Fin : Q >-> Js.Number.

Declare Scope num_scope.
Delimit Scope num_scope with num.
Infix "==" := Js.num_eq (at level 70, no associativity) : num_scope.
Infix "<=" := Js.num_le : num_scope.

(* ===================================================================== *)
(** ** src/types.ts *)
(* ===================================================================== *)

Module Types.

Definition TEXT_MODELS : list string := ["gpt-5.2"; "gpt-5.2-pro"; "gpt-5.2-chat-latest"].
Definition DEEP_RESEARCH_MODELS : list string := ["o3-deep-research"; "o4-mini-deep-research"].
Definition WEB_SEARCH_MODELS : list string := ["gpt-5.2"; "gpt-5.2-chat-latest"].
Definition STRUCTURED_OUTPUT_MODELS : list string := ["gpt-5.2"; "gpt-5.2-chat-latest"].

(** [arr.includes(x)] on an array of strings. *)
Definition arr_includes (arr : list string) (x : string) : bool :=
  existsb (String.eqb x) arr.

Definition isTextModel (model : string) : bool := arr_includes TEXT_MODELS model.
Definition isDeepResearchModel (model : string) : bool := arr_includes DEEP_RESEARCH_MODELS model.
Definition isWebSearchModel (model : string) : bool := arr_includes WEB_SEARCH_MODELS model.
Definition supportsStructuredOutput (model : string) : bool :=
  arr_includes STRUCTURED_OUTPUT_MODELS model.

(** [MODEL_IDS[model] || model]: the table maps each known name to itself. *)
Definition MODEL_IDS : gmap string string :=
  list_to_map (map (fun m => (m, m)) (TEXT_MODELS ++ DEEP_RESEARCH_MODELS)).

Definition api_model_id (model : string) : string :=
  Js.str_or (MODEL_IDS !! model) model.

Inductive ReasoningEffort := effort_none | effort_low | effort_medium | effort_high | effort_xhigh.
Inductive VerbosityLevel := verbosity_low | verbosity_medium | verbosity_high.
Inductive ReasoningSummary := summary_off | summary_concise | summary_detailed.

Definition effort_name (e : ReasoningEffort) : string :=
  match e with
  | effort_none => "none" | effort_low => "low" | effort_medium => "medium"
  | effort_high => "high" | effort_xhigh => "xhigh"
  end.

Definition PRO_REASONING_EFFORTS : list string := ["medium"; "high"; "xhigh"].

Definition isValidProReasoningEffort (effort : ReasoningEffort) : bool :=
  arr_includes PRO_REASONING_EFFORTS (effort_name effort).

Inductive ErrorCategory :=
| AUTH_ERROR | RATE_LIMIT | CONTENT_BLOCKED | SAFETY_BLOCK
| TIMEOUT | API_ERROR | VALIDATION_ERROR.

Definition category_name (c : ErrorCategory) : string :=
  match c with
  | AUTH_ERROR => "AUTH_ERROR" | RATE_LIMIT => "RATE_LIMIT"
  | CONTENT_BLOCKED => "CONTENT_BLOCKED" | SAFETY_BLOCK => "SAFETY_BLOCK"
  | TIMEOUT => "TIMEOUT" | API_ERROR => "API_ERROR"
  | VALIDATION_ERROR => "VALIDATION_ERROR"
  end.

Record MCPError := {
  category : ErrorCategory;
  mcp_message : string;          (* the Error message: `${category}: ${message}` *)
  mcp_statusCode : option Z
}.

Definition new_MCPError (c : ErrorCategory) (msg : string) (sc : option Z) : MCPError :=
  {| category := c; mcp_message := category_name c +:+ ": " +:+ msg; mcp_statusCode := sc |}.

(** An [MCPError] seen as a thrown value. *)
Definition throw_MCPError (e : MCPError) : Js.JsError :=
  {| Js.message := Some (mcp_message e); Js.status := None; Js.statusCode := mcp_statusCode e |}.

(** [error.status || error.statusCode]: a zero status is falsy. *)
Definition status_of (e : Js.JsError) : option Z :=
  match Js.status e with
  | Some s => if s =? 0 then Js.statusCode e else Some s
  | None => Js.statusCode e
  end.

Definition status_is (e : Js.JsError) (code : Z) : bool :=
  match status_of e with
  | Some s => s =? code
  | None => false
  end.

Definition categorizeError (error : Js.JsError) : MCPError :=
  let message := Js.message_of error in
  let status := status_of error in
  if status_is error 401 || Js.includes "API key" message
     || Js.includes "unauthorized" message || Js.includes "Incorrect API key" message
  then new_MCPError AUTH_ERROR "Invalid or missing OpenAI API key" status
  else if status_is error 429 || Js.includes "rate" message
          || Js.includes "quota" message || Js.includes "too many requests" message
  then new_MCPError RATE_LIMIT "OpenAI API rate limit or quota exceeded. Please wait and retry." status
  else if Js.includes "safety" message || Js.includes "content_policy" message
  then new_MCPError SAFETY_BLOCK "Content was blocked by OpenAI safety filters" status
  else if Js.includes "blocked" message || Js.includes "content policy" message
          || Js.includes "moderation" message
  then new_MCPError CONTENT_BLOCKED "Request blocked due to content policy" status
  else if Js.includes "TIMEOUT" message || Js.includes "timed out" message
  then new_MCPError TIMEOUT message None
  else new_MCPError API_ERROR message status.

End Types.

(* ===================================================================== *)
(** ** src/pricing.ts *)
(* ===================================================================== *)

Module Pricing.

(** USD per 1M tokens. *)
Record TokenPricing := {
  input : Q;
  output : Q
}.

(** The [currency] field is the constant ["USD"] and is left out. *)
Record CostInfo := {
  inputCost : Js.Number;
  outputCost : Js.Number;
  totalCost : Js.Number;
  estimated : bool
}.

(** The keys and values written in the table. *)
Definition OPENAI_PRICING : gmap string TokenPricing :=
  list_to_map
    [ ("gpt-5.2",               {| input := 7 # 4; output := 14 |});
      ("gpt-5.2-pro",           {| input := 21;    output := 168 |});
      ("gpt-5.2-chat-latest",   {| input := 7 # 4; output := 14 |});
      ("o3-deep-research",      {| input := 10;    output := 40 |});
      ("o4-mini-deep-research", {| input := 2;     output := 8 |}) ].

(** Default pricing for unknown models (uses gpt-5.2-pro as conservative estimate). *)
Definition DEFAULT_PRICING : TokenPricing := {| input := 21; output := 168 |}.

(** What [OPENAI_PRICING[model]] evaluates to: an entry of the table, a
    member inherited from [Object.prototype] (the table is a plain
    object), or [undefined]. *)
Inductive Lookup :=
| Listed (pricing : TokenPricing)
| Inherited
| Missing.

Definition lookup (model : string) : Lookup :=
  match OPENAI_PRICING !! model with
  | Some pricing => Listed pricing
  | None => if Js.inherited model then Inherited else Missing
  end.

(** [!pricing]: only [undefined] is falsy. *)
Definition absent (pricing : Lookup) : bool :=
  match pricing with
  | Missing => true
  | Listed _ | Inherited => false
  end.

(** [(pricing || DEFAULT_PRICING).field]: an inherited member is truthy
    and has no such field, and [undefined] in a product gives NaN. *)
Definition effective (pricing : Lookup) (field : TokenPricing -> Q) : Js.Number :=
  match pricing with
  | Listed p => Js.Fin (field p)
  | Inherited => Js.NaN
  | Missing => Js.Fin (field DEFAULT_PRICING)
  end.

(** [Math.round(value * 1_000_000) / 1_000_000] *)
Definition roundToMicro (value : Js.Number) : Js.Number := Js.round_micro value.

Definition calculateCost (model : string) (promptTokens completionTokens : Z) : CostInfo :=
  let pricing := lookup model in
  let estimated := absent pricing in
  let inputCost := Js.mul (Js.Fin (inject_Z promptTokens / 1000000)) (effective pricing input) in
  let outputCost :=
    Js.mul (Js.Fin (inject_Z completionTokens / 1000000)) (effective pricing output) in
  let totalCost := Js.add inputCost outputCost in
  {| inputCost := roundToMicro inputCost;
     outputCost := roundToMicro outputCost;
     totalCost := roundToMicro totalCost;
     estimated := estimated |}.

(** [{ ...(pricing || DEFAULT_PRICING), estimated: !pricing }]: the spread
    of an inherited member contributes no price at all. *)
Definition getPricing (model : string) : option TokenPricing * bool :=
  let pricing := lookup model in
  (match pricing with
   | Listed p => Some p
   | Inherited => None
   | Missing => Some DEFAULT_PRICING
   end, absent pricing).

End Pricing.

(* ===================================================================== *)
(** ** src/logger.ts *)
(* ===================================================================== *)

Module Logger.

Inductive Level := info | warn | error | debug.

(** One emitted event.  The [details] payload and the timestamp are not
    kept; stderr and the log file receive the same events, so one list
    stands for both sinks. *)
Record LogEntry := {
  level : Level;
  event : string
}.

Record t := {
  debug_enabled : bool;          (* MCP_DEBUG !== "false" *)
  emitted : list LogEntry
}.

Definition log (l : Level) (ev : string) (lg : t) : t :=
  {| debug_enabled := debug_enabled lg;
     emitted := emitted lg ++ [ {| level := l; event := ev |} ] |}.

Definition debugLog (ev : string) (lg : t) : t :=
  if debug_enabled lg then log debug ev lg else lg.

(** [logUsage]: the one-line summary sent through [info]. *)
Definition logUsage (operation model : string) (durationMs : Z) (success : bool)
    (err : string) (totalTokens : option Z) (lg : t) : t :=
  let tokens :=
    match totalTokens with
    | Some n => if n =? 0 then "" else ", " +:+ Js.show n +:+ " tokens"
    | None => ""
    end in
  let summary :=
    if success
    then operation +:+ " complete: " +:+ model +:+ tokens +:+ ", " +:+ Js.show durationMs +:+ "ms"
    else operation +:+ " failed: " +:+ model +:+ ", " +:+ err in
  log info summary lg.

End Logger.

(* ===================================================================== *)
(** ** src/cost-tracker.ts *)
(* ===================================================================== *)

Module CostTracker.

(** [timestamp] is the instant (epoch milliseconds) whose ISO-8601
    rendering the source stores. *)
Record CostEntry := {
  timestamp : Z;
  model : string;
  operation : string;
  inputCost : Js.Number;
  outputCost : Js.Number;
  totalCost : Js.Number;
  estimated : bool;
  promptTokens : option Z;
  completionTokens : option Z
}.

Record CostSummary := {
  sum_totalCost : Js.Number;
  byModel : gmap string Js.Number;
  byOperation : gmap string Js.Number;
  callCount : nat;
  estimatedCosts : Js.Number;
  since : Z
}.

(** One line of costs.jsonl: either the serialisation of an entry
    ([JSON.stringify(entry)], which [JSON.parse] reads back), or text
    that [JSON.parse] rejects.  The log is taken as the tracker writes it,
    whole lines each ended by a newline, with damage confined to lines
    that no longer parse; a line that parses to something other than an
    entry, and a last line cut short, are outside this model. *)
Inductive Line :=
| EntryLine (e : CostEntry)
| MalformedLine (raw : string).

(** The files the tracker can see, by path.  [write_fails] makes
    [appendFileSync] throw. *)
Record Disk := {
  files : gmap string (list Line);
  write_fails : bool
}.

(** The singleton: its two private fields and the disk it writes to. *)
Record t := {
  entries : list CostEntry;
  costsFile : option string;
  disk : Disk
}.

Definition parse_line (l : Line) : option CostEntry :=
  match l with
  | EntryLine e => Some e
  | MalformedLine _ => None
  end.

(** Load historical costs from file on startup: malformed lines are skipped. *)
Definition loadHistoricalCosts (tr : t) : t :=
  match costsFile tr with
  | None => tr
  | Some f =>
      match files (disk tr) !! f with
      | None => tr
      | Some lines =>
          {| entries := entries tr ++ omap parse_line lines;
             costsFile := costsFile tr;
             disk := disk tr |}
      end
  end.

(** The constructor, given the value of MCP_LOG_DIR and the disk.  An
    empty directory name cannot be created: [mkdirSync] throws and the
    tracker goes on without a file.  Any other directory is taken to
    exist or to be creatable, and [join] to put one separator between its
    arguments. *)
Definition create (MCP_LOG_DIR : option string) (d : Disk) : t :=
  let logDir := default "logs" MCP_LOG_DIR in
  if String.eqb logDir "none"
  then {| entries := []; costsFile := None; disk := d |}
  else if String.eqb logDir ""
  then {| entries := []; costsFile := None; disk := d |}
  else loadHistoricalCosts
         {| entries := []; costsFile := Some (logDir +:+ "/costs.jsonl"); disk := d |}.

Definition appendFileSync (f : string) (l : Line) (d : Disk) : option Disk :=
  if write_fails d then None
  else Some {| files := <[ f := default [] (files d !! f) ++ [l] ]> (files d);
               write_fails := write_fails d |}.

(** Track a cost entry and persist to file; a failed write is swallowed. *)
Definition trackCost (entry : CostEntry) (tr : t) : t :=
  let pushed := entries tr ++ [entry] in
  match costsFile tr with
  | Some f =>
      {| entries := pushed;
         costsFile := costsFile tr;
         disk := default (disk tr) (appendFileSync f (EntryLine entry) (disk tr)) |}
  | None => {| entries := pushed; costsFile := costsFile tr; disk := disk tr |}
  end.

(** [Math.round(n * 1_000_000) / 1_000_000] *)
Definition round (n : Js.Number) : Js.Number := Js.round_micro n.

(** [bucket[k] = (bucket[k] || 0) + v] on a bucket that starts as [{}].
    Under a key that names a function of [Object.prototype] the read finds
    that function, the sum is a string, and what the summary rounds in the
    end is NaN.  Under [__proto__] the assignment is dropped and the key
    never appears. *)
Definition bump (k : string) (v : Js.Number) (bucket : gmap string Js.Number)
    : gmap string Js.Number :=
  if String.eqb k "__proto__" then bucket
  else if Js.inherited k then <[ k := Js.NaN ]> bucket
  else <[ k := Js.add (Js.or0 (bucket !! k)) v ]> bucket.

Record Running := {
  run_total : Js.Number;
  run_byModel : gmap string Js.Number;
  run_byOperation : gmap string Js.Number;
  run_estimated : Js.Number
}.

Definition accumulate (acc : Running) (entry : CostEntry) : Running :=
  {| run_total := Js.add (run_total acc) (totalCost entry);
     run_byModel := bump (model entry) (totalCost entry) (run_byModel acc);
     run_byOperation := bump (operation entry) (totalCost entry) (run_byOperation acc);
     run_estimated := if estimated entry
                      then Js.add (run_estimated acc) (totalCost entry)
                      else run_estimated acc |}.

(** Get cumulative cost summary; [now] is the clock, read when the list is empty. *)
Definition getSummary (now : Z) (tr : t) : CostSummary :=
  let acc := fold_left accumulate (entries tr)
               {| run_total := 0%Q; run_byModel := ∅; run_byOperation := ∅;
                  run_estimated := 0%Q |} in
  {| sum_totalCost := round (run_total acc);
     byModel := round <$> run_byModel acc;
     byOperation := round <$> run_byOperation acc;
     callCount := length (entries tr);
     estimatedCosts := round (run_estimated acc);
     since := match entries tr with e :: _ => timestamp e | [] => now end |}.

(** Reset in-memory costs (does not delete file). *)
Definition reset (tr : t) : t :=
  {| entries := []; costsFile := costsFile tr; disk := disk tr |}.

Definition getEntries (tr : t) : list CostEntry := entries tr.

End CostTracker.

(* ===================================================================== *)
(** ** src/retry.ts *)
(* ===================================================================== *)

Module Retry.

Record RetryOptions := {
  maxRetries : option Z;
  initialDelayMs : option Z;
  maxDelayMs : option Z;
  backoffMultiplier : option Z;
  retryableErrors : option (list string);
  context : option string
}.

Definition no_options : RetryOptions :=
  {| maxRetries := None; initialDelayMs := None; maxDelayMs := None;
     backoffMultiplier := None; retryableErrors := None; context := None |}.

(** [{ ...DEFAULT_RETRY_OPTIONS, ...options }] with [context || "operation"]. *)
Record Resolved := {
  opt_maxRetries : Z;
  opt_initialDelayMs : Z;
  opt_maxDelayMs : Z;
  opt_backoffMultiplier : Z;
  opt_retryableErrors : list string;
  opt_context : string
}.

Definition DEFAULT_RETRY_OPTIONS : Resolved :=
  {| opt_maxRetries := 3;
     opt_initialDelayMs := 1000;
     opt_maxDelayMs := 30000;
     opt_backoffMultiplier := 2;
     opt_retryableErrors :=
       [ "RATE_LIMIT"; "429"; "503"; "502"; "ECONNRESET"; "ETIMEDOUT"; "ENOTFOUND";
         "temporarily unavailable"; "too many requests" ];
     opt_context := "operation" |}.

Definition resolve (options : RetryOptions) : Resolved :=
  {| opt_maxRetries := default (opt_maxRetries DEFAULT_RETRY_OPTIONS) (maxRetries options);
     opt_initialDelayMs := default (opt_initialDelayMs DEFAULT_RETRY_OPTIONS) (initialDelayMs options);
     opt_maxDelayMs := default (opt_maxDelayMs DEFAULT_RETRY_OPTIONS) (maxDelayMs options);
     opt_backoffMultiplier :=
       default (opt_backoffMultiplier DEFAULT_RETRY_OPTIONS) (backoffMultiplier options);
     opt_retryableErrors :=
       default (opt_retryableErrors DEFAULT_RETRY_OPTIONS) (retryableErrors options);
     opt_context := Js.str_or (context options) "operation" |}.

(** The value [isRetryable] returns: some pattern occurs in the message,
    both lower-cased. *)
Definition retryable (error : Js.JsError) (retryableErrors : list string) : bool :=
  let message := Js.message_of error in
  existsb (fun pattern => Js.includes (Js.toLowerCase pattern) (Js.toLowerCase message))
          retryableErrors.

Section Executor.

(** The executor is written once for any world [W] in which the wrapped
    operation, the timer and the logger act. *)
Context {W T : Type}.
Variable fn : W -> Js.Outcome T * W.
Variable sleep : Z -> W -> W.
Variable logging : (Logger.t -> Logger.t) -> W -> W.

(** [isRetryable]: the verdict, and the debug event it emits. *)
Definition isRetryable (error : Js.JsError) (retryableErrors : list string) (w : W) : bool * W :=
  (retryable error retryableErrors,
   logging (Logger.debugLog "Checking if error is retryable") w).

(** [attempt + 1], interpolated. *)
Definition ordinal (attempt : Z) : string := Js.show (attempt + 1).

(** The [for] loop of [withRetry].  [remaining] counts the iterations for
    which [attempt <= opts.maxRetries] still holds; when none is left the
    function falls through to [throw lastError]. *)
Fixpoint retry_loop (opts : Resolved) (remaining : nat) (attempt delay : Z)
    (lastError : Js.JsError) (w : W) : Js.Outcome T * W :=
  match remaining with
  | O => (Js.Throw lastError, w)
  | S remaining' =>
      let ctx := opt_context opts in
      let w :=
        if 0 <? attempt
        then logging (Logger.debugLog (ctx +:+ ": Attempt " +:+ ordinal attempt +:+ " starting")) w
        else w in
      match fn w with
      | (Js.Return result, w) =>
          let w :=
            if 0 <? attempt
            then logging (Logger.log Logger.info
                            (ctx +:+ ": Succeeded after " +:+ ordinal attempt +:+ " attempts")) w
            else w in
          (Js.Return result, w)
      | (Js.Throw error, w) =>
          let w := logging (Logger.debugLog
                              (ctx +:+ ": Attempt " +:+ ordinal attempt +:+ " failed")) w in
          (* attempt === opts.maxRetries || !isRetryable(error, ...) *)
          let '(stop, w) :=
            if attempt =? opt_maxRetries opts then (true, w)
            else let '(r, w) := isRetryable error (opt_retryableErrors opts) w in (negb r, w) in
          if stop
          then
            (* the payload of the warning evaluates isRetryable once more *)
            let '(_, w) := isRetryable error (opt_retryableErrors opts) w in
            let w := logging (Logger.log Logger.warn
                                (ctx +:+ ": Retry exhausted or non-retryable error")) w in
            (Js.Throw error, w)
          else
            let w := logging (Logger.log Logger.info
                                (ctx +:+ ": Retrying after transient error")) w in
            let w := sleep delay w in
            retry_loop opts remaining' (attempt + 1)
                       (Z.min (delay * opt_backoffMultiplier opts) (opt_maxDelayMs opts)) error w
      end
  end.

Definition withRetry (options : RetryOptions) (w : W) : Js.Outcome T * W :=
  let opts := resolve options in
  let w := logging (Logger.debugLog ("Starting " +:+ opt_context opts +:+ " with retry")) w in
  retry_loop opts (Z.to_nat (opt_maxRetries opts + 1)) 0 (opt_initialDelayMs opts)
             Js.undefined_thrown w.

End Executor.

End Retry.

(* ===================================================================== *)
(** ** The remote Responses API, the clock and the process state *)
(* ===================================================================== *)

Module Runtime.

Record Usage := {
  input_tokens : option Z;
  output_tokens : option Z;
  reasoning_tokens : option Z
}.

(** The fields of a response object that the server reads. *)
Record Response := {
  id : option string;
  status : option string;
  output_text : option string;
  usage : option Usage;
  error_message : option string        (* response.error?.message *)
}.

(** The request body handed to [responses.create]. *)
Record Request := {
  req_model : string;
  req_developer : option string;       (* leading developer segment, if any *)
  req_user : string;                   (* user content *)
  req_max_output_tokens : option Z;
  req_verbosity : option Types.VerbosityLevel;
  req_format_name : option string;     (* text.format of type json_schema *)
  req_format_strict : option bool;
  req_format_description : option string;
  req_reasoning_effort : option Types.ReasoningEffort;
  req_reasoning_summary : option Types.ReasoningSummary;
  req_temperature : option Q;
  req_tools : list string;
  req_background : bool
}.

(** The operations of [client.responses]. *)
Inductive RemoteCall :=
| responses_create (req : Request)
| responses_retrieve (response_id : string)
| responses_cancel (response_id : string)
| responses_delete (response_id : string).

(** What the service does with one call: how long it takes and how the
    promise settles. *)
Record Reply := {
  latency : Z;
  settles : Js.Outcome Response
}.

(** The service, as the answers to the successive [create] calls and to
    the successive [retrieve] calls. *)
Record Remote := {
  on_create : nat -> Reply;
  on_retrieve : nat -> Reply
}.

(** The process: the clock ([Date.now()]), the calls issued so far, and
    the two singletons. *)
Record State := {
  now : Z;
  created : nat;
  retrieved : nat;
  calls : list RemoteCall;
  logger : Logger.t;
  costTracker : CostTracker.t
}.

Definition advance (ms : Z) (st : State) : State :=
  {| now := now st + ms; created := created st; retrieved := retrieved st;
     calls := calls st; logger := logger st; costTracker := costTracker st |}.

(** [await sleep(ms)]: the timer fires after the delay [setTimeout] makes
    of [ms]. *)
Definition sleep (ms : Z) (st : State) : State := advance (Js.timer_delay ms) st.

Definition logging (f : Logger.t -> Logger.t) (st : State) : State :=
  {| now := now st; created := created st; retrieved := retrieved st;
     calls := calls st; logger := f (logger st); costTracker := costTracker st |}.

Definition tracking (f : CostTracker.t -> CostTracker.t) (st : State) : State :=
  {| now := now st; created := created st; retrieved := retrieved st;
     calls := calls st; logger := logger st; costTracker := f (costTracker st) |}.

(** [await client.responses.create(req)] *)
Definition create (remote : Remote) (req : Request) (st : State) : Js.Outcome Response * State :=
  let reply := on_create remote (created st) in
  (settles reply,
   {| now := now st + latency reply; created := S (created st); retrieved := retrieved st;
      calls := calls st ++ [responses_create req];
      logger := logger st; costTracker := costTracker st |}).

(** [await client.responses.retrieve(id)] *)
Definition retrieve (remote : Remote) (response_id : string) (st : State)
    : Js.Outcome Response * State :=
  let reply := on_retrieve remote (retrieved st) in
  (settles reply,
   {| now := now st + latency reply; created := created st; retrieved := S (retrieved st);
      calls := calls st ++ [responses_retrieve response_id];
      logger := logger st; costTracker := costTracker st |}).

(** [withTimeout] of retry.ts: the operation races a timer.  The
    operation is started in any case, and before the timer is set: when it
    settles no later than the timer fires it wins the race, otherwise the
    timer rejects. *)
Definition withTimeout {T : Type} (fn : State -> Js.Outcome T * State)
    (timeoutMs : Z) (context : option string) (st : State) : Js.Outcome T * State :=
  let opContext := Js.str_or context "operation" in
  let st := logging (Logger.debugLog (opContext +:+ ": Starting with timeout")) st in
  let startTime := now st in
  let delay := Js.timer_delay timeoutMs in
  let '(outcome, st1) := fn st in
  if now st1 - startTime <=? delay
  then
    match outcome with
    | Js.Return result =>
        (Js.Return result,
         logging (Logger.debugLog (opContext +:+ ": Completed within timeout")) st1)
    | Js.Throw e => (Js.Throw e, st1)
    end
  else
    let st2 := {| now := startTime + delay; created := created st1; retrieved := retrieved st1;
                  calls := calls st1; logger := logger st1; costTracker := costTracker st1 |} in
    (Js.Throw (Js.Error ("TIMEOUT: Operation timed out after " +:+ Js.show timeoutMs +:+ "ms")),
     logging (Logger.log Logger.warn (opContext +:+ ": Timed out")) st2).

(** [usage ? { promptTokens, completionTokens, totalTokens, ... } : undefined] *)
Record TokenUsage := {
  promptTokens : option Z;
  completionTokens : option Z;
  totalTokens : Z;
  reasoningTokens : option Z
}.

Definition extract_usage (keep_reasoning : bool) (raw : option Usage) : option TokenUsage :=
  match raw with
  | Some u =>
      Some {| promptTokens := input_tokens u;
              completionTokens := output_tokens u;
              totalTokens := Js.num_or0 (input_tokens u) + Js.num_or0 (output_tokens u);
              reasoningTokens := if keep_reasoning then reasoning_tokens u else None |}
  | None => None
  end.

(** [usage?.promptTokens || 0] and its sibling. *)
Definition prompt_or0 (u : option TokenUsage) : Z := Js.num_or0 (u ≫= promptTokens).
Definition completion_or0 (u : option TokenUsage) : Z := Js.num_or0 (u ≫= completionTokens).

End Runtime.

(* ===================================================================== *)
(** ** src/providers/text-provider.ts *)
(* ===================================================================== *)

Module TextProvider.

(** Default timeout for generation requests (60 minutes). *)
Definition DEFAULT_TIMEOUT_MS : Z := 60 * 60 * 1000.

(** The [schema] member is an opaque JSON object and is left out. *)
Record StructuredOutputSchema := {
  name : string;
  description : option string;
  strict : option bool
}.

Record TextGenerateOptions := {
  prompt : string;
  systemPrompt : option string;
  model : option string;
  reasoningEffort : option Types.ReasoningEffort;
  verbosity : option Types.VerbosityLevel;
  reasoningSummary : option Types.ReasoningSummary;
  maxOutputTokens : option Z;
  temperature : option Q;
  jsonSchema : option StructuredOutputSchema
}.

Record GenerateResult := {
  text : string;
  res_model : string;
  usage : option Runtime.TokenUsage;
  cost : Pricing.CostInfo
}.

Definition is_none_effort (e : Types.ReasoningEffort) : bool :=
  match e with Types.effort_none => true | _ => false end.

Definition is_off (s : Types.ReasoningSummary) : bool :=
  match s with Types.summary_off => true | _ => false end.

Definition present {A : Type} (x : option A) : bool :=
  match x with Some _ => true | None => false end.

Definition validation_error (msg : string) : Js.JsError :=
  Types.throw_MCPError (Types.new_MCPError Types.VALIDATION_ERROR msg None).

(** The request body built inside the [try] block. *)
Definition build_request (options : TextGenerateOptions) : Runtime.Request :=
  let model := default "gpt-5.2" (model options) in
  let reasoningEffort := default Types.effort_none (reasoningEffort options) in
  let verbosity := default Types.verbosity_medium (verbosity options) in
  let reasoningSummary := default Types.summary_off (reasoningSummary options) in
  let maxOutputTokens := default 8192 (maxOutputTokens options) in
  {| Runtime.req_model := Types.api_model_id model;
     Runtime.req_developer :=
       if Js.falsy_str (systemPrompt options) then None else systemPrompt options;
     Runtime.req_user := prompt options;
     Runtime.req_max_output_tokens := Some maxOutputTokens;
     Runtime.req_verbosity := Some verbosity;
     Runtime.req_format_name := name <$> jsonSchema options;
     Runtime.req_format_strict :=
       (fun s => match strict s with Some false => false | _ => true end) <$> jsonSchema options;
     Runtime.req_format_description :=
       jsonSchema options ≫= (fun s => if Js.falsy_str (description s) then None else description s);
     Runtime.req_reasoning_effort :=
       if is_none_effort reasoningEffort then None else Some reasoningEffort;
     Runtime.req_reasoning_summary :=
       if is_none_effort reasoningEffort then None
       else if is_off reasoningSummary then None else Some reasoningSummary;
     Runtime.req_temperature :=
       if is_none_effort reasoningEffort then temperature options else None;
     Runtime.req_tools := [];
     Runtime.req_background := false |}.

Definition retry_options : Retry.RetryOptions :=
  {| Retry.maxRetries := Some 2;
     Retry.initialDelayMs := None;
     Retry.maxDelayMs := None;
     Retry.backoffMultiplier := None;
     Retry.retryableErrors :=
       Some ["RATE_LIMIT"; "429"; "503"; "502"; "ECONNRESET"; "ETIMEDOUT"];
     Retry.context := Some "text-generation" |}.

(** The [catch] clause of [generate] on a thrown object: error type and
    message. *)
Definition classify (error : Js.JsError) : string * string :=
  if Js.message_includes "API key" error || Js.message_includes "Incorrect API key" error
     || Js.status_eq error 401
  then ("AUTH_ERROR", "Invalid or missing OpenAI API key")
  else if Js.message_includes "quota" error || Js.message_includes "rate" error
          || Js.status_eq error 429
  then ("RATE_LIMIT", "OpenAI API rate limit or quota exceeded. Please wait and retry.")
  else if Js.message_includes "content_policy" error || Js.message_includes "moderation" error
  then ("SAFETY_BLOCK", "Content was blocked by OpenAI safety filters")
  else if Js.message_includes "TIMEOUT" error
  then ("TIMEOUT", "Request timed out. The prompt may be too complex or the service is slow.")
  else ("GENERATION_ERROR", Js.str_or (Js.message error) "Unknown error during generation").

Definition generate (remote : Runtime.Remote) (options : TextGenerateOptions)
    (st : Runtime.State) : Js.Outcome GenerateResult * Runtime.State :=
  let model := default "gpt-5.2" (model options) in
  let reasoningEffort := default Types.effort_none (reasoningEffort options) in
  let startTime := Runtime.now st in
  (* Validation: gpt-5.2-pro only supports medium/high/xhigh reasoning effort *)
  if String.eqb model "gpt-5.2-pro" && negb (Types.isValidProReasoningEffort reasoningEffort)
  then (Js.Throw (validation_error
          ("gpt-5.2-pro only supports reasoning effort: medium, high, xhigh. Got: "
           +:+ Types.effort_name reasoningEffort)), st)
  (* Validation: temperature is only allowed when reasoningEffort="none" *)
  else if present (temperature options) && negb (is_none_effort reasoningEffort)
  then (Js.Throw (validation_error
          ("Temperature is only allowed when reasoning_effort=" +:+ Js.quoted "none"
           +:+ ". Either remove temperature or set reasoning_effort to " +:+ Js.quoted "none"
           +:+ ".")), st)
  (* Validation: structured outputs only supported by gpt-5.2 and gpt-5.2-chat-latest *)
  else if present (jsonSchema options) && negb (Types.supportsStructuredOutput model)
  then (Js.Throw (validation_error
          ("Structured outputs (json_schema) are not supported by " +:+ model
           +:+ ". Use gpt-5.2 or gpt-5.2-chat-latest.")), st)
  else
    let st := Runtime.logging (Logger.debugLog "Starting text generation") st in
    let requestOptions := build_request options in
    let st := Runtime.logging (Logger.debugLog "Text generation API request") st in
    match Retry.withRetry
            (Runtime.withTimeout (Runtime.create remote requestOptions)
                                 DEFAULT_TIMEOUT_MS (Some "text-generation"))
            Runtime.sleep Runtime.logging retry_options st
    with
    | (Js.Return response, st) =>
        let st := Runtime.logging (Logger.debugLog "Text generation API response") st in
        let text := Js.str_or (Runtime.output_text response) "" in
        let usage := Runtime.extract_usage true (Runtime.usage response) in
        let durationMs := Runtime.now st - startTime in
        let cost := Pricing.calculateCost model (Runtime.prompt_or0 usage)
                                          (Runtime.completion_or0 usage) in
        let st := Runtime.tracking (CostTracker.trackCost
                    {| CostTracker.timestamp := Runtime.now st;
                       CostTracker.model := model;
                       CostTracker.operation := "generate_text";
                       CostTracker.inputCost := Pricing.inputCost cost;
                       CostTracker.outputCost := Pricing.outputCost cost;
                       CostTracker.totalCost := Pricing.totalCost cost;
                       CostTracker.estimated := Pricing.estimated cost;
                       CostTracker.promptTokens := usage ≫= Runtime.promptTokens;
                       CostTracker.completionTokens := usage ≫= Runtime.completionTokens |}) st in
        let st := Runtime.logging (Logger.logUsage "generate_text" model durationMs true ""
                                     (Runtime.totalTokens <$> usage)) st in
        (Js.Return {| text := text; res_model := model; usage := usage; cost := cost |}, st)
    | (Js.Throw error, st) =>
        if Js.nullish error
        then
          (* [error.message] on a thrown undefined: the catch clause throws *)
          (Js.Throw (Js.TypeError_reading "message"), st)
        else
          let durationMs := Runtime.now st - startTime in
          let st := Runtime.logging (Logger.log Logger.error "Text generation API error") st in
          let '(errorType, errorMessage) := classify error in
          let failure := errorType +:+ ": " +:+ errorMessage in
          let st := Runtime.logging (Logger.logUsage "generate_text" model durationMs false
                                       failure None) st in
          (Js.Throw (Js.Error failure), st)
    end.

End TextProvider.

(* ===================================================================== *)
(** ** src/providers/deep-research-provider.ts *)
(* ===================================================================== *)

Module DeepResearch.

(** Default timeout: 30 minutes; default poll interval: 10 seconds. *)
Definition DEFAULT_TIMEOUT_MS : Z := 30 * 60 * 1000.
Definition DEFAULT_POLL_INTERVAL_MS : Z := 10 * 1000.

Record DeepResearchOptions := {
  query : string;
  model : option string;
  timeoutMs : option Z;
  pollIntervalMs : option Z
}.

Inductive ResultStatus := completed | failed.

(** What [pollForCompletion] resolves to. *)
Record PollResult := {
  poll_text : string;
  poll_status : ResultStatus;
  poll_usage : option Runtime.TokenUsage
}.

Record DeepResearchResult := {
  text : string;
  res_model : string;
  responseId : string;
  status : ResultStatus;
  durationMs : Z;
  usage : option Runtime.TokenUsage;
  cost : Pricing.CostInfo
}.

Definition research_instructions : string :=
  "You are a research analyst. Conduct thorough research on the given topic. "
  +:+ "Write a well-structured, comprehensive report with citations and sources. "
  +:+ "Include key findings, analysis, and relevant data.".

Definition research_request (query model : string) : Runtime.Request :=
  {| Runtime.req_model := Types.api_model_id model;
     Runtime.req_developer := Some research_instructions;
     Runtime.req_user := query;
     Runtime.req_max_output_tokens := None;
     Runtime.req_verbosity := None;
     Runtime.req_format_name := None;
     Runtime.req_format_strict := None;
     Runtime.req_format_description := None;
     Runtime.req_reasoning_effort := None;
     Runtime.req_reasoning_summary := None;
     Runtime.req_temperature := None;
     Runtime.req_tools := ["web_search_preview"; "code_interpreter"];
     Runtime.req_background := true |}.

(** Start a new research task in background mode. *)
Definition startResearch (remote : Runtime.Remote) (query model : string)
    (st : Runtime.State) : Js.Outcome string * Runtime.State :=
  let requestOptions := research_request query model in
  let st := Runtime.logging (Logger.debugLog "Deep research API request") st in
  let '(settled, st) := Runtime.create remote requestOptions st in
  (* the [try] block: either the identifier, or the value that reaches [catch] *)
  let '(tried, st) :=
    match settled with
    | Js.Return response =>
        let st := Runtime.logging (Logger.debugLog "Deep research started successfully") st in
        if Js.falsy_str (Runtime.id response)
        then (inr (Js.Error "API_ERROR: No response ID returned from API"), st)
        else (inl (default "" (Runtime.id response)), st)
    | Js.Throw error => (inr error, st)
    end in
  match tried with
  | inl responseId => (Js.Return responseId, st)
  | inr error =>
      if Js.nullish error
      then
        (* [error.name] on a thrown undefined: the catch clause throws *)
        (Js.Throw (Js.TypeError_reading "name"), st)
      else
        let st := Runtime.logging (Logger.log Logger.error "Deep research start error") st in
        if Js.message_includes "API key" error || Js.message_includes "Incorrect API key" error
           || Js.status_eq error 401
        then (Js.Throw (Js.Error "AUTH_ERROR: Invalid or missing OpenAI API key"), st)
        else if Js.status_eq error 429
        then (Js.Throw (Js.Error "RATE_LIMIT: OpenAI API rate limit exceeded. Please wait and retry."), st)
        else (Js.Throw (Js.Error ("API_ERROR: " +:+ Js.message_of error)), st)
  end.

Definition timeout_message (elapsed : Z) (responseId : string) : string :=
  "TIMEOUT: Research timed out after " +:+ Js.show (Js.round_minutes elapsed) +:+ " minutes. "
  +:+ "The research may still be running - response ID: " +:+ responseId.

Definition status_is (s : string) (response : Runtime.Response) : bool :=
  match Runtime.status response with
  | Some x => String.eqb x s
  | None => false
  end.

(** How one pass through the [try] block of the poll loop ends. *)
Inductive Tried :=
| Resolved (result : PollResult)       (* return *)
| Raised (error : Js.JsError)          (* control reaches the catch clause *)
| Slept.                               (* fell through after the sleep *)

Definition poll_try (remote : Runtime.Remote) (responseId : string) (pollIntervalMs : Z)
    (st : Runtime.State) : Tried * Runtime.State :=
  match Runtime.retrieve remote responseId st with
  | (Js.Throw error, st) => (Raised error, st)
  | (Js.Return response, st) =>
      let st := Runtime.logging (Logger.debugLog "Research poll response") st in
      if status_is "completed" response
      then
        let text := Js.str_or (Runtime.output_text response) "" in
        if String.eqb text ""
        then (Raised (Js.Error "API_ERROR: Research completed but no output text found"), st)
        else (Resolved {| poll_text := text;
                          poll_status := completed;
                          poll_usage := Runtime.extract_usage false (Runtime.usage response) |}, st)
      else if status_is "failed" response
      then (Raised (Js.Error ("RESEARCH_FAILED: " +:+
                      Js.str_or (Runtime.error_message response)
                                "Research failed with unknown error")), st)
      else (* still "in_progress" or similar - wait and poll again *)
        (Slept, Runtime.sleep pollIntervalMs st)
  end.

(** "If it's our own error, re-throw", on a thrown object. *)
Definition own_error (error : Js.JsError) : bool :=
  Js.message_startsWith "TIMEOUT:" error
  || Js.message_startsWith "RESEARCH_FAILED:" error
  || Js.message_startsWith "API_ERROR:" error.

(** Poll for research completion.  The source loops [while (true)]; [fuel]
    bounds the number of passes, and [None] means it ran out. *)
Fixpoint pollForCompletion (fuel : nat) (remote : Runtime.Remote) (responseId : string)
    (timeoutMs pollIntervalMs startTime : Z) (st : Runtime.State)
    : option (Js.Outcome PollResult * Runtime.State) :=
  match fuel with
  | O => None
  | S fuel' =>
      let elapsed := Runtime.now st - startTime in
      if timeoutMs <? elapsed
      then Some (Js.Throw (Js.Error (timeout_message elapsed responseId)), st)
      else
        let st := Runtime.logging (Logger.debugLog "Polling research status") st in
        match poll_try remote responseId pollIntervalMs st with
        | (Resolved result, st) => Some (Js.Return result, st)
        | (Slept, st) =>
            pollForCompletion fuel' remote responseId timeoutMs pollIntervalMs startTime st
        | (Raised error, st) =>
            if Js.nullish error
            then
              (* [error.message] on a thrown undefined: the catch clause throws *)
              Some (Js.Throw (Js.TypeError_reading "message"), st)
            else if own_error error
            then Some (Js.Throw error, st)
            else
              (* Otherwise, it's a poll error - log and retry *)
              let st := Runtime.logging
                          (Logger.log Logger.warn "Research poll error, retrying") st in
              let st := Runtime.sleep pollIntervalMs st in
              pollForCompletion fuel' remote responseId timeoutMs pollIntervalMs startTime st
        end
  end.

(** The ledger record [research] writes. *)
Definition cost_entry (at_ms : Z) (model : string) (cost : Pricing.CostInfo)
    (usage : option Runtime.TokenUsage) : CostTracker.CostEntry :=
  {| CostTracker.timestamp := at_ms;
     CostTracker.model := model;
     CostTracker.operation := "deep_research";
     CostTracker.inputCost := Pricing.inputCost cost;
     CostTracker.outputCost := Pricing.outputCost cost;
     CostTracker.totalCost := Pricing.totalCost cost;
     (* Mark as estimated if no usage data *)
     CostTracker.estimated :=
       Pricing.estimated cost || match usage with Some _ => false | None => true end;
     CostTracker.promptTokens := usage ≫= Runtime.promptTokens;
     CostTracker.completionTokens := usage ≫= Runtime.completionTokens |}.

(** Start a deep research task and poll until completion. *)
Definition research (fuel : nat) (remote : Runtime.Remote) (options : DeepResearchOptions)
    (st : Runtime.State) : option (Js.Outcome DeepResearchResult * Runtime.State) :=
  let model := default "o3-deep-research" (model options) in
  let timeoutMs := default DEFAULT_TIMEOUT_MS (timeoutMs options) in
  let pollIntervalMs := default DEFAULT_POLL_INTERVAL_MS (pollIntervalMs options) in
  let startTime := Runtime.now st in
  let st := Runtime.logging (Logger.debugLog "Starting deep research") st in
  match startResearch remote (query options) model st with
  | (Js.Throw error, st) => Some (Js.Throw error, st)
  | (Js.Return responseId, st) =>
      let st := Runtime.logging (Logger.log Logger.info "Deep research started") st in
      match pollForCompletion fuel remote responseId timeoutMs pollIntervalMs startTime st with
      | None => None
      | Some (Js.Throw error, st) => Some (Js.Throw error, st)
      | Some (Js.Return result, st) =>
          let durationMs := Runtime.now st - startTime in
          let st := Runtime.logging (Logger.log Logger.info "Deep research completed") st in
          let cost := Pricing.calculateCost model (Runtime.prompt_or0 (poll_usage result))
                                            (Runtime.completion_or0 (poll_usage result)) in
          let st := Runtime.tracking
                      (CostTracker.trackCost
                         (cost_entry (Runtime.now st) model cost (poll_usage result))) st in
          let st := Runtime.logging
                      (Logger.logUsage "deep_research" model durationMs
                         match poll_status result with completed => true | failed => false end
                         "" (Runtime.totalTokens <$> poll_usage result)) st in
          Some (Js.Return {| text := poll_text result;
                             res_model := model;
                             responseId := responseId;
                             status := poll_status result;
                             durationMs := durationMs;
                             usage := poll_usage result;
                             cost := cost |}, st)
      end
  end.

(** The names the class declares: one field, the methods, and the
    constructor.  A property read of any other own name yields [undefined]. *)
Definition OpenAIDeepResearchProvider_members : list string :=
  ["client"; "constructor"; "research"; "startResearch"; "pollForCompletion"; "sleep";
   "getModelInfo"].

End DeepResearch.

(* ===================================================================== *)
(** ** src/providers/web-search-provider.ts *)
(* ===================================================================== *)

Module WebSearch.

(** Default timeout for web search requests (60 minutes). *)
Definition DEFAULT_TIMEOUT_MS : Z := 60 * 60 * 1000.

(** Maximum allowed domains for filtering. *)
Definition MAX_ALLOWED_DOMAINS : nat := 100.

Record WebSearchOptions := {
  query : string;
  model : option string;
  allowedDomains : option (list string);
  includeSources : option bool
}.

Record Source := {
  url : string;
  title : option string
}.

(** One element of [response.output]: its [type] and [action?.sources]. *)
Record OutputItem := {
  item_type : string;
  action_sources : option (list Source)
}.

(** A response to a search: the common fields and the [output] array. *)
Record SearchResponse := {
  response : Runtime.Response;
  output : option (list OutputItem)
}.

Record WebSearchResult := {
  text : string;
  res_model : string;
  usage : option Runtime.TokenUsage;
  cost : Pricing.CostInfo;
  sources : option (list Source)
}.

(** The request body of a search. *)
Record SearchRequest := {
  sreq_model : string;
  sreq_input : string;
  sreq_allowed_domains : option (list string);   (* tools[0].web_search.allowed_domains *)
  sreq_include : list string
}.

(** The fields of a search request that every request has, for the call trace. *)
Definition wire (req : SearchRequest) : Runtime.Request :=
  {| Runtime.req_model := sreq_model req;
     Runtime.req_developer := None;
     Runtime.req_user := sreq_input req;
     Runtime.req_max_output_tokens := None;
     Runtime.req_verbosity := None;
     Runtime.req_format_name := None;
     Runtime.req_format_strict := None;
     Runtime.req_format_description := None;
     Runtime.req_reasoning_effort := None;
     Runtime.req_reasoning_summary := None;
     Runtime.req_temperature := None;
     Runtime.req_tools := ["web_search"];
     Runtime.req_background := false |}.

Record SearchReply := {
  latency : Z;
  settles : Js.Outcome SearchResponse
}.

(** The service, as the answers to the successive search requests. *)
Definition SearchRemote : Type := nat -> SearchReply.

(** [await client.responses.create(requestOptions)] for a search. *)
Definition create (remote : SearchRemote) (req : SearchRequest) (st : Runtime.State)
    : Js.Outcome SearchResponse * Runtime.State :=
  let reply := remote (Runtime.created st) in
  (settles reply,
   {| Runtime.now := Runtime.now st + latency reply;
      Runtime.created := S (Runtime.created st);
      Runtime.retrieved := Runtime.retrieved st;
      Runtime.calls := Runtime.calls st ++ [Runtime.responses_create (wire req)];
      Runtime.logger := Runtime.logger st;
      Runtime.costTracker := Runtime.costTracker st |}).

Definition validation_error (msg : string) : Js.JsError :=
  Types.throw_MCPError (Types.new_MCPError Types.VALIDATION_ERROR msg None).

Definition build_request (options : WebSearchOptions) : SearchRequest :=
  let model := default "gpt-5.2" (model options) in
  let allowedDomains := default [] (allowedDomains options) in
  let includeSources := default true (includeSources options) in
  {| sreq_model := Types.api_model_id model;
     sreq_input := query options;
     sreq_allowed_domains :=
       match allowedDomains with [] => None | _ :: _ => Some allowedDomains end;
     sreq_include := if includeSources then ["web_search_call.action.sources"] else [] |}.

(** The nested loops over [response.output] and [item.action.sources]. *)
Fixpoint extract_sources (items : list OutputItem) : list Source :=
  match items with
  | [] => []
  | item :: rest =>
      match action_sources item with
      | Some found =>
          if String.eqb (item_type item) "web_search_call"
          then found ++ extract_sources rest
          else extract_sources rest
      | None => extract_sources rest
      end
  end.

Definition retry_options : Retry.RetryOptions :=
  {| Retry.maxRetries := Some 2;
     Retry.initialDelayMs := None;
     Retry.maxDelayMs := None;
     Retry.backoffMultiplier := None;
     Retry.retryableErrors :=
       Some ["RATE_LIMIT"; "429"; "503"; "502"; "ECONNRESET"; "ETIMEDOUT"];
     Retry.context := Some "web-search" |}.

(** The [catch] clause of [search] on a thrown object: error type and
    message. *)
Definition classify (error : Js.JsError) : string * string :=
  if Js.message_includes "API key" error || Js.message_includes "Incorrect API key" error
     || Js.status_eq error 401
  then ("AUTH_ERROR", "Invalid or missing OpenAI API key")
  else if Js.message_includes "quota" error || Js.message_includes "rate" error
          || Js.status_eq error 429
  then ("RATE_LIMIT", "OpenAI API rate limit or quota exceeded. Please wait and retry.")
  else if Js.message_includes "TIMEOUT" error
  then ("TIMEOUT", "Web search timed out. Try a simpler query.")
  else ("SEARCH_ERROR", Js.str_or (Js.message error) "Unknown error during web search").

Definition search (remote : SearchRemote) (options : WebSearchOptions) (st : Runtime.State)
    : Js.Outcome WebSearchResult * Runtime.State :=
  let model := default "gpt-5.2" (model options) in
  let allowedDomains := default [] (allowedDomains options) in
  let includeSources := default true (includeSources options) in
  let startTime := Runtime.now st in
  (* Validate allowed domains *)
  if Nat.ltb MAX_ALLOWED_DOMAINS (length allowedDomains)
  then (Js.Throw (validation_error
          ("Maximum " +:+ Js.show (Z.of_nat MAX_ALLOWED_DOMAINS)
           +:+ " allowed domains permitted. Got: "
           +:+ Js.show (Z.of_nat (length allowedDomains)))), st)
  else
    (* Validate domain format (no scheme) *)
    match List.find (Js.includes "://") allowedDomains with
    | Some domain =>
        (Js.Throw (validation_error
           ("Domains must not include scheme (https://). Got: " +:+ domain)), st)
    | None =>
        let st := Runtime.logging (Logger.debugLog "Starting web search") st in
        let requestOptions := build_request options in
        let st := Runtime.logging (Logger.debugLog "Web search API request") st in
        match Retry.withRetry
                (Runtime.withTimeout (create remote requestOptions)
                                     DEFAULT_TIMEOUT_MS (Some "web-search"))
                Runtime.sleep Runtime.logging retry_options st
        with
        | (Js.Return reply, st) =>
            let st := Runtime.logging (Logger.debugLog "Web search API response") st in
            let text := Js.str_or (Runtime.output_text (response reply)) "" in
            let found :=
              if includeSources
              then match output reply with
                   | Some items => extract_sources items
                   | None => []
                   end
              else [] in
            let usage := Runtime.extract_usage false (Runtime.usage (response reply)) in
            let durationMs := Runtime.now st - startTime in
            let cost := Pricing.calculateCost model (Runtime.prompt_or0 usage)
                                              (Runtime.completion_or0 usage) in
            let st := Runtime.tracking (CostTracker.trackCost
                        {| CostTracker.timestamp := Runtime.now st;
                           CostTracker.model := model;
                           CostTracker.operation := "web_search";
                           CostTracker.inputCost := Pricing.inputCost cost;
                           CostTracker.outputCost := Pricing.outputCost cost;
                           CostTracker.totalCost := Pricing.totalCost cost;
                           CostTracker.estimated := Pricing.estimated cost;
                           CostTracker.promptTokens := usage ≫= Runtime.promptTokens;
                           CostTracker.completionTokens :=
                             usage ≫= Runtime.completionTokens |}) st in
            let st := Runtime.logging (Logger.logUsage "web_search" model durationMs true ""
                                         (Runtime.totalTokens <$> usage)) st in
            (Js.Return {| text := text;
                          res_model := model;
                          usage := usage;
                          cost := cost;
                          sources := match found with [] => None | _ :: _ => Some found end |},
             st)
        | (Js.Throw error, st) =>
            if Js.nullish error
            then
              (* [error.message] on a thrown undefined: the catch clause throws *)
              (Js.Throw (Js.TypeError_reading "message"), st)
            else
              let durationMs := Runtime.now st - startTime in
              let st := Runtime.logging (Logger.log Logger.error "Web search API error") st in
              let '(errorType, errorMessage) := classify error in
              let failure := errorType +:+ ": " +:+ errorMessage in
              let st := Runtime.logging (Logger.logUsage "web_search" model durationMs false
                                           failure None) st in
              (Js.Throw (Js.Error failure), st)
        end
    end.

End WebSearch.

(* ===================================================================== *)
(** ** src/index.ts: tool handlers *)
(* ===================================================================== *)

Module Server.

(** The payload of a tool response: the text and the error flag. *)
Record ToolResponse := {
  content_text : string;
  isError : bool
}.

(** A function value stored on the provider instance, called with a
    response identifier. *)
Definition Method : Type :=
  string -> Runtime.State -> Js.Outcome DeepResearch.DeepResearchResult * Runtime.State.

(** [await deepResearchProvider[name](arg)].  [bodies] holds the function
    values of the declared members; calling a name the instance does not
    have throws a TypeError. *)
Definition call_member (bodies : string -> Method) (name arg : string) (st : Runtime.State)
    : Js.Outcome DeepResearch.DeepResearchResult * Runtime.State :=
  if Types.arr_includes DeepResearch.OpenAIDeepResearchProvider_members name
  then bodies name arg st
  else (Js.Throw (Js.Error ("deepResearchProvider." +:+ name +:+ " is not a function")), st).

(** The [check_research] branch of the tool dispatcher. *)
Definition check_research (bodies : string -> Method) (response_id : option string)
    (st : Runtime.State) : ToolResponse * Runtime.State :=
  if Js.falsy_str response_id || Js.blank (default "" response_id)
  then ({| content_text := "Error: response_id is required"; isError := true |}, st)
  else
    let responseId := default "" response_id in
    let st := Runtime.logging (Logger.log Logger.info "Checking research status") st in
    match call_member bodies "checkResearch" responseId st with
    | (Js.Return result, st) =>
        (* Return result (could be completed, in_progress, or failed) *)
        ({| content_text := DeepResearch.text result; isError := false |}, st)
    | (Js.Throw error, st) =>
        let errorMessage := Js.str_or (Js.message error) "Unknown error checking research status" in
        let st := Runtime.logging (Logger.log Logger.error "Check research failed") st in
        ({| content_text := "Error: " +:+ errorMessage; isError := true |}, st)
    end.

(** The [get_cost_summary] branch: read the summary, then reset on request. *)
Definition get_cost_summary (reset : option bool) (st : Runtime.State)
    : CostTracker.CostSummary * bool * Runtime.State :=
  let summary := CostTracker.getSummary (Runtime.now st) (Runtime.costTracker st) in
  let st := if default false reset then Runtime.tracking CostTracker.reset st else st in
  (summary, default false reset, st).

End Server.

(* ===================================================================== *)
(** ** src/index.ts: the generation, search and research handlers *)
(* ===================================================================== *)

Module Tools.

(** The [_meta] block of a successful response, as far as it is shared by
    the tools. *)
Record Meta := {
  meta_model : string;
  meta_usage : option Runtime.TokenUsage;
  meta_cost : Pricing.CostInfo;
  meta_responseId : option string;
  meta_sourceCount : option nat
}.

Record ToolResult := {
  response : Server.ToolResponse;
  meta : option Meta
}.

Definition failure (msg : string) : ToolResult :=
  {| response := {| Server.content_text := msg; Server.isError := true |}; meta := None |}.

(** [!s || s.trim().length === 0] on a required string argument. *)
Definition missing (s : option string) : bool :=
  Js.falsy_str s || Js.blank (default "" s).

(** [model && !known(model)]: an absent or empty model passes. *)
Definition unknown_model (known : string -> bool) (model : option string) : bool :=
  negb (Js.falsy_str model) && negb (known (default "" model)).

(** [arr.join(", ")] *)
Definition join (arr : list string) : string := String.concat ", " arr.

Record GenerateTextArgs := {
  prompt : option string;
  system_prompt : option string;
  gt_model : option string;
  reasoning_effort : option Types.ReasoningEffort;
  verbosity : option Types.VerbosityLevel;
  reasoning_summary : option Types.ReasoningSummary;
  max_output_tokens : option Z;
  temperature : option Q;
  json_schema : option TextProvider.StructuredOutputSchema
}.

Definition generate_text (remote : Runtime.Remote) (args : GenerateTextArgs)
    (st : Runtime.State) : ToolResult * Runtime.State :=
  if missing (prompt args)
  then (failure "Error: Prompt cannot be empty", st)
  else if unknown_model Types.isTextModel (gt_model args)
  then (failure ("Error: Unknown text model " +:+ Js.quoted (default "" (gt_model args))
                 +:+ ". Supported models: " +:+ join Types.TEXT_MODELS), st)
  else
    match TextProvider.generate remote
            {| TextProvider.prompt := default "" (prompt args);
               TextProvider.systemPrompt := system_prompt args;
               TextProvider.model := gt_model args;
               TextProvider.reasoningEffort := reasoning_effort args;
               TextProvider.verbosity := verbosity args;
               TextProvider.reasoningSummary := reasoning_summary args;
               TextProvider.maxOutputTokens := max_output_tokens args;
               TextProvider.temperature := temperature args;
               TextProvider.jsonSchema := json_schema args |} st
    with
    | (Js.Return result, st) =>
        ({| response := {| Server.content_text := Js.str_or (Some (TextProvider.text result)) "";
                           Server.isError := false |};
            meta := Some {| meta_model := TextProvider.res_model result;
                            meta_usage := TextProvider.usage result;
                            meta_cost := TextProvider.cost result;
                            meta_responseId := None;
                            meta_sourceCount := None |} |}, st)
    | (Js.Throw error, st) =>
        let errorMessage := Js.str_or (Js.message error) "Unknown error during generation" in
        let st := Runtime.logging (Logger.log Logger.error "Text generation failed") st in
        (failure ("Error: " +:+ errorMessage), st)
    end.

Record WebSearchArgs := {
  ws_query : option string;
  ws_model : option string;
  allowed_domains : option (list string);
  include_sources : option bool
}.

Definition newline : string := String (ascii_of_nat 10) EmptyString.

(** One line of the source list: [- [${title || url}](${url})] and a newline. *)
Definition source_line (source : WebSearch.Source) : string :=
  "- [" +:+ Js.str_or (WebSearch.title source) (WebSearch.url source) +:+ "]("
  +:+ WebSearch.url source +:+ ")" +:+ newline.

(** The response text: the answer, followed by the source list when there is one. *)
Definition with_sources (text : string) (sources : option (list WebSearch.Source)) : string :=
  match sources with
  | Some (first :: rest) =>
      fold_left (fun acc source => acc +:+ source_line source) (first :: rest)
        (text +:+ newline +:+ newline +:+ "---" +:+ newline +:+ "**Sources:**" +:+ newline)
  | Some [] | None => text
  end.

Definition web_search (remote : WebSearch.SearchRemote) (args : WebSearchArgs)
    (st : Runtime.State) : ToolResult * Runtime.State :=
  if missing (ws_query args)
  then (failure "Error: Query cannot be empty", st)
  else if unknown_model Types.isWebSearchModel (ws_model args)
  then (failure ("Error: Unknown web search model " +:+ Js.quoted (default "" (ws_model args))
                 +:+ ". Supported models: " +:+ join Types.WEB_SEARCH_MODELS), st)
  else
    match WebSearch.search remote
            {| WebSearch.query := default "" (ws_query args);
               WebSearch.model := ws_model args;
               WebSearch.allowedDomains := allowed_domains args;
               WebSearch.includeSources := include_sources args |} st
    with
    | (Js.Return result, st) =>
        ({| response := {| Server.content_text :=
                             with_sources (WebSearch.text result) (WebSearch.sources result);
                           Server.isError := false |};
            meta := Some {| meta_model := WebSearch.res_model result;
                            meta_usage := WebSearch.usage result;
                            meta_cost := WebSearch.cost result;
                            meta_responseId := None;
                            meta_sourceCount :=
                              Some (length (default [] (WebSearch.sources result))) |} |}, st)
    | (Js.Throw error, st) =>
        let errorMessage := Js.str_or (Js.message error) "Unknown error during web search" in
        let st := Runtime.logging (Logger.log Logger.error "Web search failed") st in
        (failure ("Error: " +:+ errorMessage), st)
    end.

Record DeepResearchArgs := {
  dr_query : option string;
  dr_model : option string;
  timeout_minutes : option Z
}.

(** [(timeoutMinutes || 60) * 60 * 1000] *)
Definition timeout_ms (timeout_minutes : option Z) : Z :=
  (match timeout_minutes with
   | Some m => if m =? 0 then 60 else m
   | None => 60
   end) * 60 * 1000.

(** The options the handler passes to [research]. *)
Definition research_options (args : DeepResearchArgs) : DeepResearch.DeepResearchOptions :=
  {| DeepResearch.query := default "" (dr_query args);
     DeepResearch.model := dr_model args;
     DeepResearch.timeoutMs := Some (timeout_ms (timeout_minutes args));
     DeepResearch.pollIntervalMs := None |}.

(** The [deep_research] branch; [None] when the poll loop ran out of fuel. *)
Definition deep_research (fuel : nat) (remote : Runtime.Remote) (args : DeepResearchArgs)
    (st : Runtime.State) : option (ToolResult * Runtime.State) :=
  if missing (dr_query args)
  then Some (failure "Error: Query cannot be empty", st)
  else if unknown_model Types.isDeepResearchModel (dr_model args)
  then Some (failure ("Error: Unknown deep research model "
                      +:+ Js.quoted (default "" (dr_model args))
                      +:+ ". Supported models: " +:+ join Types.DEEP_RESEARCH_MODELS), st)
  else
    let st := Runtime.logging (Logger.log Logger.info "Starting deep research") st in
    match DeepResearch.research fuel remote (research_options args) st with
    | None => None
    | Some (Js.Return result, st) =>
        Some ({| response := {| Server.content_text := DeepResearch.text result;
                                Server.isError := false |};
                 meta := Some {| meta_model := DeepResearch.res_model result;
                                 meta_usage := DeepResearch.usage result;
                                 meta_cost := DeepResearch.cost result;
                                 meta_responseId := Some (DeepResearch.responseId result);
                                 meta_sourceCount := None |} |}, st)
    | Some (Js.Throw error, st) =>
        let errorMessage := Js.str_or (Js.message error) "Unknown error during deep research" in
        let st := Runtime.logging (Logger.log Logger.error "Deep research failed") st in
        Some (failure ("Error: " +:+ errorMessage), st)
    end.

End Tools.

(* ===================================================================== *)
(** ** Vocabulary of the properties *)
(* ===================================================================== *)

Module Vocabulary.

(** The signals, in the words of the classifier's rules. *)
Definition auth_signal (e : Js.JsError) : bool :=
  Types.status_is e 401 || Js.includes "API key" (Js.message_of e)
  || Js.includes "unauthorized" (Js.message_of e)
  || Js.includes "Incorrect API key" (Js.message_of e).

Definition rate_signal (e : Js.JsError) : bool :=
  Types.status_is e 429 || Js.includes "rate" (Js.message_of e)
  || Js.includes "quota" (Js.message_of e)
  || Js.includes "too many requests" (Js.message_of e).

Definition safety_signal (e : Js.JsError) : bool :=
  Js.includes "safety" (Js.message_of e) || Js.includes "content_policy" (Js.message_of e).

Definition content_signal (e : Js.JsError) : bool :=
  Js.includes "blocked" (Js.message_of e) || Js.includes "content policy" (Js.message_of e)
  || Js.includes "moderation" (Js.message_of e).

Definition timeout_signal (e : Js.JsError) : bool :=
  Js.includes "TIMEOUT" (Js.message_of e) || Js.includes "timed out" (Js.message_of e).

(** The ordered rule table and its first-match reading. *)
Definition classifier_rules : list ((Js.JsError -> bool) * Types.ErrorCategory) :=
  [ (auth_signal, Types.AUTH_ERROR);
    (rate_signal, Types.RATE_LIMIT);
    (safety_signal, Types.SAFETY_BLOCK);
    (content_signal, Types.CONTENT_BLOCKED);
    (timeout_signal, Types.TIMEOUT) ].

Fixpoint first_match (rules : list ((Js.JsError -> bool) * Types.ErrorCategory))
    (e : Js.JsError) : Types.ErrorCategory :=
  match rules with
  | [] => Types.API_ERROR
  | (signal, kind) :: rest => if signal e then kind else first_match rest e
  end.

(** Some invocation of [fn], made when it had been invoked [n] times
    before, failed with [e]. *)
Definition fails_at {W T : Type} (fn : W -> Js.Outcome T * W) (invocations : W -> nat)
    (n : nat) (e : Js.JsError) : Prop :=
  exists w, invocations w = n /\ fst (fn w) = Js.Throw e.

(** The outcome is a rejection by the validation layer. *)
Definition is_validation_error {A : Type} (o : Js.Outcome A) : bool :=
  match o with
  | Js.Throw e => Js.message_startsWith "VALIDATION_ERROR:" e
  | Js.Return _ => false
  end.

(** [generate] rejected the options: it threw a VALIDATION_ERROR and left
    the process as it was, so no request was built, logged or sent. *)
Definition rejected (run : Js.Outcome TextProvider.GenerateResult * Runtime.State)
    (st : Runtime.State) : Prop :=
  exists msg, fst run = Js.Throw (Js.Error ("VALIDATION_ERROR: " +:+ msg)) /\ snd run = st.

(** [generate] accepted the options: whatever the service answered, the
    outcome is not a validation error and the first call issued is the
    [create] of the request built from the options. *)
Definition accepted (run : Js.Outcome TextProvider.GenerateResult * Runtime.State)
    (st : Runtime.State) (options : TextProvider.TextGenerateOptions) : Prop :=
  is_validation_error (fst run) = false
  /\ exists rest,
       Runtime.calls (snd run)
       = Runtime.calls st ++ Runtime.responses_create (TextProvider.build_request options) :: rest.

(** The [n]-th retrieval finds the job still running. *)
Definition in_progress_at (remote : Runtime.Remote) (n : nat) : Prop :=
  exists response,
    Runtime.settles (Runtime.on_retrieve remote n) = Js.Return response
    /\ Runtime.status response = Some "in_progress".

(** The [n]-th retrieval finds the job completed with the report [text]. *)
Definition completed_at (remote : Runtime.Remote) (n : nat) (response : Runtime.Response)
    (text : string) : Prop :=
  Runtime.settles (Runtime.on_retrieve remote n) = Js.Return response
  /\ Runtime.status response = Some "completed"
  /\ Runtime.output_text response = Some text
  /\ text <> "".

(** No call has a non-negative duration missing. *)
Definition latencies_nonneg (remote : Runtime.Remote) : Prop :=
  forall n, 0 <= Runtime.latency (Runtime.on_retrieve remote n).

(** The calls that would cancel or delete the remote job. *)
Definition cancels (c : Runtime.RemoteCall) : bool :=
  match c with
  | Runtime.responses_cancel _ | Runtime.responses_delete _ => true
  | Runtime.responses_create _ | Runtime.responses_retrieve _ => false
  end.

(** The state in which one pass of the poll loop, having found nothing
    final, hands over to the next: the pass logged, retrieved once,
    logged [entry] (when debug logging allows) and slept. *)
Definition next_pass (remote : Runtime.Remote) (responseId : string) (pollIntervalMs : Z)
    (note : Logger.t -> Logger.t) (st : Runtime.State) : Runtime.State :=
  Runtime.sleep pollIntervalMs
    (Runtime.logging note
       (snd (Runtime.retrieve remote responseId
               (Runtime.logging (Logger.debugLog "Polling research status") st)))).

(** [research] got a job identifier from the service. *)
Definition started_with (remote : Runtime.Remote) (st : Runtime.State) (rid : string) : Prop :=
  exists response,
    Runtime.settles (Runtime.on_create remote (Runtime.created st)) = Js.Return response
    /\ Runtime.id response = Some rid
    /\ rid <> "".

(** The state right after the retrieval of a pass and the debug event that
    follows a settled response. *)
Definition retrieved_state (remote : Runtime.Remote) (responseId : string)
    (st : Runtime.State) : Runtime.State :=
  Runtime.logging (Logger.debugLog "Research poll response")
    (snd (Runtime.retrieve remote responseId
            (Runtime.logging (Logger.debugLog "Polling research status") st))).

(** What one pass of the poll loop does to the process besides the clock
    and the log: one more retrieval of the same job, and nothing else. *)
Definition one_retrieval (responseId : string) (st st1 : Runtime.State) : Prop :=
  Runtime.retrieved st1 = S (Runtime.retrieved st)
  /\ Runtime.calls st1 = Runtime.calls st ++ [Runtime.responses_retrieve responseId]
  /\ Runtime.costTracker st1 = Runtime.costTracker st
  /\ Runtime.created st1 = Runtime.created st.

(** What the poll loop has done when it ends: some number of retrievals
    of the same job, and nothing else. *)
Definition only_retrievals (responseId : string) (st st1 : Runtime.State) : Prop :=
  exists polls : nat,
    Runtime.retrieved st1 = (Runtime.retrieved st + polls)%nat
    /\ Runtime.calls st1
       = Runtime.calls st ++ repeat (Runtime.responses_retrieve responseId) polls
    /\ Runtime.costTracker st1 = Runtime.costTracker st
    /\ Runtime.created st1 = Runtime.created st.

(** The ways the poll loop ends: a completed result with text, an error
    with one of the loop's three prefixes, or the TypeError of its catch
    clause on a thrown [undefined]. *)
Definition final (out : Js.Outcome DeepResearch.PollResult) : Prop :=
  match out with
  | Js.Return result =>
      DeepResearch.poll_status result = DeepResearch.completed
      /\ DeepResearch.poll_text result <> ""
  | Js.Throw error =>
      DeepResearch.own_error error = true \/ error = Js.TypeError_reading "message"
  end.

(** The service rejects a retrieval with an error object, never with
    [undefined] or [null]. *)
Definition rejects_with_objects (remote : Runtime.Remote) : Prop :=
  forall n error,
    Runtime.settles (Runtime.on_retrieve remote n) = Js.Throw error ->
    Js.nullish error = false.

(** What the [n]-th retrieval found when the poll loop ended on it with
    [out]: the job completed, with its report or without any text; the job
    failed; or the retrieval itself was rejected with an error object whose
    message bears one of the loop's three prefixes, which is thrown on as
    it is. *)
Definition ended_by (remote : Runtime.Remote) (n : nat)
    (out : Js.Outcome DeepResearch.PollResult) : Prop :=
  match Runtime.settles (Runtime.on_retrieve remote n) with
  | Js.Return response =>
      (Runtime.status response = Some "completed"
       /\ ((exists text,
              Runtime.output_text response = Some text /\ text <> ""
              /\ out = Js.Return
                         {| DeepResearch.poll_text := text;
                            DeepResearch.poll_status := DeepResearch.completed;
                            DeepResearch.poll_usage :=
                              Runtime.extract_usage false (Runtime.usage response) |})
           \/ (Js.falsy_str (Runtime.output_text response) = true
               /\ out = Js.Throw
                          (Js.Error "API_ERROR: Research completed but no output text found"))))
      \/ (Runtime.status response = Some "failed"
          /\ out = Js.Throw
                     (Js.Error ("RESEARCH_FAILED: "
                                +:+ Js.str_or (Runtime.error_message response)
                                      "Research failed with unknown error")))
  | Js.Throw error =>
      Js.nullish error = false /\ DeepResearch.own_error error = true /\ out = Js.Throw error
  end.

(** The time the loop may still run, in whole milliseconds. *)
Definition budget (timeoutMs startTime : Z) (st : Runtime.State) : nat :=
  Z.to_nat (timeoutMs - (Runtime.now st - startTime) + 1).

(** The state in which [research] enters the poll loop after a successful start. *)
Definition poll_start (remote : Runtime.Remote) (options : DeepResearch.DeepResearchOptions)
    (st : Runtime.State) : Runtime.State :=
  let model := default "o3-deep-research" (DeepResearch.model options) in
  Runtime.logging (Logger.log Logger.info "Deep research started")
    (Runtime.logging (Logger.debugLog "Deep research started successfully")
       (snd (Runtime.create remote
               (DeepResearch.research_request (DeepResearch.query options) model)
               (Runtime.logging (Logger.debugLog "Deep research API request")
                  (Runtime.logging (Logger.debugLog "Starting deep research") st))))).

(** The options of [research] with their defaults applied. *)
Definition model_of (options : DeepResearch.DeepResearchOptions) : string :=
  default "o3-deep-research" (DeepResearch.model options).
Definition timeout_of (options : DeepResearch.DeepResearchOptions) : Z :=
  default DeepResearch.DEFAULT_TIMEOUT_MS (DeepResearch.timeoutMs options).
Definition interval_of (options : DeepResearch.DeepResearchOptions) : Z :=
  default DeepResearch.DEFAULT_POLL_INTERVAL_MS (DeepResearch.pollIntervalMs options).

(** The ledger after [research]: the entries before it, and [added]. *)
Definition ledger_grew_by (st st' : Runtime.State) (added : list CostTracker.CostEntry) : Prop :=
  CostTracker.entries (Runtime.costTracker st')
  = CostTracker.entries (Runtime.costTracker st) ++ added.

(** What [research] does to the ledger.  It ends, whatever the fuel beyond
    [fuel]; a result comes with exactly one new record, costed by
    [calculateCost] on the reported token counts (zero when none were
    reported, the record then being marked estimated); a failure comes
    with the ledger unchanged. *)
Definition ledger_contract (remote : Runtime.Remote)
    (options : DeepResearch.DeepResearchOptions) (st : Runtime.State) : Prop :=
  exists fuel out st',
    (forall extra, DeepResearch.research (fuel + extra) remote options st = Some (out, st'))
    /\ match out with
       | Js.Return r =>
           exists entry,
             ledger_grew_by st st' [entry]
             /\ CostTracker.operation entry = "deep_research"
             /\ CostTracker.model entry = model_of options
             /\ (let cost := Pricing.calculateCost (model_of options)
                               (Js.num_or0 (CostTracker.promptTokens entry))
                               (Js.num_or0 (CostTracker.completionTokens entry)) in
                 DeepResearch.cost r = cost
                 /\ CostTracker.inputCost entry = Pricing.inputCost cost
                 /\ CostTracker.outputCost entry = Pricing.outputCost cost
                 /\ CostTracker.totalCost entry = Pricing.totalCost cost)
             /\ (DeepResearch.usage r = None ->
                 CostTracker.promptTokens entry = None
                 /\ CostTracker.completionTokens entry = None
                 /\ DeepResearch.cost r = Pricing.calculateCost (model_of options) 0 0
                 /\ CostTracker.estimated entry = true)
       | Js.Throw _ =>
           ledger_grew_by st st' [] /\ Runtime.costTracker st' = Runtime.costTracker st
       end.

(** [research] ran into its deadline: it throws a TIMEOUT failure whose
    message carries the job identifier; all it has sent is the [create]
    and the retrievals of that job, none of them a cancellation; the
    ledger is untouched. *)
Definition timeout_contract (remote : Runtime.Remote)
    (options : DeepResearch.DeepResearchOptions) (st : Runtime.State) (rid : string) : Prop :=
  exists fuel error st' polls,
    (forall extra,
       DeepResearch.research (fuel + extra) remote options st = Some (Js.Throw error, st'))
    /\ Js.message_startsWith "TIMEOUT:" error = true
    /\ Js.message_includes rid error = true
    /\ timeout_of options < Runtime.now st' - Runtime.now st
    /\ Runtime.calls st'
       = Runtime.calls st
         ++ Runtime.responses_create
              (DeepResearch.research_request (DeepResearch.query options) (model_of options))
            :: repeat (Runtime.responses_retrieve rid) polls
    /\ existsb cancels
         (Runtime.responses_create
            (DeepResearch.research_request (DeepResearch.query options) (model_of options))
          :: repeat (Runtime.responses_retrieve rid) polls) = false
    /\ Runtime.costTracker st' = Runtime.costTracker st.

(** The sequence in progress, in progress, completed, met by a loop whose
    third pass still starts within the deadline. *)
Definition three_polls (remote : Runtime.Remote) (timeoutMs pollIntervalMs startTime : Z)
    (st : Runtime.State) (response : Runtime.Response) (text : string) : Prop :=
  let n := Runtime.retrieved st in
  let first := Runtime.latency (Runtime.on_retrieve remote n) in
  let second := Runtime.latency (Runtime.on_retrieve remote (S n)) in
  let pause := Js.timer_delay pollIntervalMs in
  in_progress_at remote n
  /\ in_progress_at remote (S n)
  /\ completed_at remote (S (S n)) response text
  /\ 0 <= first /\ 0 <= second
  /\ Runtime.now st - startTime + first + pause + second + pause <= timeoutMs.

End Vocabulary.

(* ===================================================================== *)
(** ** Sample inputs *)
(* ===================================================================== *)

Module Samples.

(** An operation that always answers 503, and one that always answers 401,
    run in a world that only counts invocations. *)
Definition always_503 (n : nat) : Js.Outcome unit * nat :=
  (Js.Throw (Js.Error "503 Service Unavailable"), S n).

Definition always_401 (n : nat) : Js.Outcome unit * nat :=
  (Js.Throw (Js.Error "401 Incorrect API key provided"), S n).

Definition logger0 : Logger.t := {| Logger.debug_enabled := true; Logger.emitted := [] |}.

Definition disk0 : CostTracker.Disk :=
  {| CostTracker.files := ∅; CostTracker.write_fails := false |}.

(** A process that has just started, with the default log directory. *)
Definition fresh : Runtime.State :=
  {| Runtime.now := 1700000000000;
     Runtime.created := 0;
     Runtime.retrieved := 0;
     Runtime.calls := [];
     Runtime.logger := logger0;
     Runtime.costTracker := CostTracker.create None disk0 |}.

Definition entry0 : CostTracker.CostEntry :=
  {| CostTracker.timestamp := 1700000000000;
     CostTracker.model := "gpt-5.2";
     CostTracker.operation := "generate_text";
     CostTracker.inputCost := 1 # 1000;
     CostTracker.outputCost := 2 # 1000;
     CostTracker.totalCost := 3 # 1000;
     CostTracker.estimated := false;
     CostTracker.promptTokens := Some 10;
     CostTracker.completionTokens := Some 20 |}.

Definition usage0 : Runtime.Usage :=
  {| Runtime.input_tokens := Some 1000; Runtime.output_tokens := Some 2000;
     Runtime.reasoning_tokens := None |}.

Definition response (id status text : option string) (usage : option Runtime.Usage)
    (err : option string) : Runtime.Response :=
  {| Runtime.id := id; Runtime.status := status; Runtime.output_text := text;
     Runtime.usage := usage; Runtime.error_message := err |}.

Definition after (ms : Z) (r : Runtime.Response) : Runtime.Reply :=
  {| Runtime.latency := ms; Runtime.settles := Js.Return r |}.

(** A service that answers every [create] with a finished response. *)
Definition remote_text : Runtime.Remote :=
  {| Runtime.on_create := fun _ =>
       after 1200 (response (Some "resp_t1") (Some "completed") (Some "Hello") (Some usage0) None);
     Runtime.on_retrieve := fun _ =>
       after 80 (response (Some "resp_t1") (Some "completed") (Some "Hello") (Some usage0) None) |}.

Definition text_options (model : option string) (effort : option Types.ReasoningEffort)
    (temperature : option Q) (schema : option TextProvider.StructuredOutputSchema)
    : TextProvider.TextGenerateOptions :=
  {| TextProvider.prompt := "Say hello";
     TextProvider.systemPrompt := None;
     TextProvider.model := model;
     TextProvider.reasoningEffort := effort;
     TextProvider.verbosity := None;
     TextProvider.reasoningSummary := None;
     TextProvider.maxOutputTokens := None;
     TextProvider.temperature := temperature;
     TextProvider.jsonSchema := schema |}.

Definition schema0 : TextProvider.StructuredOutputSchema :=
  {| TextProvider.name := "extract_entities"; TextProvider.description := None;
     TextProvider.strict := None |}.

Definition running : Runtime.Response :=
  response (Some "resp_r1") (Some "in_progress") None None None.

Definition report : Runtime.Response :=
  response (Some "resp_r1") (Some "completed") (Some "# Findings") (Some usage0) None.

Definition started : Runtime.Reply := after 900 (response (Some "resp_r1") (Some "queued") None None None).

(** The job is found running twice and completed at the third retrieval. *)
Definition remote_three_polls : Runtime.Remote :=
  {| Runtime.on_create := fun _ => started;
     Runtime.on_retrieve := fun n =>
       match n with
       | O | S O => after 150 running
       | _ => after 150 report
       end |}.

(** The job never leaves [in_progress]. *)
Definition remote_running : Runtime.Remote :=
  {| Runtime.on_create := fun _ => started;
     Runtime.on_retrieve := fun _ => after 150 running |}.

(** The job is found failed at the first retrieval. *)
Definition remote_failed : Runtime.Remote :=
  {| Runtime.on_create := fun _ => started;
     Runtime.on_retrieve := fun _ =>
       after 150 (response (Some "resp_r1") (Some "failed") None None
                    (Some "tool budget exhausted")) |}.

(** The job is reported completed, without any output text. *)
Definition remote_empty_report : Runtime.Remote :=
  {| Runtime.on_create := fun _ => started;
     Runtime.on_retrieve := fun _ =>
       after 150 (response (Some "resp_r1") (Some "completed") None (Some usage0) None) |}.

(** The first retrieval fails in transport, the second finds the report. *)
Definition remote_flaky : Runtime.Remote :=
  {| Runtime.on_create := fun _ => started;
     Runtime.on_retrieve := fun n =>
       match n with
       | O => {| Runtime.latency := 30000;
                 Runtime.settles := Js.Throw (Js.Error "Connection error.") |}
       | _ => after 150 report
       end |}.

Definition research_options (timeoutMs pollIntervalMs : option Z)
    : DeepResearch.DeepResearchOptions :=
  {| DeepResearch.query := "State of verified compilers";
     DeepResearch.model := None;
     DeepResearch.timeoutMs := timeoutMs;
     DeepResearch.pollIntervalMs := pollIntervalMs |}.

End Samples.

(* ===================================================================== *)
(** ** Further notions for stating properties *)
(* ===================================================================== *)

Module Notions.

(** Tracking a batch of entries, one call of [trackCost] after the other. *)
Definition track_all (batch : list CostTracker.CostEntry) (tr : CostTracker.t) : CostTracker.t :=
  fold_left (fun tr entry => CostTracker.trackCost entry tr) batch tr.

(** The delays slept before the next [n] retries, the first being [delay]:
    each is the previous one times the multiplier, capped. *)
Fixpoint backoff_from (opts : Retry.Resolved) (delay : Z) (n : nat) : list Z :=
  match n with
  | O => []
  | S n' =>
      delay :: backoff_from opts
                 (Z.min (delay * Retry.opt_backoffMultiplier opts) (Retry.opt_maxDelayMs opts)) n'
  end.

Definition backoff (opts : Retry.Resolved) (n : nat) : list Z :=
  backoff_from opts (Retry.opt_initialDelayMs opts) n.

(** Some invocation of [fn], made when it had been invoked [n] times
    before, returned [v]. *)
Definition returns_at {W T : Type} (fn : W -> Js.Outcome T * W) (invocations : W -> nat)
    (n : nat) (v : T) : Prop :=
  exists w, invocations w = n /\ fst (fn w) = Js.Return v.

(** The options break one of the three compatibility rules of [generate]. *)
Definition violates (o : TextProvider.TextGenerateOptions) : Prop :=
  let model := default "gpt-5.2" (TextProvider.model o) in
  let effort := default Types.effort_none (TextProvider.reasoningEffort o) in
  (model = "gpt-5.2-pro"
   /\ effort <> Types.effort_medium /\ effort <> Types.effort_high
   /\ effort <> Types.effort_xhigh)
  \/ (TextProvider.temperature o <> None /\ effort <> Types.effort_none)
  \/ (TextProvider.jsonSchema o <> None
      /\ model <> "gpt-5.2" /\ model <> "gpt-5.2-chat-latest").

(** The ledger record [generate] writes for a result. *)
Definition text_entry (at_ms : Z) (r : TextProvider.GenerateResult) : CostTracker.CostEntry :=
  {| CostTracker.timestamp := at_ms;
     CostTracker.model := TextProvider.res_model r;
     CostTracker.operation := "generate_text";
     CostTracker.inputCost := Pricing.inputCost (TextProvider.cost r);
     CostTracker.outputCost := Pricing.outputCost (TextProvider.cost r);
     CostTracker.totalCost := Pricing.totalCost (TextProvider.cost r);
     CostTracker.estimated := Pricing.estimated (TextProvider.cost r);
     CostTracker.promptTokens := TextProvider.usage r ≫= Runtime.promptTokens;
     CostTracker.completionTokens := TextProvider.usage r ≫= Runtime.completionTokens |}.

(** The options pass the three checks of [generate]. *)
Definition passes (o : TextProvider.TextGenerateOptions) : Prop :=
  let model := default "gpt-5.2" (TextProvider.model o) in
  let effort := default Types.effort_none (TextProvider.reasoningEffort o) in
  String.eqb model "gpt-5.2-pro" && negb (Types.isValidProReasoningEffort effort) = false
  /\ TextProvider.present (TextProvider.temperature o)
     && negb (TextProvider.is_none_effort effort) = false
  /\ TextProvider.present (TextProvider.jsonSchema o)
     && negb (Types.supportsStructuredOutput model) = false.

(** Two states of the process that differ in the log at most. *)
Definition logged_only (s s' : Runtime.State) : Prop :=
  Runtime.now s' = Runtime.now s
  /\ Runtime.created s' = Runtime.created s
  /\ Runtime.retrieved s' = Runtime.retrieved s
  /\ Runtime.calls s' = Runtime.calls s
  /\ Runtime.costTracker s' = Runtime.costTracker s.

(** The state in which [withRetry] makes its first attempt. *)
Definition first_attempt (options : Retry.RetryOptions) (st : Runtime.State) : Runtime.State :=
  Runtime.logging
    (Logger.debugLog ("Starting " +:+ Retry.opt_context (Retry.resolve options)
                      +:+ " with retry")) st.

(** The state in which [generate] hands its request to [withRetry]. *)
Definition text_request_state (st : Runtime.State) : Runtime.State :=
  Runtime.logging (Logger.debugLog "Text generation API request")
    (Runtime.logging (Logger.debugLog "Starting text generation") st).

(** The first test of the [catch] clause of [startResearch]: the failure's
    message mentions the API key, or its status is 401. *)
Definition asks_for_key (error : Js.JsError) : bool :=
  Js.message_includes "API key" error || Js.message_includes "Incorrect API key" error
  || Js.status_eq error 401.

(** The domain filter breaks one of the two rules of [search]: more than
    a hundred domains, or a domain written with a scheme. *)
Definition bad_domains (o : WebSearch.WebSearchOptions) : Prop :=
  let domains := default [] (WebSearch.allowedDomains o) in
  (100 < length domains)%nat
  \/ exists domain, In domain domains /\ Js.includes "://" domain = true.

(** The ledger record [search] writes for a result. *)
Definition search_entry (at_ms : Z) (r : WebSearch.WebSearchResult) : CostTracker.CostEntry :=
  {| CostTracker.timestamp := at_ms;
     CostTracker.model := WebSearch.res_model r;
     CostTracker.operation := "web_search";
     CostTracker.inputCost := Pricing.inputCost (WebSearch.cost r);
     CostTracker.outputCost := Pricing.outputCost (WebSearch.cost r);
     CostTracker.totalCost := Pricing.totalCost (WebSearch.cost r);
     CostTracker.estimated := Pricing.estimated (WebSearch.cost r);
     CostTracker.promptTokens := WebSearch.usage r ≫= Runtime.promptTokens;
     CostTracker.completionTokens := WebSearch.usage r ≫= Runtime.completionTokens |}.

(** The sources an output item contributes to the result of a search. *)
Definition cited_by (item : WebSearch.OutputItem) (source : WebSearch.Source) : Prop :=
  WebSearch.item_type item = "web_search_call"
  /\ exists found, WebSearch.action_sources item = Some found /\ In source found.

End Notions.

(* ===================================================================== *)
(** ** Further sample inputs *)
(* ===================================================================== *)

Module Cases.

(** A world that counts invocations and records the delays slept. *)
Definition fails_twice (w : nat * list Z) : Js.Outcome string * (nat * list Z) :=
  (if Nat.ltb (fst w) 2 then Js.Throw (Js.Error "503 Service Unavailable") else Js.Return "ok",
   (S (fst w), snd w)).

Definition pause (ms : Z) (w : nat * list Z) : nat * list Z := (fst w, snd w ++ [ms]).

Definition quiet (f : Logger.t -> Logger.t) (w : nat * list Z) : nat * list Z := w.

Definition no_budget : Retry.RetryOptions :=
  {| Retry.maxRetries := Some (-1);
     Retry.initialDelayMs := None;
     Retry.maxDelayMs := None;
     Retry.backoffMultiplier := None;
     Retry.retryableErrors := None;
     Retry.context := None |}.

(** The key is refused: every [create] is answered 401 after 300 ms. *)
Definition refused : Js.JsError :=
  {| Js.message := Some "401 Unauthorized"; Js.status := Some 401;
     Js.statusCode := None |}.

Definition remote_unauthorized : Runtime.Remote :=
  {| Runtime.on_create := fun _ =>
       {| Runtime.latency := 300; Runtime.settles := Js.Throw refused |};
     Runtime.on_retrieve := fun _ =>
       {| Runtime.latency := 300; Runtime.settles := Js.Throw refused |} |}.

(** A service that needs seventy minutes for every answer. *)
Definition remote_stalled : Runtime.Remote :=
  {| Runtime.on_create := fun _ =>
       Samples.after 4200000 (Samples.response (Some "resp_s1") (Some "completed")
                                (Some "Late") (Some Samples.usage0) None);
     Runtime.on_retrieve := fun _ => Samples.after 4200000 Samples.running |}.

(** The service accepts the job but its answer carries no identifier. *)
Definition remote_no_id : Runtime.Remote :=
  {| Runtime.on_create := fun _ =>
       Samples.after 900 (Samples.response None (Some "queued") None None None);
     Runtime.on_retrieve := fun _ => Samples.after 150 Samples.running |}.

Definition search_options (domains : option (list string)) : WebSearch.WebSearchOptions :=
  {| WebSearch.query := "rocq 9.3 release notes";
     WebSearch.model := None;
     WebSearch.allowedDomains := domains;
     WebSearch.includeSources := None |}.

Definition source0 : WebSearch.Source :=
  {| WebSearch.url := "https://rocq-prover.org/releases"; WebSearch.title := Some "Releases" |}.

(** A search service that answers at once, citing one source. *)
Definition remote_search : WebSearch.SearchRemote := fun _ =>
  {| WebSearch.latency := 2500;
     WebSearch.settles :=
       Js.Return
         {| WebSearch.response :=
              Samples.response (Some "resp_w1") (Some "completed") (Some "Rocq 9.3 is out.")
                (Some Samples.usage0) None;
            WebSearch.output :=
              Some [ {| WebSearch.item_type := "web_search_call";
                        WebSearch.action_sources := Some [source0] |};
                     {| WebSearch.item_type := "message";
                        WebSearch.action_sources := None |} ] |} |}.

(** A call of the generation tool that names the empty string as model. *)
Definition text_args (model : option string) : Tools.GenerateTextArgs :=
  {| Tools.prompt := Some "Say hello";
     Tools.system_prompt := None;
     Tools.gt_model := model;
     Tools.reasoning_effort := None;
     Tools.verbosity := None;
     Tools.reasoning_summary := None;
     Tools.max_output_tokens := None;
     Tools.temperature := None;
     Tools.json_schema := None |}.

Definition research_args (minutes : option Z) : Tools.DeepResearchArgs :=
  {| Tools.dr_query := Some "State of verified compilers";
     Tools.dr_model := None;
     Tools.timeout_minutes := minutes |}.

Definition search_args (domains : option (list string)) : Tools.WebSearchArgs :=
  {| Tools.ws_query := Some "rocq 9.3 release notes";
     Tools.ws_model := None;
     Tools.allowed_domains := domains;
     Tools.include_sources := None |}.


(** A gateway in front of the service answers every retrieval with a 502
    of its own wording. *)
Definition remote_gateway : Runtime.Remote :=
  {| Runtime.on_create := fun _ => Samples.started;
     Runtime.on_retrieve := fun _ =>
       {| Runtime.latency := 150;
          Runtime.settles := Js.Throw (Js.Error "API_ERROR: 502 from gateway") |} |}.

End Cases.

(* ===================================================================== *)
(** * Properties *)
(* ===================================================================== *)

Module JsFacts.

Lemma append_nil (s : string) : "" +:+ s = s.
Proof. reflexivity. Qed.

Lemma append_cons (c : ascii) (a s : string) : String c a +:+ s = String c (a +:+ s).
Proof. reflexivity. Qed.

Lemma startsWith_app (p s : string) : Js.startsWith p (p +:+ s) = true.
Proof.
  induction p as [|c p IH]; [done|].
  rewrite append_cons. simpl. by rewrite Ascii.eqb_refl.
Qed.

Lemma includes_startsWith (sub s : string) :
  Js.startsWith sub s = true -> Js.includes sub s = true.
Proof. intros H. destruct s; simpl; rewrite H; done. Qed.

(** A string occurs in every string built around it. *)
Lemma includes_app_mid (sub a b : string) : Js.includes sub (a +:+ (sub +:+ b)) = true.
Proof.
  induction a as [|c a IH].
  - rewrite append_nil. apply includes_startsWith, startsWith_app.
  - rewrite append_cons. simpl. rewrite IH. apply orb_true_r.
Qed.

Lemma append_nil_r (s : string) : s +:+ "" = s.
Proof. induction s as [|c s IH]; [done|]. rewrite append_cons. by rewrite IH. Qed.

Lemma includes_app_r (sub a : string) : Js.includes sub (a +:+ sub) = true.
Proof. rewrite <- (append_nil_r sub) at 2. apply includes_app_mid. Qed.

(** Text in front of a string does not hide what occurs in it. *)
Lemma includes_skip (sub a b : string) :
  Js.includes sub b = true -> Js.includes sub (a +:+ b) = true.
Proof.
  intros H. induction a as [|c a IH]; [exact H|].
  rewrite append_cons. simpl. rewrite IH. apply orb_true_r.
Qed.

End JsFacts.

(* ===================================================================== *)
(** ** Cost model *)
(* ===================================================================== *)

Module PricingFacts.

Local Open Scope Q_scope.

Lemma round_mono (x y : Q) : x <= y -> (Js.round x <= Js.round y)%Z.
Proof.
  intros H. unfold Js.round. apply Qfloor_resp_le.
  apply Qplus_le_compat; [exact H | apply Qle_refl].
Qed.

Lemma roundToMicro_mono (x y : Q) :
  x <= y -> (Pricing.roundToMicro x <= Pricing.roundToMicro y)%num.
Proof.
  intros H. unfold Pricing.roundToMicro. simpl.
  apply Qmult_le_compat_r; [|done].
  rewrite <- Zle_Qle. apply round_mono.
  apply Qmult_le_compat_r; [exact H | done].
Qed.

(** Every entry of the table is priced at or below the fallback. *)
Lemma table_below_default :
  map_Forall (fun _ pr => Pricing.input pr <= Pricing.input Pricing.DEFAULT_PRICING
                          /\ Pricing.output pr <= Pricing.output Pricing.DEFAULT_PRICING)
             Pricing.OPENAI_PRICING.
Proof.
  unfold Pricing.OPENAI_PRICING. simpl list_to_map.
  repeat (apply map_Forall_insert_2; [split; unfold Qle; simpl; lia|]).
  apply map_Forall_empty.
Qed.

Lemma scaled_price_mono (tokens : Z) (p q : Q) :
  (0 <= tokens)%Z -> p <= q ->
  (inject_Z tokens / 1000000) * p <= (inject_Z tokens / 1000000) * q.
Proof.
  intros Ht Hpq.
  rewrite (Qmult_comm _ p), (Qmult_comm _ q).
  apply Qmult_le_compat_r; [exact Hpq|].
  apply Qle_shift_div_l; [done|].
  rewrite Qmult_0_l. change 0 with (inject_Z 0). by rewrite <- Zle_Qle.
Qed.

(** No name of [Object.prototype] is a key of the table. *)
Lemma inherited_not_listed (model : string) :
  Js.inherited model = true ->
  Pricing.OPENAI_PRICING !! model = None /\ Pricing.lookup model = Pricing.Inherited.
Proof.
  intros H. unfold Js.inherited in H. apply existsb_exists in H as (key & Hin & Heq).
  apply String.eqb_eq in Heq. subst key. simpl in Hin.
  repeat (destruct Hin as [<- | Hin]; [by vm_compute|]). destruct Hin.
Qed.

Lemma lookup_missing (model : string) :
  Pricing.lookup model = Pricing.Missing ->
  Pricing.OPENAI_PRICING !! model = None /\ Js.inherited model = false.
Proof.
  unfold Pricing.lookup. destruct (Pricing.OPENAI_PRICING !! model); [discriminate|].
  by destruct (Js.inherited model).
Qed.

Lemma lookup_listed (model : string) (pricing : Pricing.TokenPricing) :
  Pricing.OPENAI_PRICING !! model = Some pricing ->
  Pricing.lookup model = Pricing.Listed pricing.
Proof. intros H. unfold Pricing.lookup. by rewrite H. Qed.

(** A model identifier for which the table lookup finds nothing is costed
    with [estimated = true] at the fallback price; the fallback is the
    gpt-5.2-pro entry, 21 USD per 1M input tokens and 168 USD per 1M output
    tokens; no entry of the table is priced above it, so for non-negative
    token counts no table model would have cost more. *)
Lemma missing_model_cost_is_conservative
    (model : string) (promptTokens completionTokens : Z) :
  Pricing.lookup model = Pricing.Missing ->
  let r := Pricing.calculateCost model promptTokens completionTokens in
  let pro := Pricing.calculateCost "gpt-5.2-pro" promptTokens completionTokens in
  Pricing.estimated r = true
  /\ snd (Pricing.getPricing model) = true
  /\ fst (Pricing.getPricing model) = Some {| Pricing.input := 21; Pricing.output := 168 |}
  /\ Pricing.OPENAI_PRICING !! "gpt-5.2-pro" = fst (Pricing.getPricing model)
  /\ Pricing.inputCost r
     = Pricing.roundToMicro (Js.Fin ((inject_Z promptTokens / 1000000) * 21))
  /\ Pricing.outputCost r
     = Pricing.roundToMicro (Js.Fin ((inject_Z completionTokens / 1000000) * 168))
  /\ (Pricing.inputCost r, Pricing.outputCost r, Pricing.totalCost r)
     = (Pricing.inputCost pro, Pricing.outputCost pro, Pricing.totalCost pro)
  /\ (forall known pr, Pricing.OPENAI_PRICING !! known = Some pr ->
        Pricing.input pr <= 21 /\ Pricing.output pr <= 168)
  /\ (forall known, is_Some (Pricing.OPENAI_PRICING !! known) ->
        (0 <= promptTokens)%Z -> (0 <= completionTokens)%Z ->
        let k := Pricing.calculateCost known promptTokens completionTokens in
        (Pricing.inputCost k <= Pricing.inputCost r)%num
        /\ (Pricing.outputCost k <= Pricing.outputCost r)%num
        /\ (Pricing.totalCost k <= Pricing.totalCost r)%num).
Proof.
  intros Hnone. unfold Pricing.getPricing, Pricing.calculateCost. rewrite Hnone.
  change (Pricing.lookup "gpt-5.2-pro") with (Pricing.Listed Pricing.DEFAULT_PRICING).
  cbn [Pricing.absent Pricing.effective Pricing.estimated Pricing.inputCost Pricing.outputCost
       Pricing.totalCost fst snd Js.mul Js.add Pricing.input Pricing.output
       Pricing.DEFAULT_PRICING].
  split; [reflexivity|]. split; [reflexivity|]. split; [reflexivity|].
  split; [reflexivity|]. split; [reflexivity|]. split; [reflexivity|].
  split; [reflexivity|]. split.
  - intros known pr H. apply (table_below_default known pr H).
  - intros known [pr Hpr] Hp Hc. rewrite (lookup_listed known pr Hpr).
    cbn [Pricing.effective Js.mul Js.add].
    pose proof (table_below_default known pr Hpr) as [Hi Ho]. simpl in Hi, Ho.
    split; [|split]; apply roundToMicro_mono.
    + by apply scaled_price_mono.
    + by apply scaled_price_mono.
    + apply Qplus_le_compat; by apply scaled_price_mono.
Qed.

(** C8, on the code.  The table is a plain object, so the lookup also
    finds what every object inherits.  For the model name toString, which
    the table does not list, the lookup yields a function: the result is
    not marked estimated, the fallback price is not used, and all three
    costs are NaN.  The same holds for every name of [Object.prototype].
    For every other name that the table does not list the fallback works
    as documented: the cost is marked estimated and is the one of
    gpt-5.2-pro, whose prices no entry of the table exceeds. *)
Theorem prototype_name_defeats_fallback :
  (let r := Pricing.calculateCost "toString" 1000 2000 in
   Pricing.OPENAI_PRICING !! "toString" = None
   /\ Pricing.estimated r = false
   /\ Pricing.inputCost r = Js.NaN
   /\ Pricing.outputCost r = Js.NaN
   /\ Pricing.totalCost r = Js.NaN
   /\ Pricing.getPricing "toString" = (None, false))
  /\ (forall model promptTokens completionTokens,
        Js.inherited model = true ->
        Pricing.OPENAI_PRICING !! model = None
        /\ Pricing.calculateCost model promptTokens completionTokens
           = {| Pricing.inputCost := Js.NaN; Pricing.outputCost := Js.NaN;
                Pricing.totalCost := Js.NaN; Pricing.estimated := false |})
  /\ (forall model promptTokens completionTokens,
        Pricing.OPENAI_PRICING !! model = None ->
        Js.inherited model = false ->
        let r := Pricing.calculateCost model promptTokens completionTokens in
        let pro := Pricing.calculateCost "gpt-5.2-pro" promptTokens completionTokens in
        Pricing.estimated r = true
        /\ fst (Pricing.getPricing model)
           = Some {| Pricing.input := 21; Pricing.output := 168 |}
        /\ (Pricing.inputCost r, Pricing.outputCost r, Pricing.totalCost r)
           = (Pricing.inputCost pro, Pricing.outputCost pro, Pricing.totalCost pro)
        /\ (forall known pr, Pricing.OPENAI_PRICING !! known = Some pr ->
              Pricing.input pr <= 21 /\ Pricing.output pr <= 168)).
Proof.
  split; [by vm_compute|]. split.
  - intros model promptTokens completionTokens H.
    destruct (inherited_not_listed model H) as [Hnone Hl].
    split; [exact Hnone|]. unfold Pricing.calculateCost. by rewrite Hl.
  - intros model promptTokens completionTokens Hnone Hinh.
    assert (Hl : Pricing.lookup model = Pricing.Missing).
    { unfold Pricing.lookup. by rewrite Hnone, Hinh. }
    destruct (missing_model_cost_is_conservative model promptTokens completionTokens Hl)
      as (He & _ & Hp & _ & _ & _ & Hsame & Hle & _).
    split; [exact He|]. split; [exact Hp|]. split; [exact Hsame | exact Hle].
Qed.

End PricingFacts.

(* ===================================================================== *)
(** ** Ledger *)
(* ===================================================================== *)

Module CostTrackerFacts.

Local Open Scope Q_scope.
Local Open Scope num_scope.

Lemma trackCost_entries (e : CostTracker.CostEntry) (tr : CostTracker.t) :
  CostTracker.entries (CostTracker.trackCost e tr) = CostTracker.entries tr ++ [e].
Proof. unfold CostTracker.trackCost. by destruct (CostTracker.costsFile tr). Qed.

Lemma trackCost_costsFile (e : CostTracker.CostEntry) (tr : CostTracker.t) :
  CostTracker.costsFile (CostTracker.trackCost e tr) = CostTracker.costsFile tr.
Proof. unfold CostTracker.trackCost. by destruct (CostTracker.costsFile tr). Qed.

(** With a working disk, tracking appends exactly one line to the log. *)
Lemma trackCost_persists (e : CostTracker.CostEntry) (tr : CostTracker.t) (f : string) :
  CostTracker.costsFile tr = Some f ->
  CostTracker.write_fails (CostTracker.disk tr) = false ->
  CostTracker.files (CostTracker.disk (CostTracker.trackCost e tr)) !! f
  = Some (default [] (CostTracker.files (CostTracker.disk tr) !! f) ++ [CostTracker.EntryLine e]).
Proof.
  intros Hf Hw. unfold CostTracker.trackCost, CostTracker.appendFileSync.
  rewrite Hf, Hw. simpl. apply lookup_insert_eq.
Qed.

(** C10.  [reset] empties the in-memory entry list only: afterwards the
    summary reports no call and a zero total (and zero in every other
    aggregate), while the path of the cost log and every file on disk,
    the cost log among them, are what they were; the tool handler that
    resets on request does exactly this to the tracker of the process. *)
Theorem reset_clears_memory_not_disk (st : Runtime.State) (now : Z) :
  let tr := Runtime.costTracker st in
  let tr' := CostTracker.reset tr in
  let summary := CostTracker.getSummary now tr' in
  CostTracker.entries tr' = []
  /\ CostTracker.callCount summary = 0%nat
  /\ CostTracker.sum_totalCost summary == 0
  /\ CostTracker.estimatedCosts summary == 0
  /\ CostTracker.byModel summary = ∅
  /\ CostTracker.byOperation summary = ∅
  /\ CostTracker.since summary = now
  /\ CostTracker.costsFile tr' = CostTracker.costsFile tr
  /\ CostTracker.disk tr' = CostTracker.disk tr
  /\ (forall f, CostTracker.files (CostTracker.disk tr') !! f
                = CostTracker.files (CostTracker.disk tr) !! f)
  /\ Runtime.costTracker (snd (Server.get_cost_summary (Some true) st)) = tr'
  /\ Runtime.costTracker (snd (Server.get_cost_summary (Some false) st)) = tr
  /\ Runtime.costTracker (snd (Server.get_cost_summary None st)) = tr.
Proof.
  cbv zeta. unfold CostTracker.reset, CostTracker.getSummary. simpl.
  split; [reflexivity|]. split; [reflexivity|].
  split; [reflexivity|]. split; [reflexivity|].
  split; [apply fmap_empty|]. split; [apply fmap_empty|].
  split; [reflexivity|]. split; [reflexivity|].
  split; [reflexivity|]. split; [reflexivity|].
  split; [reflexivity|]. split; reflexivity.
Qed.

Lemma reset_clears_memory_not_disk_witness :
  let st := Runtime.tracking (CostTracker.trackCost Samples.entry0) Samples.fresh in
  CostTracker.callCount (CostTracker.getSummary 5 (Runtime.costTracker st)) = 1%nat
  /\ CostTracker.callCount
       (CostTracker.getSummary 5 (CostTracker.reset (Runtime.costTracker st))) = 0%nat
  /\ CostTracker.files (CostTracker.disk (CostTracker.reset (Runtime.costTracker st)))
       !! "logs/costs.jsonl"
     = Some [CostTracker.EntryLine Samples.entry0].
Proof.
  intros st.
  pose proof (reset_clears_memory_not_disk st 5)
    as (_ & Hcount & _ & _ & _ & _ & _ & _ & Hdisk & _).
  split; [reflexivity|]. split; [exact Hcount|].
  rewrite Hdisk. reflexivity.
Defined.

End CostTrackerFacts.

(* ===================================================================== *)
(** ** Error classifier *)
(* ===================================================================== *)

Module TypesFacts.

Import Vocabulary.

(** C7, as the source has it.  [categorizeError] is a function of the raw
    failure alone and classifies by the first rule that matches, in this
    order: authentication (status 401, or "API key", "unauthorized",
    "Incorrect API key" in the message) gives AUTH_ERROR; rate or quota
    (status 429, or "rate", "quota", "too many requests") gives RATE_LIMIT;
    safety ("safety", "content_policy") gives SAFETY_BLOCK; content policy
    and moderation ("blocked", "content policy", "moderation") give
    CONTENT_BLOCKED; a deadline ("TIMEOUT", "timed out") gives TIMEOUT;
    anything else is API_ERROR. *)
Theorem categorizeError_first_match (e : Js.JsError) :
  Types.category (Types.categorizeError e) = first_match classifier_rules e
  /\ (auth_signal e = true -> Types.category (Types.categorizeError e) = Types.AUTH_ERROR)
  /\ (auth_signal e = false -> rate_signal e = true ->
      Types.category (Types.categorizeError e) = Types.RATE_LIMIT)
  /\ (auth_signal e = false -> rate_signal e = false -> safety_signal e = true ->
      Types.category (Types.categorizeError e) = Types.SAFETY_BLOCK)
  /\ (auth_signal e = false -> rate_signal e = false -> safety_signal e = false ->
      content_signal e = true ->
      Types.category (Types.categorizeError e) = Types.CONTENT_BLOCKED)
  /\ (auth_signal e = false -> rate_signal e = false -> safety_signal e = false ->
      content_signal e = false -> timeout_signal e = true ->
      Types.category (Types.categorizeError e) = Types.TIMEOUT)
  /\ (auth_signal e = false -> rate_signal e = false -> safety_signal e = false ->
      content_signal e = false -> timeout_signal e = false ->
      Types.category (Types.categorizeError e) = Types.API_ERROR).
Proof.
  assert (H : Types.category (Types.categorizeError e) = first_match classifier_rules e).
  { unfold Types.categorizeError, Vocabulary.classifier_rules, Vocabulary.first_match,
      Vocabulary.auth_signal, Vocabulary.rate_signal, Vocabulary.safety_signal,
      Vocabulary.content_signal, Vocabulary.timeout_signal.
    repeat match goal with |- context [if ?b then _ else _] => destruct b end; reflexivity. }
  split; [exact H|]. rewrite H. unfold Vocabulary.classifier_rules, Vocabulary.first_match.
  repeat split; intros; repeat match goal with Hs : _ = _ |- _ => rewrite Hs; clear Hs end;
    reflexivity.
Qed.

Lemma categorizeError_first_match_witness :
  let both := {| Js.message := Some "rate limit: Incorrect API key"; Js.status := Some 429;
                 Js.statusCode := None |} in
  auth_signal both = true /\ rate_signal both = true
  /\ Types.category (Types.categorizeError both) = Types.AUTH_ERROR.
Proof.
  intros both. split; [reflexivity|]. split; [reflexivity|].
  apply (proj1 (proj2 (categorizeError_first_match both))). reflexivity.
Defined.

(** A message that only mentions moderation is classified CONTENT_BLOCKED,
    not SAFETY_BLOCK. *)
Lemma moderation_signal_is_content_blocked :
  let e := Js.Error "Request was flagged by moderation" in
  Types.category (Types.categorizeError e) = Types.CONTENT_BLOCKED
  /\ Types.category (Types.categorizeError e) <> Types.SAFETY_BLOCK.
Proof. split; [reflexivity | discriminate]. Qed.

End TypesFacts.

(* ===================================================================== *)
(** ** Retry executor *)
(* ===================================================================== *)

Module RetryFacts.

Section Counting.

Context {W T : Type}.
Variable fn : W -> Js.Outcome T * W.
Variable sleep : Z -> W -> W.
Variable logging : (Logger.t -> Logger.t) -> W -> W.

(** The number of times the operation has been invoked is read off the
    world: each invocation adds one, the timer and the logger add none. *)
Variable invocations : W -> nat.
Hypothesis fn_counts : forall w, invocations (snd (fn w)) = S (invocations w).
Hypothesis sleep_keeps : forall ms w, invocations (sleep ms w) = invocations w.
Hypothesis logging_keeps : forall f w, invocations (logging f w) = invocations w.

(** An attempt that fails, is not the last one and is retryable leads to
    the next iteration after one more invocation. *)
Lemma retry_loop_again (opts : Retry.Resolved) (k : nat) (attempt delay : Z)
    (last : Js.JsError) (w : W) :
  attempt <> Retry.opt_maxRetries opts ->
  (forall w', invocations w' = invocations w ->
     exists e, fst (fn w') = Js.Throw e
               /\ Retry.retryable e (Retry.opt_retryableErrors opts) = true) ->
  exists e w1,
    Retry.retry_loop fn sleep logging opts (S k) attempt delay last w
    = Retry.retry_loop fn sleep logging opts k (attempt + 1)
        (Z.min (delay * Retry.opt_backoffMultiplier opts) (Retry.opt_maxDelayMs opts)) e w1
    /\ invocations w1 = S (invocations w).
Proof.
  intros Hne Hfail. cbn [Retry.retry_loop].
  set (w0 := if 0 <? attempt then _ else w).
  assert (Hw0 : invocations w0 = invocations w).
  { subst w0. destruct (0 <? attempt); [apply logging_keeps | reflexivity]. }
  destruct (Hfail w0 Hw0) as (e & He & Hr).
  pose proof (fn_counts w0) as Hc.
  destruct (fn w0) as [o w1]. simpl in He, Hc. subst o.
  apply Z.eqb_neq in Hne. rewrite Hne.
  unfold Retry.isRetryable. rewrite Hr. cbn [negb].
  eexists e, _. split; [reflexivity|].
  rewrite sleep_keeps, !logging_keeps. congruence.
Qed.

(** A failing attempt that is the last one, or is not retryable, ends the
    loop with that failure after one more invocation. *)
Lemma retry_loop_stop (opts : Retry.Resolved) (k : nat) (attempt delay : Z)
    (last : Js.JsError) (w : W) :
  (forall w', invocations w' = invocations w ->
     exists e, fst (fn w') = Js.Throw e
               /\ (attempt = Retry.opt_maxRetries opts
                   \/ Retry.retryable e (Retry.opt_retryableErrors opts) = false)) ->
  exists e w1,
    Retry.retry_loop fn sleep logging opts (S k) attempt delay last w = (Js.Throw e, w1)
    /\ invocations w1 = S (invocations w)
    /\ Vocabulary.fails_at fn invocations (invocations w) e.
Proof.
  intros Hfail. cbn [Retry.retry_loop].
  set (w0 := if 0 <? attempt then _ else w).
  assert (Hw0 : invocations w0 = invocations w).
  { subst w0. destruct (0 <? attempt); [apply logging_keeps | reflexivity]. }
  destruct (Hfail w0 Hw0) as (e & He & Hstop).
  pose proof (fn_counts w0) as Hc.
  assert (Hat : Vocabulary.fails_at fn invocations (invocations w) e) by (exists w0; done).
  destruct (fn w0) as [o w1]. simpl in He, Hc. subst o.
  unfold Retry.isRetryable.
  destruct (attempt =? Retry.opt_maxRetries opts) eqn:Hlast.
  - eexists e, _. split; [reflexivity|]. split; [|exact Hat].
    rewrite !logging_keeps. congruence.
  - destruct Hstop as [Heq | Hnr]; [apply Z.eqb_neq in Hlast; contradiction|].
    rewrite Hnr. cbn [negb].
    eexists e, _. split; [reflexivity|]. split; [|exact Hat].
    rewrite !logging_keeps. congruence.
Qed.

(** C5.  With [maxRetries = 2]: when each of the first three invocations
    fails with a retryable failure, the operation is invoked exactly three
    times and the failure of the third invocation is what [withRetry]
    throws; when the first invocation fails with a failure that is not
    retryable, the operation is invoked exactly once and that failure is
    thrown. *)
Theorem withRetry_attempt_count (options : Retry.RetryOptions) (w0 : W) :
  Retry.opt_maxRetries (Retry.resolve options) = 2 ->
  let patterns := Retry.opt_retryableErrors (Retry.resolve options) in
  ((forall w, (invocations w < invocations w0 + 3)%nat ->
      exists e, fst (fn w) = Js.Throw e /\ Retry.retryable e patterns = true) ->
   exists e w',
     Retry.withRetry fn sleep logging options w0 = (Js.Throw e, w')
     /\ invocations w' = (invocations w0 + 3)%nat
     /\ Vocabulary.fails_at fn invocations (invocations w0 + 2) e)
  /\
  ((forall w, invocations w = invocations w0 ->
      exists e, fst (fn w) = Js.Throw e /\ Retry.retryable e patterns = false) ->
   exists e w',
     Retry.withRetry fn sleep logging options w0 = (Js.Throw e, w')
     /\ invocations w' = (invocations w0 + 1)%nat
     /\ Vocabulary.fails_at fn invocations (invocations w0) e
     /\ Retry.retryable e patterns = false).
Proof.
  intros Hmax patterns. unfold Retry.withRetry. rewrite Hmax.
  change (Z.to_nat (2 + 1)) with 3%nat.
  set (opts := Retry.resolve options) in *.
  set (w := logging _ w0).
  assert (Hw : invocations w = invocations w0) by apply logging_keeps.
  split.
  - intros Hall.
    destruct (retry_loop_again opts 2 0 (Retry.opt_initialDelayMs opts) Js.undefined_thrown w)
      as (e1 & w1 & -> & H1); [rewrite Hmax; lia | intros; apply Hall; lia |].
    destruct (retry_loop_again opts 1 (0 + 1) (Z.min (Retry.opt_initialDelayMs opts *
                Retry.opt_backoffMultiplier opts) (Retry.opt_maxDelayMs opts)) e1 w1)
      as (e2 & w2 & -> & H2); [rewrite Hmax; lia | intros; apply Hall; lia |].
    edestruct (retry_loop_stop opts 0 (0 + 1 + 1)) as (e3 & w3 & -> & H3 & Hat).
    { intros w' Hw'. destruct (Hall w') as (e & He & _); [lia|].
      exists e. split; [exact He|]. left. rewrite Hmax. reflexivity. }
    exists e3, w3. split; [reflexivity|]. split; [lia|].
    replace (invocations w0 + 2)%nat with (invocations w2) by lia. exact Hat.
  - intros Hfirst.
    edestruct (retry_loop_stop opts 2 0) as (e & w1 & -> & H1 & Hat).
    { intros w' Hw'. destruct (Hfirst w') as (e & He & Hnr); [congruence|].
      exists e. split; [exact He|]. right. exact Hnr. }
    destruct Hat as (wp & Hwp & Hep).
    destruct (Hfirst wp) as (e' & He' & Hnr'); [congruence|].
    assert (e' = e) by congruence. subst e'.
    exists e, w1. split; [reflexivity|]. split; [lia|].
    split; [exists wp; split; [congruence | exact Hep] | exact Hnr'].
Qed.

End Counting.

Lemma withRetry_attempt_count_witness :
  (exists e, Retry.withRetry Samples.always_503 (fun _ n => n) (fun _ n => n)
               TextProvider.retry_options 0%nat = (Js.Throw e, 3%nat))
  /\ (exists e, Retry.withRetry Samples.always_401 (fun _ n => n) (fun _ n => n)
                  TextProvider.retry_options 0%nat = (Js.Throw e, 1%nat)).
Proof.
  split.
  - destruct (withRetry_attempt_count Samples.always_503 (fun _ n => n) (fun _ n => n) (fun n => n)
                (fun _ => eq_refl) (fun _ _ => eq_refl) (fun _ _ => eq_refl)
                TextProvider.retry_options 0%nat eq_refl) as [H _].
    destruct H as (e & w' & Hrun & Hn & _).
    + intros w _. eexists. split; reflexivity.
    + exists e. rewrite Hrun. simpl in Hn. by subst w'.
  - destruct (withRetry_attempt_count Samples.always_401 (fun _ n => n) (fun _ n => n) (fun n => n)
                (fun _ => eq_refl) (fun _ _ => eq_refl) (fun _ _ => eq_refl)
                TextProvider.retry_options 0%nat eq_refl) as [_ H].
    destruct H as (e & w' & Hrun & Hn & _).
    + intros w _. eexists. split; reflexivity.
    + exists e. rewrite Hrun. simpl in Hn. by subst w'.
Defined.

End RetryFacts.

(* ===================================================================== *)
(** ** The process state under the runtime operations *)
(* ===================================================================== *)

Module RuntimeFacts.

(** A timed [create] issues exactly the one call, whoever wins the race. *)
Lemma withTimeout_create_calls (remote : Runtime.Remote) (req : Runtime.Request)
    (timeoutMs : Z) (context : option string) (st : Runtime.State) :
  Runtime.calls (snd (Runtime.withTimeout (Runtime.create remote req) timeoutMs context st))
  = Runtime.calls st ++ [Runtime.responses_create req].
Proof.
  unfold Runtime.withTimeout, Runtime.create. simpl.
  destruct (_ <=? Js.timer_delay timeoutMs); [|reflexivity].
  destruct (Runtime.settles _); reflexivity.
Qed.

Section RetryOverCreate.

Variable remote : Runtime.Remote.
Variable req : Runtime.Request.
Variable timeoutMs : Z.
Variable context : option string.

Let fn := Runtime.withTimeout (Runtime.create remote req) timeoutMs context.

(** The retry loop never takes a call back. *)
Lemma retry_loop_calls_grow (opts : Retry.Resolved) (k : nat) :
  forall (attempt delay : Z) (last : Js.JsError) (st : Runtime.State),
  exists rest,
    Runtime.calls (snd (Retry.retry_loop fn Runtime.sleep Runtime.logging opts k
                          attempt delay last st))
    = Runtime.calls st ++ rest.
Proof.
  induction k as [|k IH]; intros attempt delay last st.
  - exists []. simpl. by rewrite app_nil_r.
  - cbn [Retry.retry_loop].
    set (st0 := if 0 <? attempt then _ else st).
    assert (H0 : Runtime.calls st0 = Runtime.calls st)
      by (subst st0; by destruct (0 <? attempt)).
    pose proof (withTimeout_create_calls remote req timeoutMs context st0) as Hfn.
    fold fn in Hfn. destruct (fn st0) as [o st1]. simpl in Hfn.
    destruct o as [r|e].
    + exists [Runtime.responses_create req].
      destruct (0 <? attempt); simpl; congruence.
    + unfold Retry.isRetryable.
      destruct (attempt =? Retry.opt_maxRetries opts).
      * exists [Runtime.responses_create req]. simpl. congruence.
      * destruct (Retry.retryable e _); cbn [negb].
        -- match goal with |- context [Retry.retry_loop _ _ _ _ k ?a ?d ?l ?s] =>
             destruct (IH a d l s) as [rest Hrest] end.
           exists (Runtime.responses_create req :: rest).
           rewrite Hrest. simpl. rewrite Hfn, H0. by rewrite <- app_assoc.
        -- exists [Runtime.responses_create req]. simpl. congruence.
Qed.

(** As soon as one iteration is allowed, the first call is the [create]. *)
Lemma retry_loop_first_call (opts : Retry.Resolved) (k : nat)
    (attempt delay : Z) (last : Js.JsError) (st : Runtime.State) :
  exists rest,
    Runtime.calls (snd (Retry.retry_loop fn Runtime.sleep Runtime.logging opts (S k)
                          attempt delay last st))
    = Runtime.calls st ++ Runtime.responses_create req :: rest.
Proof.
  cbn [Retry.retry_loop].
  set (st0 := if 0 <? attempt then _ else st).
  assert (H0 : Runtime.calls st0 = Runtime.calls st)
    by (subst st0; by destruct (0 <? attempt)).
  pose proof (withTimeout_create_calls remote req timeoutMs context st0) as Hfn.
  fold fn in Hfn. destruct (fn st0) as [o st1]. simpl in Hfn.
  destruct o as [r|e].
  - exists []. destruct (0 <? attempt); simpl; congruence.
  - unfold Retry.isRetryable.
    destruct (attempt =? Retry.opt_maxRetries opts).
    + exists []. simpl. congruence.
    + destruct (Retry.retryable e _); cbn [negb].
      * match goal with |- context [Retry.retry_loop _ _ _ _ k ?a ?d ?l ?s] =>
          destruct (retry_loop_calls_grow opts k a d l s) as [rest Hrest] end.
        exists rest. rewrite Hrest. simpl. rewrite Hfn, H0. by rewrite <- app_assoc.
      * exists []. simpl. congruence.
Qed.

End RetryOverCreate.

End RuntimeFacts.

(* ===================================================================== *)
(** ** Text generation: parameter validation *)
(* ===================================================================== *)

Module TextProviderFacts.

Import Vocabulary.

(** What the [catch] clause of [generate] throws is never a validation error. *)
Lemma classify_not_validation (error : Js.JsError) :
  Js.startsWith "VALIDATION_ERROR:"
    (fst (TextProvider.classify error) +:+ ": " +:+ snd (TextProvider.classify error)) = false.
Proof.
  unfold TextProvider.classify.
  repeat match goal with |- context [if ?b then _ else _] => destruct b end; reflexivity.
Qed.

(** Once the three checks pass, the request built from the options is the
    first thing sent, and no later failure is reported as a validation error. *)
Lemma generate_passes (remote : Runtime.Remote) (o : TextProvider.TextGenerateOptions)
    (st : Runtime.State) :
  let model := default "gpt-5.2" (TextProvider.model o) in
  let effort := default Types.effort_none (TextProvider.reasoningEffort o) in
  String.eqb model "gpt-5.2-pro" && negb (Types.isValidProReasoningEffort effort) = false ->
  TextProvider.present (TextProvider.temperature o) && negb (TextProvider.is_none_effort effort)
    = false ->
  TextProvider.present (TextProvider.jsonSchema o) && negb (Types.supportsStructuredOutput model)
    = false ->
  accepted (TextProvider.generate remote o st) st o.
Proof.
  intros model effort H1 H2 H3. unfold accepted, TextProvider.generate.
  fold model effort. rewrite H1, H2, H3.
  unfold Retry.withRetry.
  change (Z.to_nat (Retry.opt_maxRetries (Retry.resolve TextProvider.retry_options) + 1))
    with 3%nat.
  match goal with |- context [Retry.retry_loop ?f _ _ ?opts 3 ?a ?d ?l ?s] =>
    destruct (RuntimeFacts.retry_loop_first_call remote (TextProvider.build_request o)
                TextProvider.DEFAULT_TIMEOUT_MS (Some "text-generation") opts 2 a d l s)
      as [rest Hrest];
    destruct (Retry.retry_loop f Runtime.sleep Runtime.logging opts 3 a d l s) as [out st'] end.
  simpl in Hrest. destruct out as [response|error].
  - split; [reflexivity|]. exists rest. simpl. exact Hrest.
  - destruct (Js.nullish error).
    { split; [reflexivity|]. exists rest. simpl. exact Hrest. }
    pose proof (classify_not_validation error) as Hc.
    destruct (TextProvider.classify error) as [errorType errorMessage].
    split; [exact Hc|]. exists rest. simpl. exact Hrest.
Qed.

(** C6.  Validation in [generate] runs before anything else.  Rejected with
    VALIDATION_ERROR, the process untouched and nothing sent: gpt-5.2-pro
    with reasoning effort none; reasoning effort low with temperature 0.7;
    a model without structured output together with a JSON schema.
    Accepted, the built request being the first call issued: gpt-5.2-pro
    with reasoning effort high; reasoning effort none with temperature 0.7
    on a model other than gpt-5.2-pro. *)
Theorem generate_validates_parameters (remote : Runtime.Remote) (st : Runtime.State) :
  (forall o,
     TextProvider.model o = Some "gpt-5.2-pro" ->
     TextProvider.reasoningEffort o = Some Types.effort_none ->
     rejected (TextProvider.generate remote o st) st)
  /\ (forall o,
        TextProvider.reasoningEffort o = Some Types.effort_low ->
        TextProvider.temperature o = Some (7 # 10)%Q ->
        rejected (TextProvider.generate remote o st) st)
  /\ (forall o m schema,
        TextProvider.model o = Some m ->
        Types.supportsStructuredOutput m = false ->
        TextProvider.jsonSchema o = Some schema ->
        rejected (TextProvider.generate remote o st) st)
  /\ (forall o,
        TextProvider.model o = Some "gpt-5.2-pro" ->
        TextProvider.reasoningEffort o = Some Types.effort_high ->
        TextProvider.temperature o = None ->
        TextProvider.jsonSchema o = None ->
        accepted (TextProvider.generate remote o st) st o)
  /\ (forall o,
        TextProvider.model o <> Some "gpt-5.2-pro" ->
        TextProvider.reasoningEffort o = Some Types.effort_none ->
        TextProvider.temperature o = Some (7 # 10)%Q ->
        TextProvider.jsonSchema o = None ->
        accepted (TextProvider.generate remote o st) st o).
Proof.
  split; [|split; [|split; [|split]]].
  - intros o Hm He. unfold rejected, TextProvider.generate. rewrite Hm, He. simpl.
    eexists. split; reflexivity.
  - intros o He Ht. unfold rejected, TextProvider.generate. rewrite He, Ht. simpl.
    destruct (String.eqb _ "gpt-5.2-pro"); simpl; eexists; split; reflexivity.
  - intros o m schema Hm Hs Hj. unfold rejected, TextProvider.generate.
    rewrite Hm, Hj. simpl. rewrite Hs. simpl.
    destruct (String.eqb m "gpt-5.2-pro" && _);
      [|destruct (TextProvider.present _ && _)]; eexists; split; reflexivity.
  - intros o Hm He Ht Hj. apply generate_passes; rewrite ?Hm, ?He, ?Ht, ?Hj; reflexivity.
  - intros o Hm He Ht Hj. apply generate_passes; rewrite ?He, ?Ht, ?Hj; try reflexivity.
    simpl. rewrite andb_true_r.
    destruct (TextProvider.model o) as [m|]; [|reflexivity]. simpl.
    apply String.eqb_neq. congruence.
Qed.

Lemma generate_validates_parameters_witness :
  rejected (TextProvider.generate Samples.remote_text
              (Samples.text_options (Some "gpt-5.2-pro") (Some Types.effort_none) None None)
              Samples.fresh) Samples.fresh
  /\ rejected (TextProvider.generate Samples.remote_text
                 (Samples.text_options None (Some Types.effort_low) (Some (7 # 10)%Q) None)
                 Samples.fresh) Samples.fresh
  /\ rejected (TextProvider.generate Samples.remote_text
                 (Samples.text_options (Some "gpt-5.2-pro") (Some Types.effort_high) None
                    (Some Samples.schema0))
                 Samples.fresh) Samples.fresh
  /\ accepted (TextProvider.generate Samples.remote_text
                 (Samples.text_options (Some "gpt-5.2-pro") (Some Types.effort_high) None None)
                 Samples.fresh) Samples.fresh
              (Samples.text_options (Some "gpt-5.2-pro") (Some Types.effort_high) None None)
  /\ accepted (TextProvider.generate Samples.remote_text
                 (Samples.text_options None (Some Types.effort_none) (Some (7 # 10)%Q) None)
                 Samples.fresh) Samples.fresh
              (Samples.text_options None (Some Types.effort_none) (Some (7 # 10)%Q) None).
Proof.
  destruct (generate_validates_parameters Samples.remote_text Samples.fresh)
    as (H1 & H2 & H3 & H4 & H5).
  split; [apply H1; reflexivity|].
  split; [apply H2; reflexivity|].
  split; [apply (H3 _ "gpt-5.2-pro" Samples.schema0); reflexivity|].
  split; [apply H4; reflexivity|].
  apply H5; [discriminate | reflexivity | reflexivity | reflexivity].
Defined.

End TextProviderFacts.

(* ===================================================================== *)
(** ** Deep research: the poll loop *)
(* ===================================================================== *)

Module DeepResearchFacts.

Import Vocabulary.

Section PollLoop.

Variable remote : Runtime.Remote.
Variable responseId : string.
Variables timeoutMs pollIntervalMs startTime : Z.

Let poll (fuel : nat) (st : Runtime.State) :=
  DeepResearch.pollForCompletion fuel remote responseId timeoutMs pollIntervalMs startTime st.

Let reply (st : Runtime.State) : Runtime.Reply :=
  Runtime.on_retrieve remote (Runtime.retrieved st).

(** *** One pass *)

Lemma pass_deadline (fuel : nat) (st : Runtime.State) :
  timeoutMs < Runtime.now st - startTime ->
  poll (S fuel) st
  = Some (Js.Throw (Js.Error (DeepResearch.timeout_message (Runtime.now st - startTime)
                                responseId)), st).
Proof.
  intros H. unfold poll. cbn [DeepResearch.pollForCompletion].
  apply Z.ltb_lt in H. by rewrite H.
Qed.

Lemma pass_not_final (fuel : nat) (st : Runtime.State) (response : Runtime.Response) :
  Runtime.now st - startTime <= timeoutMs ->
  Runtime.settles (reply st) = Js.Return response ->
  DeepResearch.status_is "completed" response = false ->
  DeepResearch.status_is "failed" response = false ->
  poll (S fuel) st
  = poll fuel (next_pass remote responseId pollIntervalMs
                 (Logger.debugLog "Research poll response") st).
Proof.
  intros Ht Hr Hc Hf. unfold poll. cbn [DeepResearch.pollForCompletion].
  apply Z.ltb_ge in Ht. rewrite Ht.
  unfold DeepResearch.poll_try, Runtime.retrieve. cbn [Runtime.retrieved Runtime.logging].
  fold (reply st). rewrite Hr, Hc, Hf. reflexivity.
Qed.

Lemma pass_transport_error (fuel : nat) (st : Runtime.State) (error : Js.JsError) :
  Runtime.now st - startTime <= timeoutMs ->
  Runtime.settles (reply st) = Js.Throw error ->
  Js.nullish error = false ->
  DeepResearch.own_error error = false ->
  poll (S fuel) st
  = poll fuel (next_pass remote responseId pollIntervalMs
                 (Logger.log Logger.warn "Research poll error, retrying") st).
Proof.
  intros Ht Hr Hn Ho. unfold poll. cbn [DeepResearch.pollForCompletion].
  apply Z.ltb_ge in Ht. rewrite Ht.
  unfold DeepResearch.poll_try, Runtime.retrieve. cbn [Runtime.retrieved Runtime.logging].
  fold (reply st). rewrite Hr, Hn, Ho. reflexivity.
Qed.

(** On a retrieval rejected with [undefined] the catch clause throws a
    TypeError, which leaves the loop. *)
Lemma pass_nullish (fuel : nat) (st : Runtime.State) (error : Js.JsError) :
  Runtime.now st - startTime <= timeoutMs ->
  Runtime.settles (reply st) = Js.Throw error ->
  Js.nullish error = true ->
  poll (S fuel) st
  = Some (Js.Throw (Js.TypeError_reading "message"),
          snd (Runtime.retrieve remote responseId
                 (Runtime.logging (Logger.debugLog "Polling research status") st))).
Proof.
  intros Ht Hr Hn. unfold poll. cbn [DeepResearch.pollForCompletion].
  apply Z.ltb_ge in Ht. rewrite Ht.
  unfold DeepResearch.poll_try, Runtime.retrieve. cbn [Runtime.retrieved Runtime.logging].
  fold (reply st). rewrite Hr, Hn. reflexivity.
Qed.

Lemma own_error_object (error : Js.JsError) :
  DeepResearch.own_error error = true -> Js.nullish error = false.
Proof.
  unfold DeepResearch.own_error, Js.message_startsWith, Js.nullish.
  by destruct (Js.message error).
Qed.

Let retrieved_state := Vocabulary.retrieved_state remote responseId.

Lemma pass_completed (fuel : nat) (st : Runtime.State) (response : Runtime.Response)
    (text : string) :
  Runtime.now st - startTime <= timeoutMs ->
  Runtime.settles (reply st) = Js.Return response ->
  Runtime.status response = Some "completed" ->
  Runtime.output_text response = Some text ->
  text <> "" ->
  poll (S fuel) st
  = Some (Js.Return {| DeepResearch.poll_text := text;
                       DeepResearch.poll_status := DeepResearch.completed;
                       DeepResearch.poll_usage :=
                         Runtime.extract_usage false (Runtime.usage response) |},
          retrieved_state st).
Proof.
  intros Ht Hr Hs Ho Hne. unfold poll. cbn [DeepResearch.pollForCompletion].
  apply Z.ltb_ge in Ht. rewrite Ht.
  unfold DeepResearch.poll_try, Runtime.retrieve. cbn [Runtime.retrieved Runtime.logging].
  fold (reply st). rewrite Hr. unfold DeepResearch.status_is. rewrite Hs, Ho.
  apply String.eqb_neq in Hne.
  assert (Htext : Js.str_or (Some text) "" = text) by (unfold Js.str_or; by rewrite Hne).
  rewrite Htext, Hne. reflexivity.
Qed.

Lemma pass_completed_empty (fuel : nat) (st : Runtime.State) (response : Runtime.Response) :
  Runtime.now st - startTime <= timeoutMs ->
  Runtime.settles (reply st) = Js.Return response ->
  Runtime.status response = Some "completed" ->
  Js.falsy_str (Runtime.output_text response) = true ->
  poll (S fuel) st
  = Some (Js.Throw (Js.Error "API_ERROR: Research completed but no output text found"),
          retrieved_state st).
Proof.
  intros Ht Hr Hs Ho. unfold poll. cbn [DeepResearch.pollForCompletion].
  apply Z.ltb_ge in Ht. rewrite Ht.
  unfold DeepResearch.poll_try, Runtime.retrieve. cbn [Runtime.retrieved Runtime.logging].
  fold (reply st). rewrite Hr. unfold DeepResearch.status_is. rewrite Hs.
  assert (Htext : Js.str_or (Runtime.output_text response) "" = "").
  { unfold Js.str_or, Js.falsy_str in *. destruct (Runtime.output_text response); [|done].
    by rewrite Ho. }
  rewrite Htext. reflexivity.
Qed.

Lemma pass_failed (fuel : nat) (st : Runtime.State) (response : Runtime.Response) :
  Runtime.now st - startTime <= timeoutMs ->
  Runtime.settles (reply st) = Js.Return response ->
  Runtime.status response = Some "failed" ->
  poll (S fuel) st
  = Some (Js.Throw (Js.Error ("RESEARCH_FAILED: " +:+
                      Js.str_or (Runtime.error_message response)
                                "Research failed with unknown error")),
          retrieved_state st).
Proof.
  intros Ht Hr Hs. unfold poll. cbn [DeepResearch.pollForCompletion].
  apply Z.ltb_ge in Ht. rewrite Ht.
  unfold DeepResearch.poll_try, Runtime.retrieve. cbn [Runtime.retrieved Runtime.logging].
  fold (reply st). rewrite Hr. unfold DeepResearch.status_is. rewrite Hs. reflexivity.
Qed.

(** An error of the loop's own that the retrieval itself throws is passed on. *)
Lemma pass_own_error (fuel : nat) (st : Runtime.State) (error : Js.JsError) :
  Runtime.now st - startTime <= timeoutMs ->
  Runtime.settles (reply st) = Js.Throw error ->
  DeepResearch.own_error error = true ->
  poll (S fuel) st
  = Some (Js.Throw error,
          snd (Runtime.retrieve remote responseId
                 (Runtime.logging (Logger.debugLog "Polling research status") st))).
Proof.
  intros Ht Hr Ho. unfold poll. cbn [DeepResearch.pollForCompletion].
  apply Z.ltb_ge in Ht. rewrite Ht.
  unfold DeepResearch.poll_try, Runtime.retrieve. cbn [Runtime.retrieved Runtime.logging].
  fold (reply st). rewrite Hr, (own_error_object error Ho), Ho. reflexivity.
Qed.

(** The delay of a timer is one millisecond at least. *)
Lemma timer_delay_pos (ms : Z) : 1 <= Js.timer_delay ms.
Proof.
  unfold Js.timer_delay. destruct (ms <? 1) eqn:H1; simpl; [lia|].
  destruct (2147483647 <? ms); lia.
Qed.

Lemma timer_delay_id (ms : Z) : 1 <= ms <= 2147483647 -> Js.timer_delay ms = ms.
Proof.
  intros [Hlo Hhi]. unfold Js.timer_delay.
  apply Z.ltb_ge in Hlo. rewrite Hlo. simpl.
  destruct (2147483647 <? ms) eqn:H; [apply Z.ltb_lt in H; lia | reflexivity].
Qed.

(** *** What a pass changes *)

Lemma next_pass_now (note : Logger.t -> Logger.t) (st : Runtime.State) :
  Runtime.now (next_pass remote responseId pollIntervalMs note st)
  = Runtime.now st + Runtime.latency (reply st) + Js.timer_delay pollIntervalMs.
Proof. reflexivity. Qed.

Lemma next_pass_retrieved (note : Logger.t -> Logger.t) (st : Runtime.State) :
  Runtime.retrieved (next_pass remote responseId pollIntervalMs note st)
  = S (Runtime.retrieved st).
Proof. reflexivity. Qed.

Lemma next_pass_calls (note : Logger.t -> Logger.t) (st : Runtime.State) :
  Runtime.calls (next_pass remote responseId pollIntervalMs note st)
  = Runtime.calls st ++ [Runtime.responses_retrieve responseId].
Proof. reflexivity. Qed.

Lemma next_pass_costTracker (note : Logger.t -> Logger.t) (st : Runtime.State) :
  Runtime.costTracker (next_pass remote responseId pollIntervalMs note st)
  = Runtime.costTracker st.
Proof. reflexivity. Qed.

Lemma next_pass_created (note : Logger.t -> Logger.t) (st : Runtime.State) :
  Runtime.created (next_pass remote responseId pollIntervalMs note st) = Runtime.created st.
Proof. reflexivity. Qed.

(** *** The loop *)

Lemma poll_S (fuel : nat) (st : Runtime.State) :
  poll (S fuel) st
  = if timeoutMs <? Runtime.now st - startTime
    then Some (Js.Throw (Js.Error (DeepResearch.timeout_message (Runtime.now st - startTime)
                                     responseId)), st)
    else
      match DeepResearch.poll_try remote responseId pollIntervalMs
              (Runtime.logging (Logger.debugLog "Polling research status") st) with
      | (DeepResearch.Resolved result, st1) => Some (Js.Return result, st1)
      | (DeepResearch.Slept, st1) => poll fuel st1
      | (DeepResearch.Raised error, st1) =>
          if Js.nullish error
          then Some (Js.Throw (Js.TypeError_reading "message"), st1)
          else if DeepResearch.own_error error
          then Some (Js.Throw error, st1)
          else poll fuel (Runtime.sleep pollIntervalMs
                            (Runtime.logging
                               (Logger.log Logger.warn "Research poll error, retrying") st1))
      end.
Proof. reflexivity. Qed.

(** More fuel does not change a result already reached. *)
Lemma poll_fuel_mono (fuel : nat) :
  forall st r, poll fuel st = Some r -> poll (S fuel) st = Some r.
Proof.
  induction fuel as [|fuel IH]; intros st r H; [discriminate|].
  rewrite poll_S in H. rewrite poll_S.
  destruct (timeoutMs <? _); [exact H|].
  destruct (DeepResearch.poll_try _ _ _ _) as [[result|error|] st1].
  - exact H.
  - destruct (Js.nullish error); [exact H|].
    destruct (DeepResearch.own_error error); [exact H | by apply IH].
  - by apply IH.
Qed.

Lemma poll_fuel_more (fuel extra : nat) (st : Runtime.State)
    (r : Js.Outcome DeepResearch.PollResult * Runtime.State) :
  poll fuel st = Some r -> poll (fuel + extra) st = Some r.
Proof.
  intros H. induction extra as [|extra IH].
  - by rewrite Nat.add_0_r.
  - rewrite Nat.add_succ_r. by apply poll_fuel_mono.
Qed.

Lemma timeout_is_own_error (elapsed : Z) :
  DeepResearch.own_error (Js.Error (DeepResearch.timeout_message elapsed responseId)) = true.
Proof. reflexivity. Qed.

Lemma status_is_eq (s : string) (response : Runtime.Response) :
  DeepResearch.status_is s response = true -> Runtime.status response = Some s.
Proof.
  unfold DeepResearch.status_is. destruct (Runtime.status response) as [x|]; [|done].
  intros H. apply String.eqb_eq in H. by subst.
Qed.

(** A pass that starts within the deadline either ends the loop with a
    final outcome or hands over to the next pass; either way it made one
    retrieval and nothing else. *)
Lemma pass_cases (fuel : nat) (st : Runtime.State) :
  Runtime.now st - startTime <= timeoutMs ->
  (exists out st1,
     poll (S fuel) st = Some (out, st1) /\ final out /\ one_retrieval responseId st st1)
  \/ (exists st1,
        poll (S fuel) st = poll fuel st1
        /\ Runtime.now st1
           = Runtime.now st + Runtime.latency (reply st) + Js.timer_delay pollIntervalMs
        /\ one_retrieval responseId st st1).
Proof.
  intros Ht.
  destruct (Runtime.settles (reply st)) as [response|error] eqn:Hr.
  - destruct (DeepResearch.status_is "completed" response) eqn:Hc.
    + apply status_is_eq in Hc.
      destruct (Js.falsy_str (Runtime.output_text response)) eqn:Hf.
      * left. eexists _, _. split; [by apply (pass_completed_empty fuel st response)|].
        split; [by left | by repeat split].
      * left. unfold Js.falsy_str in Hf.
        destruct (Runtime.output_text response) as [text|] eqn:Ho; [|done].
        apply String.eqb_neq in Hf.
        eexists _, _. split; [by apply (pass_completed fuel st response text)|].
        split; [by split | by repeat split].
    + destruct (DeepResearch.status_is "failed" response) eqn:Hfl.
      * apply status_is_eq in Hfl. left.
        eexists _, _. split; [by apply pass_failed|].
        split; [by left | by repeat split].
      * right. eexists. split; [by apply (pass_not_final fuel st response)|].
        by repeat split.
  - destruct (Js.nullish error) eqn:Hn.
    { left. eexists _, _. split; [by apply (pass_nullish fuel st error)|].
      split; [by right | by repeat split]. }
    destruct (DeepResearch.own_error error) eqn:Ho.
    + left. eexists _, _. split; [by apply pass_own_error|].
      split; [by left | by repeat split].
    + right. eexists. split; [by apply (pass_transport_error fuel st error)|].
      by repeat split.
Qed.

Lemma only_retrievals_refl (st : Runtime.State) : only_retrievals responseId st st.
Proof.
  exists 0%nat. simpl. rewrite Nat.add_0_r, app_nil_r. by repeat split.
Qed.

Lemma only_retrievals_step (st st1 st2 : Runtime.State) :
  one_retrieval responseId st st1 -> only_retrievals responseId st1 st2 ->
  only_retrievals responseId st st2.
Proof.
  intros (Hr & Hc & Ht & Hn) (polls & Hr' & Hc' & Ht' & Hn').
  exists (S polls). repeat split.
  - lia.
  - rewrite Hc', Hc. simpl. by rewrite <- app_assoc.
  - congruence.
  - congruence.
Qed.

(** Every outcome of the loop is final, and the loop only retrieves. *)
Lemma poll_sound (fuel : nat) :
  forall st out st',
    poll fuel st = Some (out, st') -> final out /\ only_retrievals responseId st st'.
Proof.
  induction fuel as [|fuel IH]; intros st out st' H; [discriminate|].
  destruct (Z.lt_ge_cases timeoutMs (Runtime.now st - startTime)) as [Hlate|Hin].
  - rewrite pass_deadline in H by done. injection H as <- <-.
    split; [left; apply timeout_is_own_error | apply only_retrievals_refl].
  - destruct (pass_cases fuel st Hin) as [(o & st1 & Hp & Hfin & Hone) | (st1 & Hp & _ & Hone)].
    + rewrite Hp in H. injection H as <- <-. split; [exact Hfin|].
      eapply only_retrievals_step; [exact Hone | apply only_retrievals_refl].
    + rewrite Hp in H. destruct (IH _ _ _ H) as [Hfin Hrest].
      split; [exact Hfin|]. by eapply only_retrievals_step.
Qed.

(** With a positive poll interval the clock overtakes any deadline: the
    loop ends within as many passes as the budget has milliseconds, plus one. *)
Lemma poll_terminates :
  latencies_nonneg remote -> 0 < pollIntervalMs ->
  forall k st, (budget timeoutMs startTime st <= k)%nat ->
    exists out st', poll (S k) st = Some (out, st').
Proof.
  intros Hlat Hpos. unfold budget.
  induction k as [|k IH]; intros st Hk.
  - eexists _, _. apply pass_deadline. lia.
  - destruct (Z.lt_ge_cases timeoutMs (Runtime.now st - startTime)) as [Hlate|Hin].
    + eexists _, _. by apply pass_deadline.
    + destruct (pass_cases (S k) st Hin) as [(o & st1 & Hp & _) | (st1 & Hp & Hnow & _)].
      * by eexists _, _.
      * rewrite Hp. apply IH. rewrite Hnow.
        pose proof (Hlat (Runtime.retrieved st)). fold (reply st) in H.
        pose proof (timer_delay_pos pollIntervalMs). lia.
Qed.

(** The same for any poll interval: the timer never waits less than a
    millisecond. *)
Lemma poll_ends_within_budget :
  latencies_nonneg remote ->
  forall k st, (budget timeoutMs startTime st <= k)%nat ->
    exists out st', poll (S k) st = Some (out, st').
Proof.
  intros Hlat. unfold budget.
  induction k as [|k IH]; intros st Hk.
  - eexists _, _. apply pass_deadline. lia.
  - destruct (Z.lt_ge_cases timeoutMs (Runtime.now st - startTime)) as [Hlate|Hin].
    + eexists _, _. by apply pass_deadline.
    + destruct (pass_cases (S k) st Hin) as [(o & st1 & Hp & _) | (st1 & Hp & Hnow & _)].
      * by eexists _, _.
      * rewrite Hp. apply IH. rewrite Hnow.
        pose proof (Hlat (Runtime.retrieved st)). fold (reply st) in H.
        pose proof (timer_delay_pos pollIntervalMs). lia.
Qed.

(** A job that stays in progress makes the loop end on its deadline. *)
Lemma poll_in_progress_times_out :
  (forall n, in_progress_at remote n) ->
  latencies_nonneg remote -> 0 < pollIntervalMs ->
  forall k st, (budget timeoutMs startTime st <= k)%nat ->
    exists st',
      poll (S k) st
      = Some (Js.Throw (Js.Error (DeepResearch.timeout_message (Runtime.now st' - startTime)
                                    responseId)), st')
      /\ timeoutMs < Runtime.now st' - startTime
      /\ only_retrievals responseId st st'.
Proof.
  intros Hrun Hlat Hpos. unfold budget.
  induction k as [|k IH]; intros st Hk.
  - exists st. split; [apply pass_deadline; lia|]. split; [lia | apply only_retrievals_refl].
  - destruct (Z.lt_ge_cases timeoutMs (Runtime.now st - startTime)) as [Hlate|Hin].
    + exists st. split; [by apply pass_deadline|]. split; [lia | apply only_retrievals_refl].
    + destruct (Hrun (Runtime.retrieved st)) as (response & Hr & Hs).
      rewrite (pass_not_final (S k) st response Hin Hr)
        by (unfold DeepResearch.status_is; by rewrite Hs).
      set (st1 := next_pass _ _ _ _ st).
      destruct (IH st1) as (st' & Hp & Hlate & Hrest).
      { subst st1. rewrite next_pass_now.
        pose proof (Hlat (Runtime.retrieved st)). fold (reply st) in H.
        pose proof (timer_delay_pos pollIntervalMs). lia. }
      exists st'. split; [exact Hp|]. split; [exact Hlate|].
      eapply only_retrievals_step; [|exact Hrest]. by repeat split.
Qed.

(** Why the loop ended: on its deadline, or on what a retrieval found. *)
Lemma poll_ends :
  rejects_with_objects remote ->
  forall fuel st out st',
    poll fuel st = Some (out, st') ->
    (timeoutMs < Runtime.now st' - startTime
     /\ out = Js.Throw (Js.Error (DeepResearch.timeout_message
                                    (Runtime.now st' - startTime) responseId)))
    \/ (exists n, (Runtime.retrieved st <= n)%nat
                  /\ Runtime.retrieved st' = S n
                  /\ ended_by remote n out).
Proof.
  intros Hobj. induction fuel as [|fuel IH]; intros st out st' H; [discriminate|].
  destruct (Z.lt_ge_cases timeoutMs (Runtime.now st - startTime)) as [Hlate|Hin].
  { rewrite pass_deadline in H by done. injection H as <- <-. by left. }
  assert (Hnext : forall note,
            poll (S fuel) st = poll fuel (next_pass remote responseId pollIntervalMs note st) ->
            (timeoutMs < Runtime.now st' - startTime
             /\ out = Js.Throw (Js.Error (DeepResearch.timeout_message
                                            (Runtime.now st' - startTime) responseId)))
            \/ (exists n, (Runtime.retrieved st <= n)%nat
                          /\ Runtime.retrieved st' = S n
                          /\ ended_by remote n out)).
  { intros note Hp. rewrite Hp in H.
    destruct (IH _ _ _ H) as [Hd | (n & Hle & Hn & He)]; [by left|].
    right. exists n. rewrite next_pass_retrieved in Hle. split; [lia | by split]. }
  destruct (Runtime.settles (reply st)) as [response|error] eqn:Hr.
  - destruct (DeepResearch.status_is "completed" response) eqn:Hc.
    + apply status_is_eq in Hc.
      destruct (Js.falsy_str (Runtime.output_text response)) eqn:Hf.
      * rewrite (pass_completed_empty fuel st response Hin Hr Hc Hf) in H.
        injection H as <- <-. right. exists (Runtime.retrieved st).
        split; [lia|]. split; [reflexivity|].
        unfold ended_by. fold (reply st). rewrite Hr. left. split; [exact Hc|]. by right.
      * unfold Js.falsy_str in Hf.
        destruct (Runtime.output_text response) as [text|] eqn:Ho; [|done].
        apply String.eqb_neq in Hf.
        rewrite (pass_completed fuel st response text Hin Hr Hc Ho Hf) in H.
        injection H as <- <-. right. exists (Runtime.retrieved st).
        split; [lia|]. split; [reflexivity|].
        unfold ended_by. fold (reply st). rewrite Hr. left. split; [exact Hc|].
        left. exists text. rewrite Ho. by repeat split.
    + destruct (DeepResearch.status_is "failed" response) eqn:Hfl.
      * apply status_is_eq in Hfl.
        rewrite (pass_failed fuel st response Hin Hr Hfl) in H.
        injection H as <- <-. right. exists (Runtime.retrieved st).
        split; [lia|]. split; [reflexivity|].
        unfold ended_by. fold (reply st). rewrite Hr. by right.
      * apply (Hnext (Logger.debugLog "Research poll response")).
        by apply (pass_not_final fuel st response).
  - pose proof (Hobj _ _ Hr) as Hn.
    destruct (DeepResearch.own_error error) eqn:Ho.
    + rewrite (pass_own_error fuel st error Hin Hr Ho) in H.
      injection H as <- <-. right. exists (Runtime.retrieved st).
      split; [lia|]. split; [reflexivity|].
      unfold ended_by. fold (reply st). rewrite Hr. by repeat split.
    + apply (Hnext (Logger.log Logger.warn "Research poll error, retrying")).
      by apply (pass_transport_error fuel st error).
Qed.

End PollLoop.

(** *** [research] around the loop *)

Lemma timeout_message_carries_id (elapsed : Z) (responseId : string) :
  Js.startsWith "TIMEOUT:" (DeepResearch.timeout_message elapsed responseId) = true
  /\ Js.includes responseId (DeepResearch.timeout_message elapsed responseId) = true.
Proof.
  split; [reflexivity|]. unfold DeepResearch.timeout_message.
  do 3 apply JsFacts.includes_skip. apply JsFacts.includes_app_r.
Qed.

Lemma startResearch_costTracker (remote : Runtime.Remote) (query model : string)
    (st : Runtime.State) :
  Runtime.costTracker (snd (DeepResearch.startResearch remote query model st))
  = Runtime.costTracker st.
Proof.
  unfold DeepResearch.startResearch, Runtime.create. simpl.
  destruct (Runtime.settles _) as [response|error]; simpl.
  - destruct (Js.falsy_str (Runtime.id response)); simpl; reflexivity.
  - repeat match goal with |- context [if ?b then _ else _] => destruct b end; reflexivity.
Qed.

Lemma startResearch_started (remote : Runtime.Remote) (options : DeepResearch.DeepResearchOptions)
    (st : Runtime.State) (rid : string) :
  started_with remote st rid ->
  DeepResearch.startResearch remote (DeepResearch.query options) (model_of options)
    (Runtime.logging (Logger.debugLog "Starting deep research") st)
  = (Js.Return rid,
     Runtime.logging (Logger.debugLog "Deep research started successfully")
       (snd (Runtime.create remote
               (DeepResearch.research_request (DeepResearch.query options) (model_of options))
               (Runtime.logging (Logger.debugLog "Deep research API request")
                  (Runtime.logging (Logger.debugLog "Starting deep research") st))))).
Proof.
  intros (response & Hr & Hid & Hne).
  unfold DeepResearch.startResearch, Runtime.create. cbn [Runtime.created Runtime.logging].
  rewrite Hr. unfold Js.falsy_str. rewrite Hid.
  apply String.eqb_neq in Hne. rewrite Hne. reflexivity.
Qed.

(** After a successful start, [research] is the poll loop followed by the
    bookkeeping: a failure of the loop is thrown on as it is. *)
Lemma research_poll_throws (fuel : nat) (remote : Runtime.Remote)
    (options : DeepResearch.DeepResearchOptions) (st st' : Runtime.State) (rid : string)
    (error : Js.JsError) :
  started_with remote st rid ->
  DeepResearch.pollForCompletion fuel remote rid (timeout_of options) (interval_of options)
    (Runtime.now st) (poll_start remote options st) = Some (Js.Throw error, st') ->
  DeepResearch.research fuel remote options st = Some (Js.Throw error, st').
Proof.
  intros Hstart Hpoll. unfold DeepResearch.research.
  fold (model_of options) (timeout_of options) (interval_of options).
  rewrite (startResearch_started remote options st rid Hstart).
  unfold poll_start in Hpoll. fold (model_of options) in Hpoll.
  cbn [Runtime.now Runtime.logging]. cbn [Runtime.now Runtime.logging] in Hpoll.
  rewrite Hpoll. reflexivity.
Qed.

(** The three ways [research] goes on after [startResearch]. *)
Lemma research_start_fails (fuel : nat) (remote : Runtime.Remote)
    (options : DeepResearch.DeepResearchOptions) (st s1 : Runtime.State) (error : Js.JsError) :
  DeepResearch.startResearch remote (DeepResearch.query options) (model_of options)
    (Runtime.logging (Logger.debugLog "Starting deep research") st) = (Js.Throw error, s1) ->
  DeepResearch.research fuel remote options st = Some (Js.Throw error, s1).
Proof.
  intros Hs. unfold DeepResearch.research. fold (model_of options). by rewrite Hs.
Qed.

Lemma research_loop_throws (fuel : nat) (remote : Runtime.Remote)
    (options : DeepResearch.DeepResearchOptions) (st s1 s2 : Runtime.State) (rid : string)
    (error : Js.JsError) :
  DeepResearch.startResearch remote (DeepResearch.query options) (model_of options)
    (Runtime.logging (Logger.debugLog "Starting deep research") st) = (Js.Return rid, s1) ->
  DeepResearch.pollForCompletion fuel remote rid (timeout_of options) (interval_of options)
    (Runtime.now st) (Runtime.logging (Logger.log Logger.info "Deep research started") s1)
  = Some (Js.Throw error, s2) ->
  DeepResearch.research fuel remote options st = Some (Js.Throw error, s2).
Proof.
  intros Hs Hp. unfold DeepResearch.research.
  fold (model_of options) (timeout_of options) (interval_of options).
  rewrite Hs. cbn [Runtime.now Runtime.logging] in *. by rewrite Hp.
Qed.

Lemma research_loop_returns (fuel : nat) (remote : Runtime.Remote)
    (options : DeepResearch.DeepResearchOptions) (st s1 s2 : Runtime.State) (rid : string)
    (result : DeepResearch.PollResult) :
  DeepResearch.startResearch remote (DeepResearch.query options) (model_of options)
    (Runtime.logging (Logger.debugLog "Starting deep research") st) = (Js.Return rid, s1) ->
  DeepResearch.pollForCompletion fuel remote rid (timeout_of options) (interval_of options)
    (Runtime.now st) (Runtime.logging (Logger.log Logger.info "Deep research started") s1)
  = Some (Js.Return result, s2) ->
  exists r st',
    DeepResearch.research fuel remote options st = Some (Js.Return r, st')
    /\ DeepResearch.text r = DeepResearch.poll_text result
    /\ DeepResearch.status r = DeepResearch.poll_status result
    /\ DeepResearch.usage r = DeepResearch.poll_usage result
    /\ DeepResearch.responseId r = rid
    /\ DeepResearch.res_model r = model_of options
    /\ DeepResearch.cost r
       = Pricing.calculateCost (model_of options)
           (Runtime.prompt_or0 (DeepResearch.usage r))
           (Runtime.completion_or0 (DeepResearch.usage r))
    /\ Runtime.costTracker st'
       = CostTracker.trackCost
           (DeepResearch.cost_entry (Runtime.now s2) (model_of options) (DeepResearch.cost r)
              (DeepResearch.usage r))
           (Runtime.costTracker s2)
    /\ Runtime.calls st' = Runtime.calls s2
    /\ Runtime.retrieved st' = Runtime.retrieved s2.
Proof.
  intros Hs Hp. unfold DeepResearch.research.
  fold (model_of options) (timeout_of options) (interval_of options).
  rewrite Hs. cbn [Runtime.now Runtime.logging] in *. rewrite Hp.
  eexists _, _. split; [reflexivity|]. by repeat split.
Qed.

(** More fuel does not change what [research] has produced. *)
Lemma research_fuel_more (fuel extra : nat) (remote : Runtime.Remote)
    (options : DeepResearch.DeepResearchOptions) (st : Runtime.State)
    (x : Js.Outcome DeepResearch.DeepResearchResult * Runtime.State) :
  DeepResearch.research fuel remote options st = Some x ->
  DeepResearch.research (fuel + extra) remote options st = Some x.
Proof.
  unfold DeepResearch.research.
  destruct (DeepResearch.startResearch _ _ _ _) as [[rid|error] s1]; [|done].
  destruct (DeepResearch.pollForCompletion fuel _ _ _ _ _ _) as [[o s]|] eqn:Hp; [|done].
  by rewrite (poll_fuel_more _ _ _ _ _ _ extra _ _ Hp).
Qed.

(** C2, as the source has it.  With a positive poll interval [research]
    always ends.  When it returns, exactly one ledger record has been
    appended, for the operation deep_research, costed by [calculateCost]
    on the reported token counts, on zero tokens when no usage was reported,
    and then marked estimated.  When it throws (the job failed, the deadline
    passed, the start failed, ...) the failure leaves [research] directly
    and the ledger is what it was: no record is appended. *)
Theorem research_ledger_record_only_on_success (remote : Runtime.Remote)
    (options : DeepResearch.DeepResearchOptions) (st : Runtime.State) :
  latencies_nonneg remote ->
  0 < interval_of options ->
  ledger_contract remote options st.
Proof.
  intros Hlat Hpos. unfold ledger_contract.
  destruct (DeepResearch.startResearch remote (DeepResearch.query options) (model_of options)
              (Runtime.logging (Logger.debugLog "Starting deep research") st))
    as [[rid|error] s1] eqn:Hs.
  - pose proof (startResearch_costTracker remote (DeepResearch.query options) (model_of options)
                  (Runtime.logging (Logger.debugLog "Starting deep research") st)) as Hct.
    rewrite Hs in Hct. simpl in Hct.
    set (s2 := Runtime.logging (Logger.log Logger.info "Deep research started") s1).
    destruct (poll_terminates remote rid (timeout_of options) (interval_of options)
                (Runtime.now st) Hlat Hpos _ s2 (le_n _)) as (out & s3 & Hp).
    destruct (poll_sound _ _ _ _ _ _ _ _ _ Hp) as (_ & polls & _ & _ & Hct3 & _).
    set (fuel := S (budget (timeout_of options) (Runtime.now st) s2)) in *.
    destruct out as [result|error].
    + destruct (research_loop_returns fuel remote options st s1 s3 rid result Hs Hp)
        as (r & st' & Hrun & _ & _ & Hu & _ & _ & Hcost & Htr & _).
      exists fuel, (Js.Return r), st'. split.
      * intros extra. by apply research_fuel_more.
      * eexists. split.
        { unfold ledger_grew_by. rewrite Htr, CostTrackerFacts.trackCost_entries.
          rewrite Hct3. subst s2. simpl. rewrite Hct. reflexivity. }
        split; [reflexivity|]. split; [reflexivity|].
        split.
        { unfold DeepResearch.cost_entry.
          cbn [CostTracker.promptTokens CostTracker.completionTokens CostTracker.inputCost
               CostTracker.outputCost CostTracker.totalCost].
          fold (Runtime.prompt_or0 (DeepResearch.usage r)).
          fold (Runtime.completion_or0 (DeepResearch.usage r)).
          rewrite <- Hcost. by repeat split. }
        intros Hnone. unfold DeepResearch.cost_entry.
        cbn [CostTracker.promptTokens CostTracker.completionTokens CostTracker.estimated].
        rewrite Hcost, Hnone.
        split; [reflexivity|]. split; [reflexivity|]. split; [reflexivity|].
        apply orb_true_r.
    + exists fuel, (Js.Throw error), s3. split.
      * intros extra. apply (research_loop_throws _ _ _ _ s1 _ rid); [exact Hs|].
        by apply poll_fuel_more.
      * unfold ledger_grew_by. rewrite Hct3. subst s2. simpl. rewrite Hct.
        split; [by rewrite app_nil_r | reflexivity].
  - pose proof (startResearch_costTracker remote (DeepResearch.query options) (model_of options)
                  (Runtime.logging (Logger.debugLog "Starting deep research") st)) as Hct.
    rewrite Hs in Hct. simpl in Hct.
    exists 0%nat, (Js.Throw error), s1. split.
    + intros extra. by apply research_start_fails.
    + unfold ledger_grew_by. rewrite Hct. split; [by rewrite app_nil_r | reflexivity].
Qed.

Lemma sample_latencies_nonneg :
  latencies_nonneg Samples.remote_three_polls /\ latencies_nonneg Samples.remote_running.
Proof.
  split; intros n; [destruct n as [|[|n]] | ]; simpl; lia.
Qed.

Lemma research_ledger_record_only_on_success_witness :
  latencies_nonneg Samples.remote_three_polls
  /\ 0 < interval_of (Samples.research_options None None)
  /\ ledger_contract Samples.remote_three_polls (Samples.research_options None None)
       Samples.fresh.
Proof.
  split; [exact (proj1 sample_latencies_nonneg)|]. split; [reflexivity|].
  apply research_ledger_record_only_on_success;
    [exact (proj1 sample_latencies_nonneg) | reflexivity].
Defined.

(** The run of the sample: three retrievals, a result, one record. *)
Lemma research_success_appends_one_record :
  exists r st',
    DeepResearch.research 5 Samples.remote_three_polls (Samples.research_options None None)
      Samples.fresh = Some (Js.Return r, st')
    /\ DeepResearch.text r = "# Findings"
    /\ Runtime.retrieved st' = 3%nat
    /\ length (CostTracker.entries (Runtime.costTracker st')) = 1%nat.
Proof.
  eexists _, _. split; [vm_compute; reflexivity|]. by repeat split.
Qed.

(** On a failed job and on a passed deadline [research] throws and the
    ledger stays empty: no record is appended, where one was claimed. *)
Lemma research_failure_appends_no_record :
  (exists st',
     DeepResearch.research 5 Samples.remote_failed (Samples.research_options None None)
       Samples.fresh
     = Some (Js.Throw (Js.Error "RESEARCH_FAILED: tool budget exhausted"), st')
     /\ CostTracker.entries (Runtime.costTracker Samples.fresh) = []
     /\ CostTracker.entries (Runtime.costTracker st') = []
     /\ length (CostTracker.entries (Runtime.costTracker st'))
        <> S (length (CostTracker.entries (Runtime.costTracker Samples.fresh))))
  /\ (exists st',
        DeepResearch.research 5 Samples.remote_running
          (Samples.research_options (Some 25000) None) Samples.fresh
        = Some (Js.Throw (Js.Error
                  ("TIMEOUT: Research timed out after 1 minutes. "
                   +:+ "The research may still be running - response ID: resp_r1")), st')
        /\ CostTracker.entries (Runtime.costTracker st') = []
        /\ length (CostTracker.entries (Runtime.costTracker st'))
           <> S (length (CostTracker.entries (Runtime.costTracker Samples.fresh)))).
Proof.
  split.
  - eexists. split; [vm_compute; reflexivity|].
    split; [reflexivity|]. split; [reflexivity | discriminate].
  - eexists. split; [vm_compute; reflexivity|].
    split; [reflexivity | discriminate].
Qed.

Lemma retrievals_do_not_cancel (req : Runtime.Request) (rid : string) (polls : nat) :
  existsb cancels (Runtime.responses_create req
                   :: repeat (Runtime.responses_retrieve rid) polls) = false.
Proof. simpl. induction polls as [|polls IH]; [reflexivity | exact IH]. Qed.

(** C4.  When the job is still in progress at every retrieval, [research]
    ends on its deadline: it throws a failure whose message starts with
    TIMEOUT: and contains the identifier the service returned at the
    start; it has only created and retrieved the job, never cancelled it.
    And at whatever pass the loop finds the elapsed time above the
    timeout, it throws that failure at once, for the identifier it polls. *)
Theorem timeout_failure_carries_job_id (remote : Runtime.Remote)
    (options : DeepResearch.DeepResearchOptions) (st : Runtime.State) (rid : string) :
  started_with remote st rid ->
  (forall n, in_progress_at remote n) ->
  latencies_nonneg remote ->
  0 < interval_of options ->
  timeout_contract remote options st rid
  /\ (forall fuel responseId timeoutMs pollIntervalMs startTime s,
        timeoutMs < Runtime.now s - startTime ->
        exists error,
          DeepResearch.pollForCompletion (S fuel) remote responseId timeoutMs pollIntervalMs
            startTime s = Some (Js.Throw error, s)
          /\ Js.message_startsWith "TIMEOUT:" error = true
          /\ Js.message_includes responseId error = true).
Proof.
  intros Hstart Hrun Hlat Hpos. split.
  - set (s2 := poll_start remote options st).
    destruct (poll_in_progress_times_out remote rid (timeout_of options) (interval_of options)
                (Runtime.now st) Hrun Hlat Hpos _ s2 (le_n _))
      as (st' & Hp & Hlate & polls & _ & Hcalls & Hct & _).
    exists (S (budget (timeout_of options) (Runtime.now st) s2)),
           (Js.Error (DeepResearch.timeout_message (Runtime.now st' - Runtime.now st) rid)),
           st', polls.
    split.
    { intros extra. apply research_fuel_more.
      by apply (research_poll_throws _ _ _ _ _ rid). }
    split; [exact (proj1 (timeout_message_carries_id _ rid))|].
    split; [exact (proj2 (timeout_message_carries_id _ rid))|].
    split; [exact Hlate|].
    split; [rewrite Hcalls; subst s2; unfold poll_start; simpl; by rewrite <- app_assoc|].
    split; [apply retrievals_do_not_cancel | by rewrite Hct].
  - intros fuel responseId timeoutMs pollIntervalMs startTime s Hlate.
    eexists. split; [by apply pass_deadline|].
    split; [exact (proj1 (timeout_message_carries_id _ responseId))
           | exact (proj2 (timeout_message_carries_id _ responseId))].
Qed.

Lemma timeout_failure_carries_job_id_witness :
  started_with Samples.remote_running Samples.fresh "resp_r1"
  /\ (forall n, in_progress_at Samples.remote_running n)
  /\ latencies_nonneg Samples.remote_running
  /\ 0 < interval_of (Samples.research_options (Some 25000) None)
  /\ timeout_contract Samples.remote_running (Samples.research_options (Some 25000) None)
       Samples.fresh "resp_r1"
  /\ 25000 < Runtime.now (Runtime.advance 25001 Samples.fresh) - Runtime.now Samples.fresh
  /\ exists error,
       DeepResearch.pollForCompletion 1 Samples.remote_running "resp_r1" 25000 10000
         (Runtime.now Samples.fresh) (Runtime.advance 25001 Samples.fresh)
       = Some (Js.Throw error, Runtime.advance 25001 Samples.fresh)
       /\ Js.message_startsWith "TIMEOUT:" error = true
       /\ Js.message_includes "resp_r1" error = true.
Proof.
  assert (Hs : started_with Samples.remote_running Samples.fresh "resp_r1")
    by (eexists; split; [reflexivity | split; [reflexivity | discriminate]]).
  assert (Hr : forall n, in_progress_at Samples.remote_running n)
    by (intros n; eexists; split; reflexivity).
  pose proof (timeout_failure_carries_job_id Samples.remote_running
                (Samples.research_options (Some 25000) None) Samples.fresh "resp_r1"
                Hs Hr (proj2 sample_latencies_nonneg) eq_refl) as [Hrun Hpass].
  split; [exact Hs|]. split; [exact Hr|].
  split; [exact (proj2 sample_latencies_nonneg)|]. split; [reflexivity|].
  split; [exact Hrun|]. split; [reflexivity|].
  apply (Hpass 0%nat "resp_r1" 25000 10000 (Runtime.now Samples.fresh)
           (Runtime.advance 25001 Samples.fresh)).
  reflexivity.
Defined.

(** C3, as the source has it.  In the poll loop: when the job is found in
    progress, in progress and then completed with its report, the third
    pass starting within the deadline, the loop returns the report after
    exactly three retrievals.  A retrieval rejected with an error object
    whose message is not prefixed TIMEOUT:, RESEARCH_FAILED: or API_ERROR:
    is logged as a warning and the next pass starts one poll interval
    later, as the timer takes the interval; so does the next pass after
    any status other than completed and failed.  The loop is ended by
    nothing but its deadline, a completed job (with its report, or with
    API_ERROR when the text is missing), a failed job, or a retrieval
    rejected with a message that bears one of the three prefixes, which is
    thrown on as it is. *)
Theorem poll_loop_continues_until_final (remote : Runtime.Remote) (responseId : string)
    (timeoutMs pollIntervalMs startTime : Z) (st : Runtime.State) :
  (forall response text fuel,
     three_polls remote timeoutMs pollIntervalMs startTime st response text ->
     (3 <= fuel)%nat ->
     exists st',
       DeepResearch.pollForCompletion fuel remote responseId timeoutMs pollIntervalMs
         startTime st
       = Some (Js.Return {| DeepResearch.poll_text := text;
                            DeepResearch.poll_status := DeepResearch.completed;
                            DeepResearch.poll_usage :=
                              Runtime.extract_usage false (Runtime.usage response) |}, st')
       /\ Runtime.retrieved st' = (Runtime.retrieved st + 3)%nat
       /\ Runtime.calls st'
          = Runtime.calls st ++ repeat (Runtime.responses_retrieve responseId) 3)
  /\ (forall error fuel,
        Runtime.now st - startTime <= timeoutMs ->
        Runtime.settles (Runtime.on_retrieve remote (Runtime.retrieved st)) = Js.Throw error ->
        Js.nullish error = false ->
        DeepResearch.own_error error = false ->
        let next := next_pass remote responseId pollIntervalMs
                      (Logger.log Logger.warn "Research poll error, retrying") st in
        DeepResearch.pollForCompletion (S fuel) remote responseId timeoutMs pollIntervalMs
          startTime st
        = DeepResearch.pollForCompletion fuel remote responseId timeoutMs pollIntervalMs
            startTime next
        /\ Runtime.now next
           = Runtime.now st
             + Runtime.latency (Runtime.on_retrieve remote (Runtime.retrieved st))
             + Js.timer_delay pollIntervalMs
        /\ last (Logger.emitted (Runtime.logger next))
           = Some {| Logger.level := Logger.warn;
                     Logger.event := "Research poll error, retrying" |})
  /\ (forall response fuel,
        Runtime.now st - startTime <= timeoutMs ->
        Runtime.settles (Runtime.on_retrieve remote (Runtime.retrieved st))
        = Js.Return response ->
        DeepResearch.status_is "completed" response = false ->
        DeepResearch.status_is "failed" response = false ->
        let next := next_pass remote responseId pollIntervalMs
                      (Logger.debugLog "Research poll response") st in
        DeepResearch.pollForCompletion (S fuel) remote responseId timeoutMs pollIntervalMs
          startTime st
        = DeepResearch.pollForCompletion fuel remote responseId timeoutMs pollIntervalMs
            startTime next
        /\ Runtime.now next
           = Runtime.now st
             + Runtime.latency (Runtime.on_retrieve remote (Runtime.retrieved st))
             + Js.timer_delay pollIntervalMs)
  /\ (1 <= pollIntervalMs <= 2147483647 -> Js.timer_delay pollIntervalMs = pollIntervalMs)
  /\ (rejects_with_objects remote ->
      forall fuel out st',
        DeepResearch.pollForCompletion fuel remote responseId timeoutMs pollIntervalMs
          startTime st = Some (out, st') ->
        (timeoutMs < Runtime.now st' - startTime
         /\ out = Js.Throw (Js.Error (DeepResearch.timeout_message
                                        (Runtime.now st' - startTime) responseId)))
        \/ (exists n, (Runtime.retrieved st <= n)%nat
                      /\ Runtime.retrieved st' = S n
                      /\ ended_by remote n out)).
Proof.
  split; [|split; [|split; [|split]]].
  - intros response text fuel (H1 & H2 & (Hr3 & Hs3 & Ho3 & Hne) & Hl1 & Hl2 & Hin) Hfuel.
    pose proof (timer_delay_pos pollIntervalMs) as Hp.
    destruct H1 as (r1 & Hr1 & Hs1). destruct H2 as (r2 & Hr2 & Hs2).
    set (st1 := next_pass remote responseId pollIntervalMs
                  (Logger.debugLog "Research poll response") st).
    set (st2 := next_pass remote responseId pollIntervalMs
                  (Logger.debugLog "Research poll response") st1).
    exists (retrieved_state remote responseId st2).
    split; [|split].
    + replace fuel with (3 + (fuel - 3))%nat by lia. apply poll_fuel_more.
      rewrite (pass_not_final _ _ _ _ _ 2 st r1); [| lia | exact Hr1 | |];
        try (unfold DeepResearch.status_is; by rewrite Hs1).
      fold st1.
      rewrite (pass_not_final _ _ _ _ _ 1 st1 r2);
        [| subst st1; rewrite next_pass_now; lia | exact Hr2 | |];
        try (unfold DeepResearch.status_is; by rewrite Hs2).
      fold st2.
      apply (pass_completed _ _ _ _ _ 0 st2 response text); try done.
      subst st2 st1. rewrite !next_pass_now. rewrite next_pass_retrieved. lia.
    + simpl. lia.
    + simpl. by rewrite <- !app_assoc.
  - intros error fuel Hin Hr Hn Ho.
    split; [by apply (pass_transport_error _ _ _ _ _ fuel st error)|].
    split; [reflexivity|]. simpl. apply last_snoc.
  - intros response fuel Hin Hr Hc Hf. split; [by apply (pass_not_final _ _ _ _ _ _ _ response)|].
    reflexivity.
  - apply timer_delay_id.
  - intros Hobj fuel out st' H.
    exact (poll_ends remote responseId timeoutMs pollIntervalMs startTime Hobj _ _ _ _ H).
Qed.

Lemma sample_rejects_with_objects : rejects_with_objects Samples.remote_flaky.
Proof.
  intros n error. destruct n as [|n]; simpl; [|discriminate]. by intros [= <-].
Qed.

Lemma poll_loop_continues_until_final_witness :
  three_polls Samples.remote_three_polls 1800000 10000 (Runtime.now Samples.fresh)
    Samples.fresh Samples.report "# Findings"
  /\ (exists st',
        DeepResearch.pollForCompletion 3 Samples.remote_three_polls "resp_r1" 1800000 10000
          (Runtime.now Samples.fresh) Samples.fresh
        = Some (Js.Return {| DeepResearch.poll_text := "# Findings";
                             DeepResearch.poll_status := DeepResearch.completed;
                             DeepResearch.poll_usage :=
                               Runtime.extract_usage false (Some Samples.usage0) |}, st')
        /\ Runtime.retrieved st' = 3%nat)
  /\ Js.nullish (Js.Error "Connection error.") = false
  /\ DeepResearch.own_error (Js.Error "Connection error.") = false
  /\ DeepResearch.pollForCompletion 2 Samples.remote_flaky "resp_r1" 1800000 10000
       (Runtime.now Samples.fresh) Samples.fresh
     = DeepResearch.pollForCompletion 1 Samples.remote_flaky "resp_r1" 1800000 10000
         (Runtime.now Samples.fresh)
         (next_pass Samples.remote_flaky "resp_r1" 10000
            (Logger.log Logger.warn "Research poll error, retrying") Samples.fresh)
  /\ rejects_with_objects Samples.remote_flaky.
Proof.
  assert (H3 : three_polls Samples.remote_three_polls 1800000 10000 (Runtime.now Samples.fresh)
                 Samples.fresh Samples.report "# Findings").
  { unfold three_polls, in_progress_at, completed_at. simpl.
    split; [eexists; split; reflexivity|]. split; [eexists; split; reflexivity|].
    split; [split; [reflexivity | split; [reflexivity | split; [reflexivity | discriminate]]]|].
    split; [discriminate|]. split; discriminate. }
  split; [exact H3|]. split.
  - destruct (proj1 (poll_loop_continues_until_final Samples.remote_three_polls "resp_r1"
                       1800000 10000 (Runtime.now Samples.fresh) Samples.fresh)
                Samples.report "# Findings" 3%nat H3 (le_n 3)) as (st' & Hrun & Hn & _).
    exists st'. split; [exact Hrun | exact Hn].
  - split; [reflexivity|]. split; [reflexivity|]. split.
    + apply (proj1 (proj2 (poll_loop_continues_until_final Samples.remote_flaky "resp_r1"
                             1800000 10000 (Runtime.now Samples.fresh) Samples.fresh))
               (Js.Error "Connection error.") 1%nat);
        [discriminate | reflexivity | reflexivity | reflexivity].
    + exact sample_rejects_with_objects.
Defined.

(** A retrieval rejected with a message that begins API_ERROR: ends the
    loop at once: one retrieval has been made, the deadline is half an
    hour away, and the job has been seen neither completed nor failed. *)
Lemma prefixed_rejection_ends_loop :
  exists st',
    DeepResearch.pollForCompletion 5 Cases.remote_gateway "resp_r1" 1800000 10000
      (Runtime.now Samples.fresh) Samples.fresh
    = Some (Js.Throw (Js.Error "API_ERROR: 502 from gateway"), st')
    /\ Runtime.retrieved st' = 1%nat
    /\ Runtime.now st' - Runtime.now Samples.fresh = 150
    /\ Runtime.now st' - Runtime.now Samples.fresh <= 1800000
    /\ (forall n response,
          Runtime.settles (Runtime.on_retrieve Cases.remote_gateway n) <> Js.Return response)
    /\ DeepResearch.own_error (Js.Error "API_ERROR: 502 from gateway") = true.
Proof.
  eexists. split; [vm_compute; reflexivity|].
  split; [reflexivity|]. split; [reflexivity|]. split; [discriminate|].
  split; [intros n response; discriminate | reflexivity].
Qed.

(** C9.  A pass that finds the job completed without output text (absent
    or empty) makes the loop throw the API_ERROR failure; and the loop never
    returns a result whose text is empty. *)
Theorem completed_without_text_is_api_error (remote : Runtime.Remote) (responseId : string)
    (timeoutMs pollIntervalMs startTime : Z) (fuel : nat) (st : Runtime.State)
    (response : Runtime.Response) :
  Runtime.now st - startTime <= timeoutMs ->
  Runtime.settles (Runtime.on_retrieve remote (Runtime.retrieved st)) = Js.Return response ->
  Runtime.status response = Some "completed" ->
  Js.falsy_str (Runtime.output_text response) = true ->
  DeepResearch.pollForCompletion (S fuel) remote responseId timeoutMs pollIntervalMs startTime st
  = Some (Js.Throw (Js.Error "API_ERROR: Research completed but no output text found"),
          retrieved_state remote responseId st)
  /\ Js.startsWith "API_ERROR:" "API_ERROR: Research completed but no output text found" = true
  /\ (forall fuel' s result s',
        DeepResearch.pollForCompletion fuel' remote responseId timeoutMs pollIntervalMs
          startTime s = Some (Js.Return result, s') ->
        DeepResearch.poll_text result <> "").
Proof.
  intros Hin Hr Hs Hf.
  split; [by apply (pass_completed_empty _ _ _ _ _ fuel st response)|].
  split; [reflexivity|].
  intros fuel' s result s' H.
  destruct (poll_sound _ _ _ _ _ _ _ _ _ H) as [[_ Htext] _]. exact Htext.
Qed.

Lemma completed_without_text_is_api_error_witness :
  Runtime.now Samples.fresh - Runtime.now Samples.fresh <= 1800000
  /\ Js.falsy_str (Runtime.output_text
                     (Samples.response (Some "resp_r1") (Some "completed") None
                        (Some Samples.usage0) None)) = true
  /\ DeepResearch.pollForCompletion 1 Samples.remote_empty_report "resp_r1" 1800000 10000
       (Runtime.now Samples.fresh) Samples.fresh
     = Some (Js.Throw (Js.Error "API_ERROR: Research completed but no output text found"),
             retrieved_state Samples.remote_empty_report "resp_r1" Samples.fresh).
Proof.
  split; [simpl; lia|]. split; [reflexivity|].
  apply (completed_without_text_is_api_error Samples.remote_empty_report "resp_r1" 1800000
           10000 (Runtime.now Samples.fresh) 0 Samples.fresh
           (Samples.response (Some "resp_r1") (Some "completed") None (Some Samples.usage0) None));
    [simpl; lia | reflexivity | reflexivity | reflexivity].
Defined.

(** The same through [research]: the failure reaches the caller and the
    ledger stays as it was. *)
Lemma research_completed_without_text :
  exists st',
    DeepResearch.research 5 Samples.remote_empty_report (Samples.research_options None None)
      Samples.fresh
    = Some (Js.Throw (Js.Error "API_ERROR: Research completed but no output text found"), st')
    /\ CostTracker.entries (Runtime.costTracker st') = [].
Proof. eexists. split; [vm_compute; reflexivity | reflexivity]. Qed.

End DeepResearchFacts.

(* ===================================================================== *)
(** ** Tool handlers *)
(* ===================================================================== *)

Module ServerFacts.

(** C1, on the code.  The class declares no member named checkResearch, so
    the call in the check_research handler throws before any retrieval is
    made: whatever the state of the job, the handler answers with an error
    response and the service is not contacted. *)
Theorem check_research_reaches_no_provider_method (bodies : string -> Server.Method)
    (st : Runtime.State) :
  Types.arr_includes DeepResearch.OpenAIDeepResearchProvider_members "checkResearch" = false
  /\ fst (Server.check_research bodies (Some "resp_r1") st)
     = {| Server.content_text := "Error: deepResearchProvider.checkResearch is not a function";
          Server.isError := true |}
  /\ Runtime.retrieved (snd (Server.check_research bodies (Some "resp_r1") st))
     = Runtime.retrieved st
  /\ Runtime.calls (snd (Server.check_research bodies (Some "resp_r1") st)) = Runtime.calls st.
Proof. repeat split. Qed.

End ServerFacts.

(* ===================================================================== *)
(** ** Cost model: rounding *)
(* ===================================================================== *)

Module RoundingFacts.

Local Open Scope Q_scope.

Lemma round_comp (x y : Q) : x == y -> Js.round x = Js.round y.
Proof. intros H. unfold Js.round. by rewrite H. Qed.

Lemma table_nonneg :
  map_Forall (fun _ pr => 0 <= Pricing.input pr /\ 0 <= Pricing.output pr)
             Pricing.OPENAI_PRICING.
Proof.
  unfold Pricing.OPENAI_PRICING. simpl list_to_map.
  repeat (apply map_Forall_insert_2; [split; unfold Qle; simpl; lia|]).
  apply map_Forall_empty.
Qed.

(** A price that is found at all is a finite, non-negative one. *)
Lemma effective_nonneg (model : string) (field : Pricing.TokenPricing -> Q) :
  field = Pricing.input \/ field = Pricing.output ->
  Js.inherited model = false ->
  exists price, Pricing.effective (Pricing.lookup model) field = Js.Fin price /\ 0 <= price.
Proof.
  intros Hfield Hown. unfold Pricing.lookup.
  destruct (Pricing.OPENAI_PRICING !! model) as [pr|] eqn:H.
  - exists (field pr). split; [reflexivity|].
    pose proof (table_nonneg model pr H) as [Hi Ho]. by destruct Hfield as [-> | ->].
  - rewrite Hown. exists (field Pricing.DEFAULT_PRICING). split; [reflexivity|].
    destruct Hfield as [-> | ->]; unfold Qle; simpl; lia.
Qed.

Lemma scaled_nonneg (tokens : Z) (price : Q) :
  (0 <= tokens)%Z -> 0 <= price -> 0 <= inject_Z tokens / 1000000 * price.
Proof.
  intros Ht Hp. apply Qmult_le_0_compat; [|exact Hp]. apply Qle_shift_div_l; [done|].
  rewrite Qmult_0_l. change 0 with (inject_Z 0). by rewrite <- Zle_Qle.
Qed.

Lemma roundToMicro_nonneg (value : Q) :
  0 <= value -> (0 <= Pricing.roundToMicro value)%num.
Proof.
  intros H. pose proof (PricingFacts.roundToMicro_mono 0 value H) as Hm.
  unfold Pricing.roundToMicro in *. cbn [Js.round_micro Js.num_le] in *.
  eapply Qle_trans; [|exact Hm]. by compute.
Qed.

Lemma roundToMicro_null (value : Q) :
  value == 0 -> (Pricing.roundToMicro value == 0)%num.
Proof.
  intros H. unfold Pricing.roundToMicro. simpl.
  rewrite (round_comp (value * 1000000) 0) by (rewrite H; ring). reflexivity.
Qed.

(** X3.  For every model whose name is not one that plain objects inherit
    from [Object.prototype], non-negative token counts cost nothing
    negative, and a call without tokens costs nothing at all. *)
Theorem calculateCost_nonneg_and_zero (model : string) (promptTokens completionTokens : Z) :
  Js.inherited model = false ->
  let r := Pricing.calculateCost model promptTokens completionTokens in
  ((0 <= promptTokens)%Z -> (0 <= completionTokens)%Z ->
   (0 <= Pricing.inputCost r)%num /\ (0 <= Pricing.outputCost r)%num
   /\ (0 <= Pricing.totalCost r)%num)
  /\ (promptTokens = 0%Z -> completionTokens = 0%Z ->
      (Pricing.inputCost r == 0)%num /\ (Pricing.outputCost r == 0)%num
      /\ (Pricing.totalCost r == 0)%num).
Proof.
  intros Hown.
  destruct (effective_nonneg model Pricing.input (or_introl eq_refl) Hown) as (pi & Hpi & Hi).
  destruct (effective_nonneg model Pricing.output (or_intror eq_refl) Hown) as (po & Hpo & Ho).
  unfold Pricing.calculateCost. cbv zeta.
  cbn [Pricing.totalCost Pricing.inputCost Pricing.outputCost].
  rewrite Hpi, Hpo. cbn [Js.mul Js.add].
  split.
  - intros Hp Hc.
    pose proof (scaled_nonneg promptTokens pi Hp Hi) as Ha.
    pose proof (scaled_nonneg completionTokens po Hc Ho) as Hb.
    split; [by apply roundToMicro_nonneg|]. split; [by apply roundToMicro_nonneg|].
    apply roundToMicro_nonneg. rewrite <- (Qplus_0_l 0). by apply Qplus_le_compat.
  - intros -> ->. change (inject_Z 0) with 0.
    split; [apply roundToMicro_null; field|]. split; apply roundToMicro_null; field.
Qed.

Lemma calculateCost_nonneg_and_zero_witness :
  Js.inherited "o3-deep-research" = false /\ (0 <= 1000)%Z /\ (0 <= 2000)%Z
  /\ (0 <= Pricing.totalCost (Pricing.calculateCost "o3-deep-research" 1000 2000))%num
  /\ Js.inherited "anything" = false
  /\ (Pricing.totalCost (Pricing.calculateCost "anything" 0 0) == 0)%num.
Proof.
  split; [reflexivity|]. split; [lia|]. split; [lia|]. split.
  - apply (proj1 (calculateCost_nonneg_and_zero "o3-deep-research" 1000 2000 eq_refl)); lia.
  - split; [reflexivity|].
    apply (proj2 (calculateCost_nonneg_and_zero "anything" 0 0 eq_refl)); reflexivity.
Defined.

End RoundingFacts.

(* ===================================================================== *)
(** ** Ledger: persistence and aggregation *)
(* ===================================================================== *)

Module LedgerFacts.

Import Notions.

Local Open Scope Q_scope.
Local Open Scope num_scope.

Lemma trackCost_unwritten (entry : CostTracker.CostEntry) (tr : CostTracker.t) :
  CostTracker.costsFile tr = None
  \/ CostTracker.write_fails (CostTracker.disk tr) = true ->
  CostTracker.disk (CostTracker.trackCost entry tr) = CostTracker.disk tr.
Proof.
  intros H. unfold CostTracker.trackCost, CostTracker.appendFileSync.
  destruct (CostTracker.costsFile tr) as [f|]; [|reflexivity].
  destruct H as [H|H]; [discriminate|]. by rewrite H.
Qed.

(** X5.  When persistence is switched off (no cost log) or the disk
    refuses writes, [trackCost] still records every entry in memory, in
    order, and leaves every file as it was; a restart then finds only what
    the disk held before. *)
Theorem unwritable_ledger_is_memory_only (batch : list CostTracker.CostEntry)
    (tr : CostTracker.t) :
  CostTracker.costsFile tr = None
  \/ CostTracker.write_fails (CostTracker.disk tr) = true ->
  CostTracker.entries (track_all batch tr) = CostTracker.entries tr ++ batch
  /\ CostTracker.disk (track_all batch tr) = CostTracker.disk tr
  /\ forall dir, CostTracker.create dir (CostTracker.disk (track_all batch tr))
                 = CostTracker.create dir (CostTracker.disk tr).
Proof.
  revert tr. induction batch as [|entry batch IH]; intros tr H; simpl.
  - by rewrite app_nil_r.
  - pose proof (trackCost_unwritten entry tr H) as Hd.
    destruct (IH (CostTracker.trackCost entry tr)) as (He & Hdisk & Hre).
    { rewrite CostTrackerFacts.trackCost_costsFile, Hd. exact H. }
    split; [|split].
    + rewrite He, CostTrackerFacts.trackCost_entries. by rewrite <- app_assoc.
    + by rewrite Hdisk.
    + intros dir. by rewrite Hre, Hd.
Qed.

Lemma unwritable_ledger_is_memory_only_witness :
  let tr := CostTracker.create (Some "none") Samples.disk0 in
  (CostTracker.costsFile tr = None \/ CostTracker.write_fails (CostTracker.disk tr) = true)
  /\ CostTracker.entries (track_all [Samples.entry0] tr) = [Samples.entry0]
  /\ CostTracker.disk (track_all [Samples.entry0] tr) = Samples.disk0.
Proof.
  intros tr.
  assert (H : CostTracker.costsFile tr = None
              \/ CostTracker.write_fails (CostTracker.disk tr) = true) by (left; reflexivity).
  destruct (unwritable_ledger_is_memory_only [Samples.entry0] tr H) as (He & Hd & _).
  split; [exact H|]. split; [exact He | exact Hd].
Defined.

Lemma tracker_round_mono (x y : Js.Number) :
  x <= y -> CostTracker.round x <= CostTracker.round y.
Proof.
  destruct x as [x|], y as [y|]; try done.
  intros H. by apply PricingFacts.roundToMicro_mono.
Qed.

(** The running sums stay finite as long as the totals are. *)
Lemma fold_estimated_le (batch : list CostTracker.CostEntry) :
  Forall (fun entry => 0 <= CostTracker.totalCost entry) batch ->
  forall acc,
    0 <= CostTracker.run_estimated acc ->
    CostTracker.run_estimated acc <= CostTracker.run_total acc ->
    let final := fold_left CostTracker.accumulate batch acc in
    0 <= CostTracker.run_estimated final
    /\ CostTracker.run_estimated final <= CostTracker.run_total final.
Proof.
  induction 1 as [|entry batch He _ IH]; intros acc H0 Hle; simpl; [by split|].
  apply IH; unfold CostTracker.accumulate; simpl;
    destruct (CostTracker.totalCost entry) as [v|]; try done;
    destruct (CostTracker.run_estimated acc) as [e|]; try done;
    destruct (CostTracker.run_total acc) as [t|]; try done;
    destruct (CostTracker.estimated entry); simpl in *; lra.
Qed.

(** X8.  When no entry has a negative total, the part of the summary that
    is marked estimated lies between zero and the summary's total. *)
Theorem estimated_part_within_total (now : Z) (tr : CostTracker.t) :
  Forall (fun entry => 0 <= CostTracker.totalCost entry) (CostTracker.entries tr) ->
  0 <= CostTracker.estimatedCosts (CostTracker.getSummary now tr)
  /\ CostTracker.estimatedCosts (CostTracker.getSummary now tr)
     <= CostTracker.sum_totalCost (CostTracker.getSummary now tr).
Proof.
  intros Hpos. unfold CostTracker.getSummary.
  cbn [CostTracker.estimatedCosts CostTracker.sum_totalCost].
  destruct (fold_estimated_le _ Hpos
              {| CostTracker.run_total := 0; CostTracker.run_byModel := ∅;
                 CostTracker.run_byOperation := ∅; CostTracker.run_estimated := 0 |})
    as [H0 Hle]; [exact (Qle_refl 0) | exact (Qle_refl 0) |].
  cbv zeta in H0, Hle.
  destruct (CostTracker.run_estimated (fold_left _ _ _)) as [e|]; [|done].
  destruct (CostTracker.run_total (fold_left _ _ _)) as [t|]; [|done].
  split.
  - exact (RoundingFacts.roundToMicro_nonneg e H0).
  - exact (tracker_round_mono e t Hle).
Qed.

Lemma estimated_part_within_total_witness :
  let tr := track_all [Samples.entry0] (CostTracker.create (Some "none") Samples.disk0) in
  Forall (fun entry => 0 <= CostTracker.totalCost entry) (CostTracker.entries tr)
  /\ CostTracker.estimatedCosts (CostTracker.getSummary 0 tr)
     <= CostTracker.sum_totalCost (CostTracker.getSummary 0 tr).
Proof.
  intros tr.
  assert (H : Forall (fun entry => 0 <= CostTracker.totalCost entry) (CostTracker.entries tr))
    by (repeat constructor; by compute).
  split; [exact H | exact (proj2 (estimated_part_within_total 0 tr H))].
Defined.

End LedgerFacts.

(* ===================================================================== *)
(** ** Retry executor: recovery and backoff *)
(* ===================================================================== *)

Module BackoffFacts.

Import Notions.

Section Recovery.

Context {W T : Type}.
Variable fn : W -> Js.Outcome T * W.
Variable sleep : Z -> W -> W.
Variable logging : (Logger.t -> Logger.t) -> W -> W.

(** The world shows how often the operation was invoked and which delays
    were slept. *)
Variable invocations : W -> nat.
Variable slept : W -> list Z.
Hypothesis fn_counts : forall w, invocations (snd (fn w)) = S (invocations w).
Hypothesis fn_no_sleep : forall w, slept (snd (fn w)) = slept w.
Hypothesis sleep_keeps : forall ms w, invocations (sleep ms w) = invocations w.
Hypothesis sleep_sleeps : forall ms w, slept (sleep ms w) = slept w ++ [ms].
Hypothesis logging_keeps : forall f w, invocations (logging f w) = invocations w.
Hypothesis logging_no_sleep : forall f w, slept (logging f w) = slept w.

(** One iteration of the loop, written out. *)
Lemma retry_loop_S (opts : Retry.Resolved) (k : nat) (attempt delay : Z)
    (last : Js.JsError) (w : W) :
  Retry.retry_loop fn sleep logging opts (S k) attempt delay last w
  = let ctx := Retry.opt_context opts in
    let w0 :=
      if 0 <? attempt
      then logging (Logger.debugLog
                      (ctx +:+ ": Attempt " +:+ Retry.ordinal attempt +:+ " starting")) w
      else w in
    match fn w0 with
    | (Js.Return result, w1) =>
        (Js.Return result,
         if 0 <? attempt
         then logging (Logger.log Logger.info
                         (ctx +:+ ": Succeeded after " +:+ Retry.ordinal attempt
                          +:+ " attempts")) w1
         else w1)
    | (Js.Throw error, w1) =>
        let w2 := logging (Logger.debugLog
                             (ctx +:+ ": Attempt " +:+ Retry.ordinal attempt +:+ " failed")) w1 in
        let '(stop, w3) :=
          if attempt =? Retry.opt_maxRetries opts then (true, w2)
          else let '(r, w3) :=
                 Retry.isRetryable logging error (Retry.opt_retryableErrors opts) w2 in
               (negb r, w3) in
        if stop
        then
          let '(_, w4) := Retry.isRetryable logging error (Retry.opt_retryableErrors opts) w3 in
          (Js.Throw error,
           logging (Logger.log Logger.warn
                      (ctx +:+ ": Retry exhausted or non-retryable error")) w4)
        else
          Retry.retry_loop fn sleep logging opts k (attempt + 1)
            (Z.min (delay * Retry.opt_backoffMultiplier opts) (Retry.opt_maxDelayMs opts)) error
            (sleep delay
               (logging (Logger.log Logger.info
                           (ctx +:+ ": Retrying after transient error")) w3))
    end.
Proof. reflexivity. Qed.

Lemma loop_recovers (opts : Retry.Resolved) (n : nat) :
  forall (extra : nat) (attempt delay : Z) (last : Js.JsError) (w : W),
    attempt + Z.of_nat n <= Retry.opt_maxRetries opts ->
    (forall w', (invocations w <= invocations w' < invocations w + n)%nat ->
       exists e, fst (fn w') = Js.Throw e
                 /\ Retry.retryable e (Retry.opt_retryableErrors opts) = true) ->
    (forall w', invocations w' = (invocations w + n)%nat ->
       exists v, fst (fn w') = Js.Return v) ->
    exists v w',
      Retry.retry_loop fn sleep logging opts (S (n + extra)) attempt delay last w
      = (Js.Return v, w')
      /\ invocations w' = S (invocations w + n)
      /\ slept w' = slept w ++ backoff_from opts delay n
      /\ returns_at fn invocations (invocations w + n) v.
Proof.
  induction n as [|n IH]; intros extra attempt delay last w Hmax Hfail Hok.
  - cbn [Retry.retry_loop Nat.add].
    set (w0 := if 0 <? attempt then _ else w).
    assert (Hi : invocations w0 = invocations w)
      by (subst w0; destruct (0 <? attempt); [apply logging_keeps | reflexivity]).
    assert (Hs : slept w0 = slept w)
      by (subst w0; destruct (0 <? attempt); [apply logging_no_sleep | reflexivity]).
    destruct (Hok w0) as [v Hv]; [lia|].
    pose proof (fn_counts w0) as Hc. pose proof (fn_no_sleep w0) as Hn.
    assert (Hat : returns_at fn invocations (invocations w + 0) v)
      by (exists w0; split; [lia | exact Hv]).
    destruct (fn w0) as [o w1]. simpl in Hv, Hc, Hn. subst o.
    eexists v, _. split; [reflexivity|].
    split; [|split; [|exact Hat]].
    + destruct (0 <? attempt); rewrite ?logging_keeps; lia.
    + simpl. rewrite app_nil_r. destruct (0 <? attempt); rewrite ?logging_no_sleep; congruence.
  - change (S (S n + extra)) with (S (S (n + extra))). rewrite retry_loop_S. cbv zeta.
    set (w0 := if 0 <? attempt then _ else w).
    assert (Hi : invocations w0 = invocations w)
      by (subst w0; destruct (0 <? attempt); [apply logging_keeps | reflexivity]).
    assert (Hs : slept w0 = slept w)
      by (subst w0; destruct (0 <? attempt); [apply logging_no_sleep | reflexivity]).
    destruct (Hfail w0) as (e & He & Hr); [lia|].
    pose proof (fn_counts w0) as Hc. pose proof (fn_no_sleep w0) as Hn.
    destruct (fn w0) as [o w1]. simpl in He, Hc, Hn. subst o.
    assert (Hne : (attempt =? Retry.opt_maxRetries opts) = false) by (apply Z.eqb_neq; lia).
    rewrite Hne. unfold Retry.isRetryable. rewrite Hr. cbn [negb]. cbv beta iota.
    match goal with |- context [Retry.retry_loop _ _ _ _ _ ?a ?d ?l ?s] =>
      destruct (IH extra a d l s) as (v & w' & Hrun & Hcount & Hslept & Hat) end.
    + lia.
    + intros w' Hw'. apply Hfail. rewrite sleep_keeps, !logging_keeps in Hw'. lia.
    + intros w' Hw'. apply Hok. rewrite sleep_keeps, !logging_keeps in Hw'. lia.
    + rewrite sleep_keeps, !logging_keeps in Hcount, Hat.
      rewrite sleep_sleeps, !logging_no_sleep in Hslept.
      exists v, w'. split; [exact Hrun|].
      split; [lia|]. split.
      * rewrite Hslept, Hn, Hs. simpl. by rewrite <- app_assoc.
      * replace (invocations w + S n)%nat with (invocations w1 + n)%nat by lia. exact Hat.
Qed.

Lemma backoff_capped (opts : Retry.Resolved) (n : nat) :
  forall delay i d,
    backoff_from opts delay n !! S i = Some d -> d <= Retry.opt_maxDelayMs opts.
Proof.
  induction n as [|n IH]; intros delay i d H; [done|].
  simpl in H. destruct n as [|n]; [done|].
  destruct i as [|i]; [|by eapply IH].
  simpl in H. injection H as <-. lia.
Qed.

(** X10.  When the first [n] invocations fail with retryable failures, [n]
    being within the retry budget, and the next one returns, [withRetry]
    returns that value after exactly [n + 1] invocations; between them it
    slept [n] times, first the initial delay and then each time the
    previous delay times the multiplier, never more than the cap after the
    first. *)
Theorem withRetry_recovers_with_backoff (options : Retry.RetryOptions) (n : nat) (w0 : W) :
  Z.of_nat n <= Retry.opt_maxRetries (Retry.resolve options) ->
  (forall w, (invocations w0 <= invocations w < invocations w0 + n)%nat ->
     exists e, fst (fn w) = Js.Throw e
               /\ Retry.retryable e (Retry.opt_retryableErrors (Retry.resolve options)) = true) ->
  (forall w, invocations w = (invocations w0 + n)%nat -> exists v, fst (fn w) = Js.Return v) ->
  exists v w',
    Retry.withRetry fn sleep logging options w0 = (Js.Return v, w')
    /\ invocations w' = S (invocations w0 + n)
    /\ slept w' = slept w0 ++ backoff (Retry.resolve options) n
    /\ returns_at fn invocations (invocations w0 + n) v
    /\ (forall i d, backoff (Retry.resolve options) n !! S i = Some d ->
          d <= Retry.opt_maxDelayMs (Retry.resolve options)).
Proof.
  intros Hn Hfail Hok. unfold Retry.withRetry.
  set (opts := Retry.resolve options) in *.
  set (w := logging _ w0).
  assert (Hrem : Z.to_nat (Retry.opt_maxRetries opts + 1)
                 = S (n + (Z.to_nat (Retry.opt_maxRetries opts) - n))) by lia.
  rewrite Hrem.
  destruct (loop_recovers opts n (Z.to_nat (Retry.opt_maxRetries opts) - n) 0
              (Retry.opt_initialDelayMs opts) Js.undefined_thrown w)
    as (v & w' & Hrun & Hcount & Hslept & Hat).
  - lia.
  - intros w' Hw'. apply Hfail. subst w. rewrite logging_keeps in Hw'. exact Hw'.
  - intros w' Hw'. apply Hok. subst w. rewrite logging_keeps in Hw'. exact Hw'.
  - subst w. rewrite logging_keeps in Hcount, Hat. rewrite logging_no_sleep in Hslept.
    exists v, w'. split; [exact Hrun|]. split; [exact Hcount|].
    split; [exact Hslept|]. split; [exact Hat|].
    intros i d. apply backoff_capped.
Qed.

End Recovery.

(** X11.  With a negative retry budget the loop body never runs: the
    operation is not invoked at all, nothing is slept, and [withRetry]
    throws [undefined], the initial value of [lastError]. *)
Theorem withRetry_negative_budget {W T : Type} (fn : W -> Js.Outcome T * W)
    (sleep : Z -> W -> W) (logging : (Logger.t -> Logger.t) -> W -> W)
    (options : Retry.RetryOptions) (w : W) :
  Retry.opt_maxRetries (Retry.resolve options) < 0 ->
  Retry.withRetry fn sleep logging options w
  = (Js.Throw Js.undefined_thrown,
     logging (Logger.debugLog
                ("Starting " +:+ Retry.opt_context (Retry.resolve options) +:+ " with retry")) w).
Proof.
  intros H. unfold Retry.withRetry.
  replace (Z.to_nat (Retry.opt_maxRetries (Retry.resolve options) + 1)) with 0%nat by lia.
  reflexivity.
Qed.

Lemma withRetry_recovers_with_backoff_witness :
  Z.of_nat 2 <= Retry.opt_maxRetries (Retry.resolve TextProvider.retry_options)
  /\ exists v w',
       Retry.withRetry Cases.fails_twice Cases.pause Cases.quiet TextProvider.retry_options
         (0%nat, []) = (Js.Return v, w')
       /\ fst w' = 3%nat
       /\ snd w' = [1000; 2000].
Proof.
  split; [by compute|].
  destruct (withRetry_recovers_with_backoff Cases.fails_twice Cases.pause Cases.quiet
              fst snd (fun _ => eq_refl) (fun _ => eq_refl) (fun _ _ => eq_refl)
              (fun _ _ => eq_refl) (fun _ _ => eq_refl) (fun _ _ => eq_refl)
              TextProvider.retry_options 2 (0%nat, []))
    as (v & w' & Hrun & Hcount & Hslept & _).
  - by compute.
  - intros [c s] Hc. simpl in Hc. exists (Js.Error "503 Service Unavailable").
    unfold Cases.fails_twice. simpl.
    destruct c as [|[|c]]; [split; reflexivity | split; reflexivity | lia].
  - intros [c s] Hc. simpl in Hc. subst c. exists "ok". reflexivity.
  - exists v, w'. split; [exact Hrun|]. split; [exact Hcount | exact Hslept].
Defined.

Lemma withRetry_negative_budget_witness :
  Retry.opt_maxRetries (Retry.resolve Cases.no_budget) < 0
  /\ Retry.withRetry Cases.fails_twice Cases.pause Cases.quiet Cases.no_budget (0%nat, [])
     = (Js.Throw Js.undefined_thrown, (0%nat, [])).
Proof.
  split; [reflexivity|].
  apply (withRetry_negative_budget Cases.fails_twice Cases.pause Cases.quiet Cases.no_budget
           (0%nat, [])).
  reflexivity.
Defined.

End BackoffFacts.

(* ===================================================================== *)
(** ** Retrying a request to the service *)
(* ===================================================================== *)

Module RequestFacts.

Import Notions.

Section Loop.

Context {T : Type}.
Variable fn : Runtime.State -> Js.Outcome T * Runtime.State.

(** The operation is one request: it leaves the ledger alone and is
    counted once. *)
Hypothesis fn_costTracker : forall st, Runtime.costTracker (snd (fn st)) = Runtime.costTracker st.
Hypothesis fn_created : forall st, Runtime.created (snd (fn st)) = S (Runtime.created st).

Lemma retry_loop_frame (opts : Retry.Resolved) (k : nat) :
  forall (attempt delay : Z) (last : Js.JsError) (st : Runtime.State),
    let st' := snd (Retry.retry_loop fn Runtime.sleep Runtime.logging opts k
                      attempt delay last st) in
    Runtime.costTracker st' = Runtime.costTracker st
    /\ (Runtime.created st <= Runtime.created st' <= Runtime.created st + k)%nat
    /\ (0 < k -> Runtime.created st < Runtime.created st')%nat.
Proof.
  induction k as [|k IH]; intros attempt delay last st; [simpl; split; [done | lia]|].
  cbv zeta. rewrite BackoffFacts.retry_loop_S. cbv zeta.
  set (st0 := if 0 <? attempt then _ else st).
  assert (H0 : Runtime.costTracker st0 = Runtime.costTracker st
               /\ Runtime.created st0 = Runtime.created st)
    by (subst st0; by destruct (0 <? attempt)).
  pose proof (fn_costTracker st0) as Hc. pose proof (fn_created st0) as Hn.
  destruct (fn st0) as [o st1]. simpl in Hc, Hn. destruct H0 as [Hc0 Hn0].
  destruct o as [r|e].
  - destruct (0 <? attempt); simpl; split; try congruence; lia.
  - unfold Retry.isRetryable.
    destruct (attempt =? Retry.opt_maxRetries opts).
    + simpl. split; [congruence | lia].
    + destruct (Retry.retryable e _); cbn [negb]; cbv beta iota.
      * match goal with |- context [Retry.retry_loop _ _ _ _ k ?a ?d ?l ?s] =>
          destruct (IH a d l s) as (Hc' & Hn' & _) end.
        simpl in Hc', Hn'. split; [congruence | lia].
      * simpl. split; [congruence | lia].
Qed.

End Loop.

Section TimedCreate.

Variable remote : Runtime.Remote.
Variable req : Runtime.Request.
Variable timeoutMs : Z.
Variable context : option string.

Let reply (st : Runtime.State) : Runtime.Reply :=
  Runtime.on_create remote (Runtime.created st).

Lemma timed_create_frame (st : Runtime.State) :
  let st' := snd (Runtime.withTimeout (Runtime.create remote req) timeoutMs context st) in
  Runtime.costTracker st' = Runtime.costTracker st
  /\ Runtime.created st' = S (Runtime.created st).
Proof.
  unfold Runtime.withTimeout, Runtime.create. simpl.
  destruct (_ <=? Js.timer_delay timeoutMs); [|by split].
  destruct (Runtime.settles _); by split.
Qed.

(** A request answered no later than the timer fires passes its outcome on. *)
Lemma timed_create_in_time (st : Runtime.State) :
  Runtime.latency (reply st) <= Js.timer_delay timeoutMs ->
  fst (Runtime.withTimeout (Runtime.create remote req) timeoutMs context st)
  = Runtime.settles (reply st)
  /\ Runtime.now (snd (Runtime.withTimeout (Runtime.create remote req) timeoutMs context st))
     = Runtime.now st + Runtime.latency (reply st).
Proof.
  intros H. unfold Runtime.withTimeout, Runtime.create. simpl. fold (reply st).
  replace (Runtime.now st + Runtime.latency (reply st) - Runtime.now st)
    with (Runtime.latency (reply st)) by lia.
  apply Z.leb_le in H. rewrite H.
  destruct (Runtime.settles (reply st)); by split.
Qed.

(** A request not answered when the timer fires is given up with a TIMEOUT error. *)
Lemma timed_create_late (st : Runtime.State) :
  Js.timer_delay timeoutMs < Runtime.latency (reply st) ->
  fst (Runtime.withTimeout (Runtime.create remote req) timeoutMs context st)
  = Js.Throw (Js.Error ("TIMEOUT: Operation timed out after " +:+ Js.show timeoutMs +:+ "ms"))
  /\ Runtime.now (snd (Runtime.withTimeout (Runtime.create remote req) timeoutMs context st))
     = Runtime.now st + Js.timer_delay timeoutMs.
Proof.
  intros H. unfold Runtime.withTimeout, Runtime.create. simpl. fold (reply st).
  replace (Runtime.now st + Runtime.latency (reply st) - Runtime.now st)
    with (Runtime.latency (reply st)) by lia.
  apply Z.leb_gt in H. rewrite H. by split.
Qed.

End TimedCreate.

Lemma logged_only_refl (s : Runtime.State) : logged_only s s.
Proof. by repeat split. Qed.

Lemma logged_only_logging (f : Logger.t -> Logger.t) (s s' : Runtime.State) :
  logged_only s s' -> logged_only s (Runtime.logging f s').
Proof. intros H. exact H. Qed.

(** A first attempt that returns ends [withRetry] there. *)
Lemma withRetry_first_returns {T : Type}
    (fn : Runtime.State -> Js.Outcome T * Runtime.State)
    (options : Retry.RetryOptions) (st : Runtime.State) (v : T) :
  0 <= Retry.opt_maxRetries (Retry.resolve options) ->
  fst (fn (first_attempt options st)) = Js.Return v ->
  Retry.withRetry fn Runtime.sleep Runtime.logging options st
  = (Js.Return v, snd (fn (first_attempt options st))).
Proof.
  intros Hmax Hv. unfold Retry.withRetry. fold (first_attempt options st).
  replace (Z.to_nat (Retry.opt_maxRetries (Retry.resolve options) + 1))
    with (S (Z.to_nat (Retry.opt_maxRetries (Retry.resolve options)))) by lia.
  rewrite BackoffFacts.retry_loop_S. cbv zeta. change (0 <? 0) with false. cbv iota.
  destruct (fn (first_attempt options st)) as [o s1]. simpl in Hv. by subst o.
Qed.

(** A first attempt that fails for good (not retryable, or no retry
    allowed) ends [withRetry] with that failure. *)
Lemma withRetry_first_fatal {T : Type}
    (fn : Runtime.State -> Js.Outcome T * Runtime.State)
    (options : Retry.RetryOptions) (st : Runtime.State) (e : Js.JsError) :
  0 <= Retry.opt_maxRetries (Retry.resolve options) ->
  fst (fn (first_attempt options st)) = Js.Throw e ->
  Retry.retryable e (Retry.opt_retryableErrors (Retry.resolve options)) = false ->
  exists s',
    Retry.withRetry fn Runtime.sleep Runtime.logging options st = (Js.Throw e, s')
    /\ logged_only (snd (fn (first_attempt options st))) s'.
Proof.
  intros Hmax He Hr. unfold Retry.withRetry. fold (first_attempt options st).
  replace (Z.to_nat (Retry.opt_maxRetries (Retry.resolve options) + 1))
    with (S (Z.to_nat (Retry.opt_maxRetries (Retry.resolve options)))) by lia.
  rewrite BackoffFacts.retry_loop_S. cbv zeta. change (0 <? 0) with false. cbv iota.
  destruct (fn (first_attempt options st)) as [o s1]. simpl in He. subst o.
  unfold Retry.isRetryable. rewrite Hr.
  destruct (0 =? Retry.opt_maxRetries (Retry.resolve options));
    eexists; (split; [reflexivity | by repeat split]).
Qed.

Lemma withRetry_frame {T : Type} (fn : Runtime.State -> Js.Outcome T * Runtime.State)
    (options : Retry.RetryOptions) (st : Runtime.State) :
  (forall s, Runtime.costTracker (snd (fn s)) = Runtime.costTracker s) ->
  (forall s, Runtime.created (snd (fn s)) = S (Runtime.created s)) ->
  let budget := Z.to_nat (Retry.opt_maxRetries (Retry.resolve options) + 1) in
  let st' := snd (Retry.withRetry fn Runtime.sleep Runtime.logging options st) in
  Runtime.costTracker st' = Runtime.costTracker st
  /\ (Runtime.created st <= Runtime.created st' <= Runtime.created st + budget)%nat
  /\ (0 < budget -> Runtime.created st < Runtime.created st')%nat.
Proof.
  intros Hc Hn budget st'. subst st'. unfold Retry.withRetry.
  match goal with |- context [Retry.retry_loop _ _ _ ?opts ?k ?a ?d ?l ?s] =>
    destruct (retry_loop_frame fn Hc Hn opts k a d l s) as (H1 & H2 & H3) end.
  split; [exact H1|]. split; [exact H2 | exact H3].
Qed.

End RequestFacts.

(* ===================================================================== *)
(** ** Text generation: requests, results and the ledger *)
(* ===================================================================== *)

Module TextFacts.

Import Vocabulary Notions.

Lemma passes_or_violates (o : TextProvider.TextGenerateOptions) : passes o \/ violates o.
Proof.
  unfold passes, violates. cbv zeta.
  set (model := default "gpt-5.2" (TextProvider.model o)).
  set (effort := default Types.effort_none (TextProvider.reasoningEffort o)).
  destruct (String.eqb model "gpt-5.2-pro") eqn:Hpro.
  - apply String.eqb_eq in Hpro.
    destruct (Types.isValidProReasoningEffort effort) eqn:Hv.
    + destruct (TextProvider.jsonSchema o) as [schema|] eqn:Hj.
      * right. right. right. rewrite Hpro. by repeat split.
      * destruct (TextProvider.temperature o) as [t|] eqn:Ht.
        -- right. right. left. split; [done|]. by destruct effort.
        -- left. by repeat split.
    + right. left. split; [exact Hpro|]. by destruct effort.
  - destruct (TextProvider.temperature o) as [t|] eqn:Ht;
      destruct (TextProvider.is_none_effort effort) eqn:He;
      destruct (TextProvider.jsonSchema o) as [schema|] eqn:Hj;
      destruct (Types.supportsStructuredOutput model) eqn:Hs;
      try (left; by repeat split);
      try (right; right; left; split; [done | by destruct effort]).
    all: right; right; right; split; [done|];
      unfold Types.supportsStructuredOutput, Types.arr_includes in Hs; simpl in Hs;
      split; intros Hm; rewrite Hm in Hs; discriminate.
Qed.

Lemma violates_not_passes (o : TextProvider.TextGenerateOptions) : violates o -> ~ passes o.
Proof.
  unfold passes, violates. cbv zeta.
  set (model := default "gpt-5.2" (TextProvider.model o)).
  set (effort := default Types.effort_none (TextProvider.reasoningEffort o)).
  intros [(Hm & H1 & H2 & H3) | [(Ht & He) | (Hj & H1 & H2)]] (P1 & P2 & P3).
  - rewrite Hm in P1. destruct effort; simpl in P1; congruence.
  - destruct (TextProvider.temperature o); [|done]. destruct effort; simpl in P2; congruence.
  - destruct (TextProvider.jsonSchema o); [|done]. simpl in P3.
    apply negb_false_iff in P3.
    unfold Types.supportsStructuredOutput, Types.arr_includes in P3. simpl in P3.
    rewrite orb_false_r in P3. apply orb_true_iff in P3 as [P|P];
      apply String.eqb_eq in P; congruence.
Qed.

Lemma violating_is_rejected (remote : Runtime.Remote) (o : TextProvider.TextGenerateOptions)
    (st : Runtime.State) :
  ~ passes o -> rejected (TextProvider.generate remote o st) st.
Proof.
  unfold passes, rejected, TextProvider.generate. cbv zeta. intros Hnot.
  destruct (String.eqb _ "gpt-5.2-pro" && _) eqn:H1; [eexists; split; reflexivity|].
  destruct (TextProvider.present (TextProvider.temperature o) && _) eqn:H2;
    [eexists; split; reflexivity|].
  destruct (TextProvider.present (TextProvider.jsonSchema o) && _) eqn:H3;
    [eexists; split; reflexivity|].
  exfalso. apply Hnot. by repeat split.
Qed.

(** X12.  [generate] rejects with VALIDATION_ERROR, leaving the process
    untouched, exactly the options that break a compatibility rule:
    gpt-5.2-pro with an effort other than medium, high or xhigh; a
    temperature together with an effort other than none; a JSON schema
    with a model other than gpt-5.2 and gpt-5.2-chat-latest.  All other
    options are accepted and their request is sent. *)
Theorem generate_rejects_exactly_violations (remote : Runtime.Remote)
    (o : TextProvider.TextGenerateOptions) (st : Runtime.State) :
  (violates o <-> rejected (TextProvider.generate remote o st) st)
  /\ (~ violates o <-> accepted (TextProvider.generate remote o st) st o).
Proof.
  assert (Hacc : passes o -> accepted (TextProvider.generate remote o st) st o).
  { intros (P1 & P2 & P3). by apply TextProviderFacts.generate_passes. }
  assert (Hexcl : rejected (TextProvider.generate remote o st) st ->
                  accepted (TextProvider.generate remote o st) st o -> False).
  { intros (msg & Hm & _) (Hv & _). rewrite Hm in Hv. discriminate. }
  split; split.
  - intros Hv. apply violating_is_rejected. by apply violates_not_passes.
  - intros Hr. destruct (passes_or_violates o) as [Hp|Hv]; [|exact Hv].
    exfalso. apply Hexcl; [exact Hr | by apply Hacc].
  - intros Hn. destruct (passes_or_violates o) as [Hp|Hv]; [by apply Hacc | contradiction].
  - intros Ha Hv. apply Hexcl; [|exact Ha].
    apply violating_is_rejected. by apply violates_not_passes.
Qed.

Lemma generate_rejects_exactly_violations_witness :
  violates (Samples.text_options (Some "gpt-5.2-pro") (Some Types.effort_low) None None)
  /\ rejected (TextProvider.generate Samples.remote_text
                 (Samples.text_options (Some "gpt-5.2-pro") (Some Types.effort_low) None None)
                 Samples.fresh) Samples.fresh.
Proof.
  assert (H : violates (Samples.text_options (Some "gpt-5.2-pro") (Some Types.effort_low)
                          None None)).
  { left. by repeat split. }
  split; [exact H|].
  by apply (proj1 (generate_rejects_exactly_violations Samples.remote_text _ Samples.fresh)).
Defined.

Lemma passes_checks (o : TextProvider.TextGenerateOptions) :
  passes o ->
  String.eqb (default "gpt-5.2" (TextProvider.model o)) "gpt-5.2-pro"
    && negb (Types.isValidProReasoningEffort
               (default Types.effort_none (TextProvider.reasoningEffort o))) = false
  /\ TextProvider.present (TextProvider.temperature o)
     && negb (TextProvider.is_none_effort
                (default Types.effort_none (TextProvider.reasoningEffort o))) = false
  /\ TextProvider.present (TextProvider.jsonSchema o)
     && negb (Types.supportsStructuredOutput (default "gpt-5.2" (TextProvider.model o)))
     = false.
Proof. intros H. exact H. Qed.

(** What [generate] does to the ledger and how many requests it sends. *)
Lemma generate_outcome (remote : Runtime.Remote)
    (o : TextProvider.TextGenerateOptions) (st : Runtime.State) :
  let run := TextProvider.generate remote o st in
  (Runtime.created st <= Runtime.created (snd run) <= Runtime.created st + 3)%nat
  /\ match fst run with
     | Js.Return r =>
         Runtime.costTracker (snd run)
         = CostTracker.trackCost (text_entry (Runtime.now (snd run)) r) (Runtime.costTracker st)
         /\ TextProvider.res_model r = default "gpt-5.2" (TextProvider.model o)
         /\ TextProvider.cost r
            = Pricing.calculateCost (TextProvider.res_model r)
                (Runtime.prompt_or0 (TextProvider.usage r))
                (Runtime.completion_or0 (TextProvider.usage r))
         /\ (Runtime.created st < Runtime.created (snd run))%nat
     | Js.Throw _ => Runtime.costTracker (snd run) = Runtime.costTracker st
     end.
Proof.
  cbv zeta. unfold TextProvider.generate. cbv zeta.
  destruct (String.eqb _ "gpt-5.2-pro" && _); [simpl; split; [lia | reflexivity]|].
  destruct (TextProvider.present (TextProvider.temperature o) && _);
    [simpl; split; [lia | reflexivity]|].
  destruct (TextProvider.present (TextProvider.jsonSchema o) && _);
    [simpl; split; [lia | reflexivity]|].
  match goal with |- context [Retry.withRetry ?f _ _ ?opt ?s] =>
    pose proof (RequestFacts.withRetry_frame f opt s
                  (fun s0 => proj1 (RequestFacts.timed_create_frame _ _ _ _ s0))
                  (fun s0 => proj2 (RequestFacts.timed_create_frame _ _ _ _ s0)))
      as (Hc & Hn & Hpos);
    destruct (Retry.withRetry f Runtime.sleep Runtime.logging opt s) as [out s1] end.
  simpl in Hc, Hn, Hpos.
  destruct out as [response|error].
  - simpl. split; [lia|]. split; [by rewrite Hc|]. split; [reflexivity|].
    split; [reflexivity | apply Hpos; lia].
  - destruct (Js.nullish error); [simpl; split; [lia | exact Hc]|].
    destruct (TextProvider.classify error) as [errorType errorMessage].
    simpl. split; [lia | exact Hc].
Qed.

(** X13.  [generate] changes the ledger only when it returns, and then by
    exactly one record: the one for operation generate_text, costed by
    [calculateCost] for the model used on the reported token counts (zero
    where none were reported).  Whenever it throws, whatever the reason,
    the ledger is what it was.  It never sends more than three requests. *)
Theorem generate_bills_results_only (remote : Runtime.Remote)
    (o : TextProvider.TextGenerateOptions) (st : Runtime.State) :
  let run := TextProvider.generate remote o st in
  (Runtime.created st <= Runtime.created (snd run) <= Runtime.created st + 3)%nat
  /\ match fst run with
     | Js.Return r =>
         ledger_grew_by st (snd run) [text_entry (Runtime.now (snd run)) r]
         /\ CostTracker.costsFile (Runtime.costTracker (snd run))
            = CostTracker.costsFile (Runtime.costTracker st)
         /\ TextProvider.res_model r = default "gpt-5.2" (TextProvider.model o)
         /\ TextProvider.cost r
            = Pricing.calculateCost (TextProvider.res_model r)
                (Runtime.prompt_or0 (TextProvider.usage r))
                (Runtime.completion_or0 (TextProvider.usage r))
         /\ (Runtime.created st < Runtime.created (snd run))%nat
     | Js.Throw _ =>
         ledger_grew_by st (snd run) []
         /\ Runtime.costTracker (snd run) = Runtime.costTracker st
     end.
Proof.
  cbv zeta. destruct (generate_outcome remote o st) as [Hrequests Hout].
  cbv zeta in Hrequests, Hout. split; [exact Hrequests|].
  unfold ledger_grew_by.
  destruct (fst (TextProvider.generate remote o st)) as [r|e].
  - destruct Hout as (Hct & Hmodel & Hcost & Hsent).
    rewrite Hct, CostTrackerFacts.trackCost_entries, CostTrackerFacts.trackCost_costsFile.
    by repeat split.
  - rewrite Hout. split; [by rewrite app_nil_r | reflexivity].
Qed.

Lemma text_timer : Js.timer_delay TextProvider.DEFAULT_TIMEOUT_MS = 3600000.
Proof. reflexivity. Qed.

(** X14.  When the first request of [generate] is answered in time with a
    failure, an error object that matches none of the retryable patterns,
    no second request is made: [generate] throws the classified failure
    after exactly one request, as long after the start as the service
    took, and the ledger is what it was. *)
Theorem generate_gives_up_on_fatal_failure (remote : Runtime.Remote)
    (o : TextProvider.TextGenerateOptions) (st : Runtime.State) (e : Js.JsError) :
  passes o ->
  let reply := Runtime.on_create remote (Runtime.created st) in
  Runtime.latency reply < TextProvider.DEFAULT_TIMEOUT_MS ->
  Runtime.settles reply = Js.Throw e ->
  Js.nullish e = false ->
  Retry.retryable e ["RATE_LIMIT"; "429"; "503"; "502"; "ECONNRESET"; "ETIMEDOUT"] = false ->
  let run := TextProvider.generate remote o st in
  fst run = Js.Throw (Js.Error (fst (TextProvider.classify e) +:+ ": "
                                +:+ snd (TextProvider.classify e)))
  /\ Runtime.created (snd run) = S (Runtime.created st)
  /\ Runtime.now (snd run) = Runtime.now st + Runtime.latency reply
  /\ Runtime.costTracker (snd run) = Runtime.costTracker st.
Proof.
  intros Hp reply Hlat He Hobj Hr. cbv zeta.
  destruct (passes_checks o Hp) as (P1 & P2 & P3).
  unfold TextProvider.generate. cbv zeta. rewrite P1, P2, P3.
  fold (text_request_state st).
  set (fn := Runtime.withTimeout _ _ _).
  assert (Hlat' : Runtime.latency reply <= Js.timer_delay TextProvider.DEFAULT_TIMEOUT_MS)
    by (rewrite text_timer; unfold TextProvider.DEFAULT_TIMEOUT_MS in Hlat; lia).
  destruct (RequestFacts.timed_create_in_time remote (TextProvider.build_request o)
              TextProvider.DEFAULT_TIMEOUT_MS (Some "text-generation")
              (first_attempt TextProvider.retry_options (text_request_state st)) Hlat')
    as [Hout Hnow].
  fold fn in Hout, Hnow.
  destruct (RequestFacts.timed_create_frame remote (TextProvider.build_request o)
              TextProvider.DEFAULT_TIMEOUT_MS (Some "text-generation")
              (first_attempt TextProvider.retry_options (text_request_state st)))
    as [Hct Hcr].
  fold fn in Hct, Hcr.
  destruct (RequestFacts.withRetry_first_fatal fn TextProvider.retry_options
              (text_request_state st) e)
    as (s' & Hrun & Hn' & Hc' & _ & _ & Ht'); [by compute | | exact Hr |].
  { rewrite Hout. exact He. }
  rewrite Hrun, Hobj. destruct (TextProvider.classify e) as [errorType errorMessage].
  simpl. split; [reflexivity|]. split; [by rewrite Hc', Hcr|].
  split; [by rewrite Hn', Hnow | by rewrite Ht', Hct].
Qed.

Lemma generate_gives_up_on_fatal_failure_witness :
  passes (Samples.text_options None None None None)
  /\ (let run := TextProvider.generate Cases.remote_unauthorized
                   (Samples.text_options None None None None) Samples.fresh in
      fst run = Js.Throw (Js.Error (fst (TextProvider.classify Cases.refused) +:+ ": "
                                    +:+ snd (TextProvider.classify Cases.refused)))
      /\ Runtime.created (snd run) = S (Runtime.created Samples.fresh)
      /\ Runtime.now (snd run)
         = Runtime.now Samples.fresh
           + Runtime.latency (Runtime.on_create Cases.remote_unauthorized
                                (Runtime.created Samples.fresh))
      /\ Runtime.costTracker (snd run) = Runtime.costTracker Samples.fresh).
Proof.
  assert (H : passes (Samples.text_options None None None None)) by (by repeat split).
  split; [exact H|].
  apply (generate_gives_up_on_fatal_failure Cases.remote_unauthorized
           (Samples.text_options None None None None) Samples.fresh Cases.refused);
    [exact H | reflexivity | reflexivity | reflexivity | vm_compute; reflexivity].
Defined.

(** X15.  When the first request of [generate] takes longer than sixty
    minutes to answer, [generate] stops waiting at the sixtieth and throws
    "TIMEOUT: Request timed out. ..." after that single request: the
    timeout failure matches none of the retryable patterns of the text
    provider, so the request is not repeated.  The ledger is what it was. *)
Theorem generate_times_out_without_retry (remote : Runtime.Remote)
    (o : TextProvider.TextGenerateOptions) (st : Runtime.State) :
  passes o ->
  TextProvider.DEFAULT_TIMEOUT_MS
  < Runtime.latency (Runtime.on_create remote (Runtime.created st)) ->
  let run := TextProvider.generate remote o st in
  fst run = Js.Throw (Js.Error
              "TIMEOUT: Request timed out. The prompt may be too complex or the service is slow.")
  /\ Runtime.created (snd run) = S (Runtime.created st)
  /\ Runtime.now (snd run) = Runtime.now st + 3600000
  /\ Runtime.costTracker (snd run) = Runtime.costTracker st.
Proof.
  intros Hp Hlat. cbv zeta.
  destruct (passes_checks o Hp) as (P1 & P2 & P3).
  unfold TextProvider.generate. cbv zeta. rewrite P1, P2, P3.
  fold (text_request_state st).
  set (fn := Runtime.withTimeout _ _ _).
  assert (Hlat' : Js.timer_delay TextProvider.DEFAULT_TIMEOUT_MS
                  < Runtime.latency (Runtime.on_create remote (Runtime.created st)))
    by (rewrite text_timer; unfold TextProvider.DEFAULT_TIMEOUT_MS in Hlat; lia).
  destruct (RequestFacts.timed_create_late remote (TextProvider.build_request o)
              TextProvider.DEFAULT_TIMEOUT_MS (Some "text-generation")
              (first_attempt TextProvider.retry_options (text_request_state st)) Hlat')
    as [Hout Hnow].
  rewrite text_timer in Hnow.
  fold fn in Hout, Hnow.
  destruct (RequestFacts.timed_create_frame remote (TextProvider.build_request o)
              TextProvider.DEFAULT_TIMEOUT_MS (Some "text-generation")
              (first_attempt TextProvider.retry_options (text_request_state st)))
    as [Hct Hcr].
  fold fn in Hct, Hcr.
  destruct (RequestFacts.withRetry_first_fatal fn TextProvider.retry_options
              (text_request_state st) _ ltac:(by compute) Hout)
    as (s' & Hrun & Hn' & Hc' & _ & _ & Ht'); [vm_compute; reflexivity|].
  rewrite Hrun.
  replace (TextProvider.classify _)
    with ("TIMEOUT", "Request timed out. The prompt may be too complex or the service is slow.")
    by (vm_compute; reflexivity).
  simpl. split; [reflexivity|]. split; [by rewrite Hc', Hcr|].
  split; [by rewrite Hn', Hnow | by rewrite Ht', Hct].
Qed.

Lemma generate_times_out_without_retry_witness :
  passes (Samples.text_options None None None None)
  /\ (let run := TextProvider.generate Cases.remote_stalled
                   (Samples.text_options None None None None) Samples.fresh in
      fst run = Js.Throw (Js.Error
              "TIMEOUT: Request timed out. The prompt may be too complex or the service is slow.")
      /\ Runtime.created (snd run) = S (Runtime.created Samples.fresh)
      /\ Runtime.now (snd run) = Runtime.now Samples.fresh + 3600000
      /\ Runtime.costTracker (snd run) = Runtime.costTracker Samples.fresh).
Proof.
  assert (H : passes (Samples.text_options None None None None)) by (by repeat split).
  split; [exact H|].
  apply (generate_times_out_without_retry Cases.remote_stalled
           (Samples.text_options None None None None) Samples.fresh);
    [exact H | by compute].
Defined.

(** A first request answered in time: the result [generate] builds. *)
Lemma generate_first_answer (remote : Runtime.Remote)
    (o : TextProvider.TextGenerateOptions) (st : Runtime.State) (response : Runtime.Response) :
  passes o ->
  let reply := Runtime.on_create remote (Runtime.created st) in
  Runtime.latency reply < TextProvider.DEFAULT_TIMEOUT_MS ->
  Runtime.settles reply = Js.Return response ->
  let run := TextProvider.generate remote o st in
  let usage := Runtime.extract_usage true (Runtime.usage response) in
  let model := default "gpt-5.2" (TextProvider.model o) in
  fst run
  = Js.Return {| TextProvider.text := Js.str_or (Runtime.output_text response) "";
                 TextProvider.res_model := model;
                 TextProvider.usage := usage;
                 TextProvider.cost :=
                   Pricing.calculateCost model (Runtime.prompt_or0 usage)
                     (Runtime.completion_or0 usage) |}
  /\ Runtime.created (snd run) = S (Runtime.created st)
  /\ Runtime.calls (snd run)
     = Runtime.calls st ++ [Runtime.responses_create (TextProvider.build_request o)]
  /\ Runtime.now (snd run) = Runtime.now st + Runtime.latency reply.
Proof.
  intros Hp reply Hlat Hres. cbv zeta.
  destruct (passes_checks o Hp) as (P1 & P2 & P3).
  unfold TextProvider.generate. cbv zeta. rewrite P1, P2, P3.
  fold (text_request_state st).
  set (fn := Runtime.withTimeout _ _ _).
  assert (Hlat' : Runtime.latency reply <= Js.timer_delay TextProvider.DEFAULT_TIMEOUT_MS)
    by (rewrite text_timer; unfold TextProvider.DEFAULT_TIMEOUT_MS in Hlat; lia).
  destruct (RequestFacts.timed_create_in_time remote (TextProvider.build_request o)
              TextProvider.DEFAULT_TIMEOUT_MS (Some "text-generation")
              (first_attempt TextProvider.retry_options (text_request_state st)) Hlat')
    as [Hout Hnow].
  fold fn in Hout, Hnow.
  assert (Hcalls : Runtime.calls (snd (fn (first_attempt TextProvider.retry_options
                                             (text_request_state st))))
                   = Runtime.calls st
                     ++ [Runtime.responses_create (TextProvider.build_request o)]).
  { subst fn. unfold Runtime.withTimeout, Runtime.create. simpl.
    destruct (_ <=? Js.timer_delay TextProvider.DEFAULT_TIMEOUT_MS); [|reflexivity].
    by destruct (Runtime.settles _). }
  destruct (RequestFacts.timed_create_frame remote (TextProvider.build_request o)
              TextProvider.DEFAULT_TIMEOUT_MS (Some "text-generation")
              (first_attempt TextProvider.retry_options (text_request_state st)))
    as [Hct Hcr].
  fold fn in Hct, Hcr.
  rewrite (RequestFacts.withRetry_first_returns fn TextProvider.retry_options
             (text_request_state st) response);
    [| by compute | rewrite Hout; exact Hres].
  simpl. split; [reflexivity|]. split; [exact Hcr | split; [exact Hcalls | exact Hnow]].
Qed.

(** X16.  When the first request of [generate] is answered in time,
    [generate] returns after that one request, as long after the start as
    the service took: the text is the response's output text, or the empty
    string when the response has none; the model is the one asked for
    (gpt-5.2 by default); the token counts are those the response
    reported. *)
Theorem generate_returns_first_answer (remote : Runtime.Remote)
    (o : TextProvider.TextGenerateOptions) (st : Runtime.State) (response : Runtime.Response) :
  passes o ->
  let reply := Runtime.on_create remote (Runtime.created st) in
  Runtime.latency reply < TextProvider.DEFAULT_TIMEOUT_MS ->
  Runtime.settles reply = Js.Return response ->
  let run := TextProvider.generate remote o st in
  (exists r, fst run = Js.Return r
     /\ TextProvider.text r = default "" (Runtime.output_text response)
     /\ TextProvider.res_model r = default "gpt-5.2" (TextProvider.model o)
     /\ TextProvider.usage r = Runtime.extract_usage true (Runtime.usage response))
  /\ Runtime.created (snd run) = S (Runtime.created st)
  /\ Runtime.calls (snd run)
     = Runtime.calls st ++ [Runtime.responses_create (TextProvider.build_request o)]
  /\ Runtime.now (snd run) = Runtime.now st + Runtime.latency reply.
Proof.
  intros Hp reply Hlat Hres.
  destruct (generate_first_answer remote o st response Hp Hlat Hres) as (Hrun & Hrest).
  cbv zeta in *. split; [|exact Hrest].
  eexists. split; [exact Hrun|]. simpl. split; [|by split].
  unfold Js.str_or. destruct (Runtime.output_text response) as [[|c t]|]; reflexivity.
Qed.

Lemma generate_returns_first_answer_witness :
  passes (Samples.text_options None None None None)
  /\ (let run := TextProvider.generate Samples.remote_text
                   (Samples.text_options None None None None) Samples.fresh in
      (exists r, fst run = Js.Return r
         /\ TextProvider.text r = default "" (Some "Hello")
         /\ TextProvider.res_model r = default "gpt-5.2" None
         /\ TextProvider.usage r = Runtime.extract_usage true (Some Samples.usage0))
      /\ Runtime.created (snd run) = S (Runtime.created Samples.fresh)
      /\ Runtime.calls (snd run)
         = Runtime.calls Samples.fresh
           ++ [Runtime.responses_create
                 (TextProvider.build_request (Samples.text_options None None None None))]
      /\ Runtime.now (snd run)
         = Runtime.now Samples.fresh
           + Runtime.latency (Runtime.on_create Samples.remote_text
                                (Runtime.created Samples.fresh))).
Proof.
  assert (H : passes (Samples.text_options None None None None)) by (by repeat split).
  split; [exact H|].
  apply (generate_returns_first_answer Samples.remote_text
           (Samples.text_options None None None None) Samples.fresh
           (Samples.response (Some "resp_t1") (Some "completed") (Some "Hello")
              (Some Samples.usage0) None));
    [exact H | reflexivity | reflexivity].
Defined.

End TextFacts.

(* ===================================================================== *)
(** ** Deep research: the start, the traffic and the result *)
(* ===================================================================== *)

Module ResearchFacts.

Import Vocabulary Notions.

(** What [startResearch] does to the process, however the service answers. *)
Lemma startResearch_frame (remote : Runtime.Remote) (query model : string)
    (st : Runtime.State) :
  let st' := snd (DeepResearch.startResearch remote query model st) in
  Runtime.created st' = S (Runtime.created st)
  /\ Runtime.retrieved st' = Runtime.retrieved st
  /\ Runtime.calls st'
     = Runtime.calls st
       ++ [Runtime.responses_create (DeepResearch.research_request query model)]
  /\ Runtime.now st'
     = Runtime.now st + Runtime.latency (Runtime.on_create remote (Runtime.created st)).
Proof.
  unfold DeepResearch.startResearch, Runtime.create. simpl.
  destruct (Runtime.settles _) as [response|error]; simpl.
  - destruct (Js.falsy_str (Runtime.id response)); simpl; by repeat split.
  - destruct (Js.nullish error); simpl; [by repeat split|].
    repeat match goal with |- context [if ?b then _ else _] => destruct b end; by repeat split.
Qed.

(** X17.  [startResearch] sends exactly one request, the background
    [create] of the research job, and retrieves nothing.  When it returns,
    it returns the non-empty identifier found in the answer to that
    request.  When it throws, there is an underlying failure, the value
    the [create] was rejected with or the error raised for an answer
    without identifier, and what is thrown is one of four: a TypeError
    when the underlying failure is undefined or null (the handler reads
    its [name]); the fixed AUTH_ERROR message when its message mentions
    the API key or its status is 401; otherwise the fixed RATE_LIMIT
    message when its status is 429; otherwise API_ERROR followed by its
    message. *)
Theorem startResearch_sends_one_request (remote : Runtime.Remote) (query model : string)
    (st : Runtime.State) :
  let run := DeepResearch.startResearch remote query model st in
  Runtime.created (snd run) = S (Runtime.created st)
  /\ Runtime.retrieved (snd run) = Runtime.retrieved st
  /\ Runtime.calls (snd run)
     = Runtime.calls st
       ++ [Runtime.responses_create (DeepResearch.research_request query model)]
  /\ match fst run with
     | Js.Return rid =>
         rid <> ""
         /\ exists response,
              Runtime.settles (Runtime.on_create remote (Runtime.created st))
              = Js.Return response
              /\ Runtime.id response = Some rid
     | Js.Throw e =>
         exists failure,
           (Runtime.settles (Runtime.on_create remote (Runtime.created st))
            = Js.Throw failure
            \/ (exists response,
                  Runtime.settles (Runtime.on_create remote (Runtime.created st))
                  = Js.Return response
                  /\ Js.falsy_str (Runtime.id response) = true
                  /\ failure = Js.Error "API_ERROR: No response ID returned from API"))
           /\ ((Js.nullish failure = true /\ e = Js.TypeError_reading "name")
               \/ (Js.nullish failure = false
                   /\ asks_for_key failure = true
                   /\ e = Js.Error "AUTH_ERROR: Invalid or missing OpenAI API key")
               \/ (Js.nullish failure = false
                   /\ asks_for_key failure = false
                   /\ Js.status_eq failure 429 = true
                   /\ e = Js.Error
                           "RATE_LIMIT: OpenAI API rate limit exceeded. Please wait and retry.")
               \/ (Js.nullish failure = false
                   /\ asks_for_key failure = false
                   /\ Js.status_eq failure 429 = false
                   /\ e = Js.Error ("API_ERROR: " +:+ Js.message_of failure)))
     end.
Proof.
  cbv zeta.
  destruct (startResearch_frame remote query model st) as (H1 & H2 & H3 & _).
  split; [exact H1|]. split; [exact H2|]. split; [exact H3|].
  unfold DeepResearch.startResearch, Runtime.create. simpl.
  destruct (Runtime.settles _) as [response|error] eqn:Hr; cbn [fst snd].
  - destruct (Js.falsy_str (Runtime.id response)) eqn:Hf; simpl.
    + eexists. split; [right; exists response; by repeat split|].
      right; right; right. by repeat split.
    + unfold Js.falsy_str in Hf. destruct (Runtime.id response) as [rid|] eqn:Hid; [|done].
      simpl. split; [by apply String.eqb_neq | by exists response].
  - unfold asks_for_key.
    destruct (Js.nullish error) eqn:Hn; cbn [fst].
    { exists error. split; [by left|]. by left. }
    destruct (_ || _ || Js.status_eq error 401) eqn:Hk; cbn [fst].
    { exists error. split; [by left|]. right; left. by rewrite Hk. }
    destruct (Js.status_eq error 429) eqn:Hs; cbn [fst];
      (exists error; split; [by left|]; right; right; rewrite Hk, Hs).
    + left. by repeat split.
    + right. by repeat split.
Qed.

(** X18.  When the service answers the [create] with a response that has
    no identifier (absent or empty), the failure raised for it inside the
    [try] block is caught by the same function and wrapped once more: the
    caller sees the prefix API_ERROR twice. *)
Theorem startResearch_without_id_wraps_twice (remote : Runtime.Remote) (query model : string)
    (st : Runtime.State) (response : Runtime.Response) :
  Runtime.settles (Runtime.on_create remote (Runtime.created st)) = Js.Return response ->
  Runtime.id response = None \/ Runtime.id response = Some "" ->
  fst (DeepResearch.startResearch remote query model st)
  = Js.Throw (Js.Error "API_ERROR: API_ERROR: No response ID returned from API").
Proof.
  intros Hr Hid. unfold DeepResearch.startResearch, Runtime.create. simpl. rewrite Hr.
  assert (Hf : Js.falsy_str (Runtime.id response) = true)
    by (destruct Hid as [-> | ->]; reflexivity).
  rewrite Hf. reflexivity.
Qed.

Lemma startResearch_without_id_wraps_twice_witness :
  (Runtime.id (Samples.response None (Some "queued") None None None) = None
   \/ Runtime.id (Samples.response None (Some "queued") None None None) = Some "")
  /\ fst (DeepResearch.startResearch Cases.remote_no_id "State of verified compilers"
            "o3-deep-research" Samples.fresh)
     = Js.Throw (Js.Error "API_ERROR: API_ERROR: No response ID returned from API").
Proof.
  split; [by left|].
  apply (startResearch_without_id_wraps_twice Cases.remote_no_id _ _ Samples.fresh
           (Samples.response None (Some "queued") None None None));
    [reflexivity | by left].
Defined.

(** The loop cannot retrieve more often than the time left allows: every
    pass that goes on takes at least one pause between polls. *)
Lemma poll_retrievals_bounded (remote : Runtime.Remote) (responseId : string)
    (timeoutMs pollIntervalMs startTime : Z) :
  latencies_nonneg remote ->
  forall fuel st out st',
    DeepResearch.pollForCompletion fuel remote responseId timeoutMs pollIntervalMs startTime st
    = Some (out, st') ->
    exists polls : nat,
      Runtime.retrieved st' = (Runtime.retrieved st + polls)%nat
      /\ Z.of_nat polls * Js.timer_delay pollIntervalMs
         <= Z.max 0 (timeoutMs - (Runtime.now st - startTime)
                     + Js.timer_delay pollIntervalMs).
Proof.
  intros Hlat. pose proof (DeepResearchFacts.timer_delay_pos pollIntervalMs) as Hpos.
  induction fuel as [|fuel IH]; intros st out st' H; [discriminate|].
  destruct (Z.lt_ge_cases timeoutMs (Runtime.now st - startTime)) as [Hlate|Hin].
  - rewrite DeepResearchFacts.pass_deadline in H by done. injection H as <- <-.
    exists 0%nat. split; lia.
  - destruct (DeepResearchFacts.pass_cases remote responseId timeoutMs pollIntervalMs
                startTime fuel st Hin)
      as [(o & st1 & Hp & _ & Hone & _) | (st1 & Hp & Hnow & Hone & _)].
    + rewrite Hp in H. injection H as <- <-. exists 1%nat. split; lia.
    + rewrite Hp in H. destruct (IH _ _ _ H) as (polls & Hret & Hbound).
      exists (S polls). split; [lia|].
      pose proof (Hlat (Runtime.retrieved st)). lia.
Qed.

(** X19.  [research] always ends, having sent exactly one [create]; and
    it cannot poll more often than its deadline allows.  The pause between
    two polls is the poll interval as the timer takes it: the interval
    itself from 1 to 2147483647 milliseconds, and one millisecond for any
    other value.  The retrievals [research] makes, each counted as one
    pause, fit into the timeout plus one pause.  With the defaults (thirty
    minutes, ten seconds) that is at most 181 retrievals. *)
Theorem research_traffic_is_bounded (remote : Runtime.Remote)
    (options : DeepResearch.DeepResearchOptions) (st : Runtime.State) :
  latencies_nonneg remote ->
  0 <= Runtime.latency (Runtime.on_create remote (Runtime.created st)) ->
  exists fuel out st' (polls : nat),
    (forall extra, DeepResearch.research (fuel + extra) remote options st = Some (out, st'))
    /\ Runtime.created st' = S (Runtime.created st)
    /\ Runtime.retrieved st' = (Runtime.retrieved st + polls)%nat
    /\ Z.of_nat polls * Js.timer_delay (interval_of options)
       <= Z.max 0 (timeout_of options + Js.timer_delay (interval_of options))
    /\ (DeepResearch.timeoutMs options = None ->
        DeepResearch.pollIntervalMs options = None -> (polls <= 181)%nat).
Proof.
  intros Hlat Hcreate.
  pose proof (DeepResearchFacts.timer_delay_pos (interval_of options)) as Hpos.
  pose proof (startResearch_frame remote (DeepResearch.query options) (model_of options)
                (Runtime.logging (Logger.debugLog "Starting deep research") st))
    as (Hcr & Hre & _ & Hnow).
  destruct (DeepResearch.startResearch remote (DeepResearch.query options) (model_of options)
              (Runtime.logging (Logger.debugLog "Starting deep research") st))
    as [[rid|error] s1] eqn:Hs; simpl in Hcr, Hre, Hnow.
  - set (s2 := Runtime.logging (Logger.log Logger.info "Deep research started") s1).
    destruct (DeepResearchFacts.poll_ends_within_budget remote rid (timeout_of options)
                (interval_of options) (Runtime.now st) Hlat _ s2 (le_n _))
      as (out & s3 & Hp).
    destruct (DeepResearchFacts.poll_sound _ _ _ _ _ _ _ _ _ Hp)
      as (_ & _ & _ & _ & _ & Hcr3).
    destruct (poll_retrievals_bounded remote rid (timeout_of options) (interval_of options)
                (Runtime.now st) Hlat _ _ _ _ Hp) as (polls & Hret & Hbound).
    set (fuel := S (budget (timeout_of options) (Runtime.now st) s2)) in *.
    assert (Hle : Z.of_nat polls * Js.timer_delay (interval_of options)
                  <= Z.max 0 (timeout_of options + Js.timer_delay (interval_of options))
                  /\ (DeepResearch.timeoutMs options = None ->
                      DeepResearch.pollIntervalMs options = None -> (polls <= 181)%nat)).
    { assert (Hb : Z.of_nat polls * Js.timer_delay (interval_of options)
                   <= Z.max 0 (timeout_of options + Js.timer_delay (interval_of options)))
        by (subst s2; simpl in Hbound; lia).
      split; [exact Hb|]. intros Ht Hi. revert Hb.
      unfold timeout_of, interval_of. rewrite Ht, Hi. simpl.
      change (Js.timer_delay DeepResearch.DEFAULT_POLL_INTERVAL_MS) with 10000.
      unfold DeepResearch.DEFAULT_TIMEOUT_MS. lia. }
    destruct out as [result|error].
    + destruct (DeepResearchFacts.research_loop_returns fuel remote options st s1 s3 rid
                  result Hs Hp)
        as (r & st' & Hrun & _ & _ & _ & _ & _ & _ & _ & _ & Hr').
      exists fuel, (Js.Return r), st', polls. split.
      * intros extra. by apply DeepResearchFacts.research_fuel_more.
      * split; [|split; [|exact Hle]].
        -- apply (DeepResearchFacts.research_fuel_more _ 0) in Hrun.
           revert Hrun. unfold DeepResearch.research.
           fold (model_of options). rewrite Hs. cbn [Runtime.now Runtime.logging].
           fold s2. unfold fuel at 1. rewrite Nat.add_0_r. fold fuel.
           fold (timeout_of options) (interval_of options). rewrite Hp.
           intros [= _ <-]. simpl. rewrite Hcr3. subst s2. simpl. exact Hcr.
        -- rewrite Hr', Hret. subst s2. simpl. by rewrite Hre.
    + exists fuel, (Js.Throw error), s3, polls. split.
      * intros extra.
        apply (DeepResearchFacts.research_loop_throws _ _ _ _ s1 _ rid); [exact Hs|].
        by apply DeepResearchFacts.poll_fuel_more.
      * split; [rewrite Hcr3; subst s2; simpl; exact Hcr|].
        split; [rewrite Hret; subst s2; simpl; by rewrite Hre | exact Hle].
  - exists 0%nat, (Js.Throw error), s1, 0%nat. split.
    + intros extra. by apply DeepResearchFacts.research_start_fails.
    + split; [exact Hcr|]. split; [rewrite Hre; simpl; lia |]. split; lia.
Qed.

Lemma research_traffic_is_bounded_witness :
  latencies_nonneg Samples.remote_three_polls
  /\ 0 <= Runtime.latency (Runtime.on_create Samples.remote_three_polls
                              (Runtime.created Samples.fresh))
  /\ exists fuel out st' (polls : nat),
       (forall extra,
          DeepResearch.research (fuel + extra) Samples.remote_three_polls
            (Samples.research_options None None) Samples.fresh = Some (out, st'))
       /\ Runtime.created st' = S (Runtime.created Samples.fresh)
       /\ Runtime.retrieved st' = (Runtime.retrieved Samples.fresh + polls)%nat
       /\ Z.of_nat polls * Js.timer_delay (interval_of (Samples.research_options None None))
          <= Z.max 0 (timeout_of (Samples.research_options None None)
                      + Js.timer_delay (interval_of (Samples.research_options None None)))
       /\ (DeepResearch.timeoutMs (Samples.research_options None None) = None ->
           DeepResearch.pollIntervalMs (Samples.research_options None None) = None ->
           (polls <= 181)%nat).
Proof.
  split; [exact (proj1 DeepResearchFacts.sample_latencies_nonneg)|].
  split; [discriminate|].
  apply (research_traffic_is_bounded Samples.remote_three_polls
           (Samples.research_options None None) Samples.fresh);
    [exact (proj1 DeepResearchFacts.sample_latencies_nonneg) | discriminate].
Defined.

(** X20.  When the job has been started and the first retrieval, begun
    within the deadline, finds it failed, [research] throws
    RESEARCH_FAILED followed by the message the service gave for the
    failure, or by "Research failed with unknown error" when it gave none
    (or an empty one).  One retrieval has been made and the ledger is what
    it was. *)
Theorem research_reports_failed_job (remote : Runtime.Remote)
    (options : DeepResearch.DeepResearchOptions) (st : Runtime.State) (rid : string)
    (response : Runtime.Response) (fuel : nat) :
  started_with remote st rid ->
  Runtime.latency (Runtime.on_create remote (Runtime.created st)) <= timeout_of options ->
  Runtime.settles (Runtime.on_retrieve remote (Runtime.retrieved st)) = Js.Return response ->
  Runtime.status response = Some "failed" ->
  exists st',
    DeepResearch.research (S fuel) remote options st
    = Some (Js.Throw (Js.Error ("RESEARCH_FAILED: "
                                +:+ match Runtime.error_message response with
                                    | Some "" | None => "Research failed with unknown error"
                                    | Some reason => reason
                                    end)), st')
    /\ Runtime.retrieved st' = S (Runtime.retrieved st)
    /\ Runtime.costTracker st' = Runtime.costTracker st.
Proof.
  intros Hstart Hlat Hr Hfailed.
  eexists. split.
  - apply (DeepResearchFacts.research_poll_throws _ _ _ _ _ rid); [exact Hstart|].
    rewrite (DeepResearchFacts.pass_failed remote rid (timeout_of options)
               (interval_of options) (Runtime.now st) fuel (poll_start remote options st)
               response); [| simpl; lia | exact Hr | exact Hfailed].
    do 3 f_equal. unfold Js.str_or.
    by destruct (Runtime.error_message response) as [[|c reason]|].
  - by split.
Qed.

Lemma research_reports_failed_job_witness :
  started_with Samples.remote_failed Samples.fresh "resp_r1"
  /\ exists st',
       DeepResearch.research 1 Samples.remote_failed (Samples.research_options None None)
         Samples.fresh
       = Some (Js.Throw (Js.Error ("RESEARCH_FAILED: "
                                   +:+ match Some "tool budget exhausted" with
                                       | Some "" | None => "Research failed with unknown error"
                                       | Some reason => reason
                                       end)), st')
       /\ Runtime.retrieved st' = S (Runtime.retrieved Samples.fresh)
       /\ Runtime.costTracker st' = Runtime.costTracker Samples.fresh.
Proof.
  assert (H : started_with Samples.remote_failed Samples.fresh "resp_r1").
  { eexists. split; [reflexivity|]. split; [reflexivity | discriminate]. }
  split; [exact H|].
  apply (research_reports_failed_job Samples.remote_failed
           (Samples.research_options None None) Samples.fresh "resp_r1"
           (Samples.response (Some "resp_r1") (Some "failed") None None
              (Some "tool budget exhausted")) 0);
    [exact H | discriminate | reflexivity | reflexivity].
Defined.

Lemma startResearch_returns (remote : Runtime.Remote) (query model : string)
    (st s1 : Runtime.State) (rid : string) :
  DeepResearch.startResearch remote query model st = (Js.Return rid, s1) ->
  (exists response,
     Runtime.settles (Runtime.on_create remote (Runtime.created st)) = Js.Return response
     /\ Runtime.id response = Some rid
     /\ rid <> "")
  /\ Runtime.now s1
     = Runtime.now st + Runtime.latency (Runtime.on_create remote (Runtime.created st)).
Proof.
  unfold DeepResearch.startResearch, Runtime.create. simpl.
  destruct (Runtime.settles _) as [response|error] eqn:Hr; simpl.
  - destruct (Js.falsy_str (Runtime.id response)) eqn:Hf; simpl.
    + discriminate.
    + unfold Js.falsy_str in Hf. destruct (Runtime.id response) as [x|] eqn:Hid; [|done].
      simpl. intros [= <- <-]. split; [|reflexivity].
      exists response. split; [reflexivity|]. split; [exact Hid | by apply String.eqb_neq].
  - repeat match goal with |- context [if ?b then _ else _] => destruct b end; discriminate.
Qed.

(** X21.  Every result [research] returns describes the job it ran: the
    response identifier is the one the service gave for the [create], the
    model is the one asked for (o3-deep-research by default), the report
    is not empty, and the duration is the time from the call of [research]
    to its return.  Its status is always completed: the failed variant of
    the result is never produced, a failed job being thrown instead. *)
Theorem research_result_describes_the_job (fuel : nat) (remote : Runtime.Remote)
    (options : DeepResearch.DeepResearchOptions) (st st' : Runtime.State)
    (r : DeepResearch.DeepResearchResult) :
  DeepResearch.research fuel remote options st = Some (Js.Return r, st') ->
  started_with remote st (DeepResearch.responseId r)
  /\ DeepResearch.res_model r = model_of options
  /\ DeepResearch.status r = DeepResearch.completed
  /\ DeepResearch.text r <> ""
  /\ DeepResearch.durationMs r = Runtime.now st' - Runtime.now st.
Proof.
  unfold DeepResearch.research.
  fold (model_of options) (timeout_of options) (interval_of options).
  destruct (DeepResearch.startResearch _ _ _ _) as [[rid|error] s1] eqn:Hs; [|discriminate].
  cbn [Runtime.now Runtime.logging].
  destruct (DeepResearch.pollForCompletion _ _ _ _ _ _ _) as [[[result|error] s2]|] eqn:Hp;
    [|discriminate..].
  intros [= <- <-]. simpl.
  destruct (startResearch_returns _ _ _ _ _ _ Hs) as [Hstarted _].
  destruct (DeepResearchFacts.poll_sound _ _ _ _ _ _ _ _ _ Hp) as [[Hc Ht] _].
  split; [exact Hstarted|]. by repeat split.
Qed.

Lemma research_result_describes_the_job_witness :
  exists r st',
    DeepResearch.research 5 Samples.remote_three_polls (Samples.research_options None None)
      Samples.fresh = Some (Js.Return r, st')
    /\ (started_with Samples.remote_three_polls Samples.fresh (DeepResearch.responseId r)
        /\ DeepResearch.res_model r = model_of (Samples.research_options None None)
        /\ DeepResearch.status r = DeepResearch.completed
        /\ DeepResearch.text r <> ""
        /\ DeepResearch.durationMs r = Runtime.now st' - Runtime.now Samples.fresh).
Proof.
  destruct DeepResearchFacts.research_success_appends_one_record as (r & st' & Hrun & _).
  exists r, st'. split; [exact Hrun|].
  exact (research_result_describes_the_job 5 Samples.remote_three_polls
           (Samples.research_options None None) Samples.fresh st' r Hrun).
Defined.

End ResearchFacts.

(* ===================================================================== *)
(** ** Web search: the domain filter, the sources and the ledger *)
(* ===================================================================== *)

Module SearchFacts.

Import Vocabulary Notions.

Lemma timed_search_frame (remote : WebSearch.SearchRemote) (req : WebSearch.SearchRequest)
    (timeoutMs : Z) (context : option string) (st : Runtime.State) :
  let st' := snd (Runtime.withTimeout (WebSearch.create remote req) timeoutMs context st) in
  Runtime.costTracker st' = Runtime.costTracker st
  /\ Runtime.created st' = S (Runtime.created st).
Proof.
  unfold Runtime.withTimeout, WebSearch.create. simpl.
  destruct (_ <=? Js.timer_delay timeoutMs); [|by split].
  destruct (WebSearch.settles _); by split.
Qed.

Lemma find_scheme (domains : list string) :
  match List.find (Js.includes "://") domains with
  | Some domain => In domain domains /\ Js.includes "://" domain = true
  | None => forall domain, In domain domains -> Js.includes "://" domain = false
  end.
Proof.
  induction domains as [|d rest IH]; simpl; [by intros domain []|].
  destruct (Js.includes "://" d) eqn:Hd.
  - split; [by left | exact Hd].
  - destruct (List.find (Js.includes "://") rest) as [domain|].
    + destruct IH as [Hin Hs]. split; [by right | exact Hs].
    + intros domain [<-|Hin]; [exact Hd | by apply IH].
Qed.

(** What [search] does once the domain filter has been accepted. *)
Lemma search_request_outcome (remote : WebSearch.SearchRemote)
    (o : WebSearch.WebSearchOptions) (st : Runtime.State) :
  Nat.ltb WebSearch.MAX_ALLOWED_DOMAINS (length (default [] (WebSearch.allowedDomains o)))
  = false ->
  List.find (Js.includes "://") (default [] (WebSearch.allowedDomains o)) = None ->
  let run := WebSearch.search remote o st in
  (Runtime.created st < Runtime.created (snd run) <= Runtime.created st + 3)%nat
  /\ match fst run with
     | Js.Return r =>
         Runtime.costTracker (snd run)
         = CostTracker.trackCost (search_entry (Runtime.now (snd run)) r)
             (Runtime.costTracker st)
         /\ WebSearch.res_model r = default "gpt-5.2" (WebSearch.model o)
         /\ WebSearch.cost r
            = Pricing.calculateCost (WebSearch.res_model r)
                (Runtime.prompt_or0 (WebSearch.usage r))
                (Runtime.completion_or0 (WebSearch.usage r))
         /\ WebSearch.sources r <> Some []
         /\ (WebSearch.includeSources o = Some false -> WebSearch.sources r = None)
     | Js.Throw e =>
         Runtime.costTracker (snd run) = Runtime.costTracker st
         /\ (e = Js.TypeError_reading "message"
             \/ exists kind detail,
                  e = Js.Error (kind +:+ ": " +:+ detail)
                  /\ In kind ["AUTH_ERROR"; "RATE_LIMIT"; "TIMEOUT"; "SEARCH_ERROR"])
     end.
Proof.
  intros Hlen Hfind. cbv zeta. unfold WebSearch.search. cbv zeta. rewrite Hlen, Hfind.
  match goal with |- context [Retry.withRetry ?f _ _ ?opt ?s] =>
    pose proof (RequestFacts.withRetry_frame f opt s
                  (fun s0 => proj1 (timed_search_frame _ _ _ _ s0))
                  (fun s0 => proj2 (timed_search_frame _ _ _ _ s0)))
      as (Hc & Hn & Hpos);
    destruct (Retry.withRetry f Runtime.sleep Runtime.logging opt s) as [out s1] end.
  simpl in Hc, Hn, Hpos. specialize (Hpos ltac:(lia)).
  destruct out as [reply|error].
  - simpl. split; [lia|]. split; [by rewrite Hc|]. split; [reflexivity|].
    split; [reflexivity|]. split.
    + by destruct (if default true (WebSearch.includeSources o) then _ else _).
    + intros ->. reflexivity.
  - destruct (Js.nullish error).
    { simpl. split; [lia|]. split; [exact Hc | by left]. }
    unfold WebSearch.classify.
    repeat match goal with |- context [if ?b then _ else _] => destruct b end;
      simpl; (split; [lia|]); (split; [exact Hc|]); right; eexists _, _;
      (split; [reflexivity|]); simpl; tauto.
Qed.

(** X22.  [search] rejects with VALIDATION_ERROR, leaving the process
    untouched, exactly the requests whose domain filter has more than a
    hundred entries or an entry written with a scheme ("://").  Every
    other request is sent, at least once and at most three times, and
    what [search] then throws is either the TypeError of its handler
    reading the [message] of a thrown undefined or null, or a failure
    reported as AUTH_ERROR, RATE_LIMIT, TIMEOUT or SEARCH_ERROR. *)
Theorem search_rejects_exactly_bad_domains (remote : WebSearch.SearchRemote)
    (o : WebSearch.WebSearchOptions) (st : Runtime.State) :
  let run := WebSearch.search remote o st in
  (bad_domains o ->
   exists msg, run = (Js.Throw (Js.Error ("VALIDATION_ERROR: " +:+ msg)), st))
  /\ (~ bad_domains o ->
      (Runtime.created st < Runtime.created (snd run) <= Runtime.created st + 3)%nat
      /\ forall e, fst run = Js.Throw e ->
           e = Js.TypeError_reading "message"
           \/ exists kind detail,
                e = Js.Error (kind +:+ ": " +:+ detail)
                /\ In kind ["AUTH_ERROR"; "RATE_LIMIT"; "TIMEOUT"; "SEARCH_ERROR"]).
Proof.
  cbv zeta. unfold bad_domains. cbv zeta.
  set (domains := default [] (WebSearch.allowedDomains o)).
  pose proof (find_scheme domains) as Hfind.
  destruct (Nat.ltb WebSearch.MAX_ALLOWED_DOMAINS (length domains)) eqn:Hlen.
  - apply Nat.ltb_lt in Hlen. unfold WebSearch.MAX_ALLOWED_DOMAINS in Hlen. split.
    + intros _. unfold WebSearch.search. cbv zeta. fold domains.
      apply Nat.ltb_lt in Hlen. unfold WebSearch.MAX_ALLOWED_DOMAINS. rewrite Hlen.
      by eexists.
    + intros Hnot. exfalso. apply Hnot. by left.
  - destruct (List.find (Js.includes "://") domains) as [domain|] eqn:Hf.
    + split.
      * intros _. unfold WebSearch.search. cbv zeta. fold domains. rewrite Hlen, Hf.
        by eexists.
      * intros Hnot. exfalso. apply Hnot. right. by exists domain.
    + split.
      * intros [Hmany | (domain & Hin & Hs)].
        -- apply Nat.ltb_ge in Hlen. unfold WebSearch.MAX_ALLOWED_DOMAINS in Hlen. lia.
        -- rewrite (Hfind domain Hin) in Hs. discriminate.
      * intros _.
        pose proof (search_request_outcome remote o st Hlen Hf) as [Hn Hout].
        cbv zeta in Hn, Hout. split; [exact Hn|].
        intros e He. rewrite He in Hout. by destruct Hout as [_ Hkind].
Qed.

Lemma search_rejects_exactly_bad_domains_witness :
  bad_domains (Cases.search_options (Some ["rocq-prover.org"; "https://github.com"]))
  /\ exists msg,
       WebSearch.search Cases.remote_search
         (Cases.search_options (Some ["rocq-prover.org"; "https://github.com"])) Samples.fresh
       = (Js.Throw (Js.Error ("VALIDATION_ERROR: " +:+ msg)), Samples.fresh).
Proof.
  assert (H : bad_domains
                (Cases.search_options (Some ["rocq-prover.org"; "https://github.com"]))).
  { right. exists "https://github.com". split; [right; by left | reflexivity]. }
  split; [exact H|].
  exact (proj1 (search_rejects_exactly_bad_domains Cases.remote_search _ Samples.fresh) H).
Defined.

(** What [search] does to the ledger, and the source list of a result. *)
Lemma search_ledger (remote : WebSearch.SearchRemote)
    (o : WebSearch.WebSearchOptions) (st : Runtime.State) :
  let run := WebSearch.search remote o st in
  match fst run with
  | Js.Return r =>
      Runtime.costTracker (snd run)
      = CostTracker.trackCost (search_entry (Runtime.now (snd run)) r) (Runtime.costTracker st)
      /\ WebSearch.res_model r = default "gpt-5.2" (WebSearch.model o)
      /\ WebSearch.cost r
         = Pricing.calculateCost (WebSearch.res_model r)
             (Runtime.prompt_or0 (WebSearch.usage r))
             (Runtime.completion_or0 (WebSearch.usage r))
      /\ WebSearch.sources r <> Some []
      /\ (WebSearch.includeSources o = Some false -> WebSearch.sources r = None)
  | Js.Throw _ => Runtime.costTracker (snd run) = Runtime.costTracker st
  end.
Proof.
  cbv zeta.
  destruct (Nat.ltb WebSearch.MAX_ALLOWED_DOMAINS
              (length (default [] (WebSearch.allowedDomains o)))) eqn:Hlen.
  { unfold WebSearch.search. cbv zeta. by rewrite Hlen. }
  destruct (List.find (Js.includes "://") (default [] (WebSearch.allowedDomains o)))
    as [domain|] eqn:Hf.
  { unfold WebSearch.search. cbv zeta. by rewrite Hlen, Hf. }
  pose proof (search_request_outcome remote o st Hlen Hf) as [_ Hout]. cbv zeta in Hout.
  destruct (fst (WebSearch.search remote o st)) as [r|e]; [exact Hout | exact (proj1 Hout)].
Qed.

(** X23.  [search] changes the ledger only when it returns, and then by
    exactly one record, for operation web_search, costed by
    [calculateCost] for the model used on the reported token counts.
    Whenever it throws, the ledger is what it was.  A result never carries
    an empty source list (the field is absent instead), and carries none
    at all when sources were not asked for. *)
Theorem search_bills_results_only (remote : WebSearch.SearchRemote)
    (o : WebSearch.WebSearchOptions) (st : Runtime.State) :
  let run := WebSearch.search remote o st in
  match fst run with
  | Js.Return r =>
      ledger_grew_by st (snd run) [search_entry (Runtime.now (snd run)) r]
      /\ WebSearch.res_model r = default "gpt-5.2" (WebSearch.model o)
      /\ WebSearch.cost r
         = Pricing.calculateCost (WebSearch.res_model r)
             (Runtime.prompt_or0 (WebSearch.usage r))
             (Runtime.completion_or0 (WebSearch.usage r))
      /\ WebSearch.sources r <> Some []
      /\ (WebSearch.includeSources o = Some false -> WebSearch.sources r = None)
  | Js.Throw _ =>
      ledger_grew_by st (snd run) []
      /\ Runtime.costTracker (snd run) = Runtime.costTracker st
  end.
Proof.
  cbv zeta. pose proof (search_ledger remote o st) as Hout. cbv zeta in Hout.
  unfold ledger_grew_by.
  destruct (fst (WebSearch.search remote o st)) as [r|e].
  - destruct Hout as (Hct & Hrest).
    rewrite Hct, CostTrackerFacts.trackCost_entries. by split.
  - rewrite Hout. split; [by rewrite app_nil_r | reflexivity].
Qed.

Lemma search_bills_results_only_witness :
  exists r,
    fst (WebSearch.search Cases.remote_search (Cases.search_options None) Samples.fresh)
    = Js.Return r
    /\ WebSearch.sources r <> Some []
    /\ ledger_grew_by Samples.fresh
         (snd (WebSearch.search Cases.remote_search (Cases.search_options None) Samples.fresh))
         [search_entry
            (Runtime.now (snd (WebSearch.search Cases.remote_search
                                 (Cases.search_options None) Samples.fresh))) r].
Proof.
  pose proof (search_bills_results_only Cases.remote_search (Cases.search_options None)
                Samples.fresh) as H.
  cbv zeta in H.
  destruct (fst (WebSearch.search Cases.remote_search (Cases.search_options None)
                   Samples.fresh)) as [r|e] eqn:Hr.
  - exists r. split; [reflexivity|]. destruct H as (Hct & _ & _ & Hs & _). by split.
  - exfalso. revert Hr. vm_compute. discriminate.
Defined.

Lemma extract_sources_app (items more : list WebSearch.OutputItem) :
  WebSearch.extract_sources (items ++ more)
  = WebSearch.extract_sources items ++ WebSearch.extract_sources more.
Proof.
  induction items as [|item rest IH]; [reflexivity|]. simpl.
  destruct (WebSearch.action_sources item) as [found|]; [|exact IH].
  destruct (String.eqb _ _); [|exact IH]. by rewrite IH, app_assoc.
Qed.

(** X24.  The sources [search] extracts from a response are exactly those
    listed by its output items of type web_search_call, and they come in
    the order of the response: the sources of two stretches of output are
    those of the first followed by those of the second.  Items of any
    other type, and search calls without a source list, contribute
    nothing. *)
Theorem extract_sources_are_the_cited_ones (items more : list WebSearch.OutputItem)
    (source : WebSearch.Source) :
  (In source (WebSearch.extract_sources items)
   <-> exists item, In item items /\ cited_by item source)
  /\ WebSearch.extract_sources (items ++ more)
     = WebSearch.extract_sources items ++ WebSearch.extract_sources more.
Proof.
  split; [|apply extract_sources_app].
  unfold cited_by. induction items as [|item rest IH]; simpl.
  - split; [done | by intros (item & [] & _)].
  - destruct (WebSearch.action_sources item) as [found|] eqn:Ha.
    + destruct (String.eqb (WebSearch.item_type item) "web_search_call") eqn:Ht.
      * apply String.eqb_eq in Ht. rewrite in_app_iff, IH. split.
        -- intros [Hin | (it & Hin & Hc)].
           ++ exists item. split; [by left|]. split; [exact Ht|]. by exists found.
           ++ exists it. split; [by right | exact Hc].
        -- intros (it & [<- | Hin] & Htype & found' & Hsome & Hsrc).
           ++ left. rewrite Ha in Hsome. by injection Hsome as <-.
           ++ right. exists it. split; [exact Hin|]. split; [exact Htype|]. by exists found'.
      * apply String.eqb_neq in Ht. rewrite IH. split.
        -- intros (it & Hin & Hc). exists it. split; [by right | exact Hc].
        -- intros (it & [<- | Hin] & Htype & Hrest); [contradiction|].
           exists it. by split.
    + rewrite IH. split.
      * intros (it & Hin & Hc). exists it. split; [by right | exact Hc].
      * intros (it & [<- | Hin] & Htype & found' & Hsome & Hsrc); [congruence|].
        exists it. split; [exact Hin|]. split; [exact Htype|]. by exists found'.
Qed.

End SearchFacts.

(* ===================================================================== *)
(** ** The model tables *)
(* ===================================================================== *)

Module ModelFacts.

Lemma arr_includes_In (arr : list string) (x : string) :
  Types.arr_includes arr x = true <-> In x arr.
Proof.
  unfold Types.arr_includes. rewrite existsb_exists. split.
  - intros (y & Hin & Heq). apply String.eqb_eq in Heq. by subst y.
  - intros Hin. exists x. split; [exact Hin | apply String.eqb_refl].
Qed.

Lemma supported_is_priced (m : string) :
  In m (Types.TEXT_MODELS ++ Types.DEEP_RESEARCH_MODELS) ->
  (exists pricing, Pricing.OPENAI_PRICING !! m = Some pricing)
  /\ Types.MODEL_IDS !! m = Some m.
Proof.
  simpl. intros [<-|[<-|[<-|[<-|[<-|[]]]]]]; (split; [eexists|]); vm_compute; reflexivity.
Qed.

Lemma supported_cases (m : string) :
  Types.isTextModel m || Types.isDeepResearchModel m = true ->
  In m (Types.TEXT_MODELS ++ Types.DEEP_RESEARCH_MODELS).
Proof.
  intros H. apply in_app_iff. apply orb_true_iff in H as [H|H]; [left | right];
    by apply arr_includes_In.
Qed.

Lemma supported_not_estimated (m : string) (promptTokens completionTokens : Z) :
  Types.isTextModel m || Types.isDeepResearchModel m = true ->
  Pricing.estimated (Pricing.calculateCost m promptTokens completionTokens) = false.
Proof.
  intros H. destruct (supported_is_priced m (supported_cases m H)) as [[pricing Hp] _].
  unfold Pricing.calculateCost. cbv zeta.
  by rewrite (PricingFacts.lookup_listed m pricing Hp).
Qed.

(** X25.  The tables of types.ts and pricing.ts agree.  Every supported
    model, text or deep research, has a price entry, so its costs are never
    marked estimated, and its API identifier is its own name.  The web
    search models and the structured-output models are text models, and no
    model is both a text and a deep research model. *)
Theorem model_tables_agree (m : string) (promptTokens completionTokens : Z) :
  (Types.isTextModel m || Types.isDeepResearchModel m = true ->
   Pricing.estimated (Pricing.calculateCost m promptTokens completionTokens) = false
   /\ snd (Pricing.getPricing m) = false
   /\ Types.api_model_id m = m)
  /\ (Types.isWebSearchModel m = true -> Types.isTextModel m = true)
  /\ (Types.supportsStructuredOutput m = true -> Types.isTextModel m = true)
  /\ (Types.isTextModel m = true -> Types.isDeepResearchModel m = false).
Proof.
  split; [|split; [|split]].
  - intros H. split; [by apply supported_not_estimated|].
    destruct (supported_is_priced m (supported_cases m H)) as [[pricing Hp] Hid].
    split.
    + unfold Pricing.getPricing. cbv zeta.
      by rewrite (PricingFacts.lookup_listed m pricing Hp).
    + unfold Types.api_model_id. rewrite Hid. unfold Js.str_or.
      destruct (String.eqb m "") eqn:He; [|reflexivity].
      apply String.eqb_eq in He. subst m. discriminate.
  - intros H. apply arr_includes_In in H. apply arr_includes_In.
    simpl in *. tauto.
  - intros H. apply arr_includes_In in H. apply arr_includes_In.
    simpl in *. tauto.
  - intros H. apply arr_includes_In in H.
    destruct (Types.isDeepResearchModel m) eqn:Hd; [|reflexivity].
    apply arr_includes_In in Hd. simpl in *.
    destruct H as [<-|[<-|[<-|[]]]]; destruct Hd as [Hd|[Hd|[]]]; discriminate.
Qed.

Lemma model_tables_agree_witness :
  Types.isTextModel "gpt-5.2-pro" || Types.isDeepResearchModel "gpt-5.2-pro" = true
  /\ Pricing.estimated (Pricing.calculateCost "gpt-5.2-pro" 1000 2000) = false
  /\ snd (Pricing.getPricing "gpt-5.2-pro") = false
  /\ Types.api_model_id "gpt-5.2-pro" = "gpt-5.2-pro".
Proof.
  split; [reflexivity|].
  apply (proj1 (model_tables_agree "gpt-5.2-pro" 1000 2000)). reflexivity.
Defined.



End ModelFacts.

(* ===================================================================== *)
(** ** The tool handlers around the providers *)
(* ===================================================================== *)

Module ToolFacts.

Import Vocabulary Notions.

Lemma startsWith_app_l (p a b : string) :
  Js.startsWith p a = true -> Js.startsWith p (a +:+ b) = true.
Proof.
  revert a. induction p as [|c p IH]; intros a H; [by destruct (a +:+ b)|].
  destruct a as [|d a]; [discriminate|]. rewrite JsFacts.append_cons. simpl in *.
  destruct (Ascii.eqb c d); [by apply IH | discriminate].
Qed.

Lemma startsWith_refl (p : string) : Js.startsWith p p = true.
Proof. induction p as [|c p IH]; [done|]. simpl. by rewrite Ascii.eqb_refl. Qed.

(** The source list only adds to the answer. *)
Lemma with_sources_prefix (text : string) (sources : option (list WebSearch.Source)) :
  Js.startsWith text (Tools.with_sources text sources) = true.
Proof.
  unfold Tools.with_sources. destruct sources as [[|first rest]|];
    try apply startsWith_refl.
  match goal with |- context [fold_left ?f ?l ?acc] =>
    assert (H : Js.startsWith text acc = true) by apply JsFacts.startsWith_app;
    generalize dependent acc; generalize l end.
  intros l. induction l as [|source l IH]; intros acc H; [exact H|].
  simpl. apply IH. by apply startsWith_app_l.
Qed.

(** What the model check of the generation handler lets through. *)
Lemma text_model_checked (model : option string) :
  Tools.unknown_model Types.isTextModel model = false ->
  model = None \/ model = Some "" \/ exists m, model = Some m /\ Types.isTextModel m = true.
Proof.
  unfold Tools.unknown_model, Js.falsy_str. destruct model as [m|]; [|by left].
  destruct (String.eqb m "") eqn:He.
  - apply String.eqb_eq in He. subst m. right. by left.
  - simpl. intros H. apply negb_false_iff in H. right. right. by exists m.
Qed.

(** X27.  The generation tool answers in one of two ways.  An error
    response has the error flag, a text that starts with "Error: " and no
    metadata, and leaves the ledger as it was.  A successful response has
    metadata, and exactly one record has been added to the ledger, for
    operation generate_text, with the model and the cost the metadata
    report.  That cost is marked estimated exactly when the caller named
    the empty string as model: the handler's check lets the empty string
    through, and no price is listed for it. *)
Theorem generate_text_tool_outcome (remote : Runtime.Remote) (args : Tools.GenerateTextArgs)
    (st : Runtime.State) :
  let out := Tools.generate_text remote args st in
  match Tools.meta (fst out) with
  | None =>
      Server.isError (Tools.response (fst out)) = true
      /\ Js.startsWith "Error: " (Server.content_text (Tools.response (fst out))) = true
      /\ Runtime.costTracker (snd out) = Runtime.costTracker st
  | Some m =>
      Server.isError (Tools.response (fst out)) = false
      /\ (exists entry,
            Runtime.costTracker (snd out)
            = CostTracker.trackCost entry (Runtime.costTracker st)
            /\ CostTracker.operation entry = "generate_text"
            /\ CostTracker.model entry = Tools.meta_model m
            /\ CostTracker.totalCost entry = Pricing.totalCost (Tools.meta_cost m)
            /\ CostTracker.estimated entry = Pricing.estimated (Tools.meta_cost m))
      /\ (Pricing.estimated (Tools.meta_cost m) = true <-> Tools.gt_model args = Some "")
  end.
Proof.
  cbv zeta. unfold Tools.generate_text.
  destruct (Tools.missing (Tools.prompt args)); [by repeat split|].
  destruct (Tools.unknown_model Types.isTextModel (Tools.gt_model args)) eqn:Hu.
  { simpl. split; [reflexivity|]. split; [|reflexivity].
    reflexivity. }
  match goal with |- context [TextProvider.generate remote ?o st] =>
    pose proof (TextFacts.generate_outcome remote o st) as [_ Hout];
    destruct (TextProvider.generate remote o st) as [[r|e] s1] end;
    simpl in Hout; simpl.
  - destruct Hout as (Hct & Hmodel & Hcost & _).
    split; [reflexivity|]. split.
    + eexists. split; [exact Hct|]. by repeat split.
    + rewrite Hcost, Hmodel. unfold Pricing.calculateCost. cbv zeta.
      cbn [Pricing.estimated TextProvider.model].
      destruct (text_model_checked _ Hu) as [-> | [-> | (m & -> & Hm)]]; cbn [default].
      * split; [by vm_compute | discriminate].
      * split; [reflexivity | by vm_compute].
      * destruct (ModelFacts.supported_is_priced m) as [[pricing Hp] _].
        { apply in_app_iff. left. by apply ModelFacts.arr_includes_In. }
        unfold id. rewrite (PricingFacts.lookup_listed m pricing Hp). cbn [Pricing.absent].
        split; [discriminate|]. intros [= ->]. discriminate.
  - split; [reflexivity|]. split; [reflexivity | exact Hout].
Qed.

Lemma generate_text_tool_outcome_witness :
  exists m,
    Tools.meta (fst (Tools.generate_text Samples.remote_text (Cases.text_args (Some ""))
                       Samples.fresh)) = Some m
    /\ (Pricing.estimated (Tools.meta_cost m) = true
        <-> Tools.gt_model (Cases.text_args (Some "")) = Some "").
Proof.
  pose proof (generate_text_tool_outcome Samples.remote_text (Cases.text_args (Some ""))
                Samples.fresh) as H.
  cbv zeta in H.
  destruct (Tools.meta (fst (Tools.generate_text Samples.remote_text
                               (Cases.text_args (Some "")) Samples.fresh))) as [m|] eqn:Hm.
  - exists m. split; [reflexivity | exact (proj2 (proj2 H))].
  - exfalso. revert Hm. vm_compute. discriminate.
Defined.

(** X28.  A negative timeout_minutes is not rejected by the research
    tool.  The job is started at the service and then given up before the
    first poll: the tool answers with the TIMEOUT error that names the
    response identifier, after one [create] and no retrieval, and the
    ledger is what it was. *)
Theorem deep_research_tool_negative_timeout (fuel : nat) (remote : Runtime.Remote)
    (args : Tools.DeepResearchArgs) (st : Runtime.State) (rid : string) (minutes : Z) :
  Tools.missing (Tools.dr_query args) = false ->
  Tools.unknown_model Types.isDeepResearchModel (Tools.dr_model args) = false ->
  Tools.timeout_minutes args = Some minutes ->
  minutes < 0 ->
  started_with remote st rid ->
  0 <= Runtime.latency (Runtime.on_create remote (Runtime.created st)) ->
  exists st',
    Tools.deep_research (S fuel) remote args st
    = Some (Tools.failure
              ("Error: " +:+ DeepResearch.timeout_message
                               (Runtime.latency (Runtime.on_create remote (Runtime.created st)))
                               rid), st')
    /\ Runtime.created st' = S (Runtime.created st)
    /\ Runtime.retrieved st' = Runtime.retrieved st
    /\ Runtime.costTracker st' = Runtime.costTracker st.
Proof.
  intros Hq Hm Hmin Hneg Hstart Hlat.
  unfold Tools.deep_research. rewrite Hq, Hm.
  set (st0 := Runtime.logging (Logger.log Logger.info "Starting deep research") st).
  set (options := Tools.research_options args).
  assert (Hpoll :
    DeepResearch.pollForCompletion (S fuel) remote rid (timeout_of options)
      (interval_of options) (Runtime.now st0) (poll_start remote options st0)
    = Some (Js.Throw (Js.Error (DeepResearch.timeout_message
                                  (Runtime.latency
                                     (Runtime.on_create remote (Runtime.created st))) rid)),
            poll_start remote options st0)).
  { rewrite DeepResearchFacts.pass_deadline.
    - replace (Runtime.now (poll_start remote options st0) - Runtime.now st0)
        with (Runtime.latency (Runtime.on_create remote (Runtime.created st)))
        by (unfold poll_start; simpl; lia).
      reflexivity.
    - replace (Runtime.now (poll_start remote options st0) - Runtime.now st0)
        with (Runtime.latency (Runtime.on_create remote (Runtime.created st)))
        by (unfold poll_start; simpl; lia).
      subst options. unfold timeout_of, Tools.research_options, Tools.timeout_ms. simpl.
      rewrite Hmin. destruct (minutes =? 0) eqn:Hz; lia. }
  rewrite (DeepResearchFacts.research_poll_throws (S fuel) remote options st0 _ rid _
             Hstart Hpoll).
  eexists. split.
  - unfold DeepResearch.timeout_message. simpl. rewrite JsFacts.append_cons. reflexivity.
  - by repeat split.
Qed.

Lemma deep_research_tool_negative_timeout_witness :
  started_with Samples.remote_running Samples.fresh "resp_r1"
  /\ exists st',
       Tools.deep_research 1 Samples.remote_running (Cases.research_args (Some (-5)))
         Samples.fresh
       = Some (Tools.failure
                 ("Error: " +:+ DeepResearch.timeout_message
                                  (Runtime.latency
                                     (Runtime.on_create Samples.remote_running
                                        (Runtime.created Samples.fresh)))
                                  "resp_r1"), st')
       /\ Runtime.created st' = S (Runtime.created Samples.fresh)
       /\ Runtime.retrieved st' = Runtime.retrieved Samples.fresh
       /\ Runtime.costTracker st' = Runtime.costTracker Samples.fresh.
Proof.
  assert (H : started_with Samples.remote_running Samples.fresh "resp_r1").
  { eexists. split; [reflexivity|]. split; [reflexivity | discriminate]. }
  split; [exact H|].
  apply (deep_research_tool_negative_timeout 0 Samples.remote_running
           (Cases.research_args (Some (-5))) Samples.fresh "resp_r1" (-5));
    [reflexivity | reflexivity | reflexivity | reflexivity | exact H | discriminate].
Defined.

(** X29.  The search tool answers in one of two ways.  An error response
    has the error flag, a text that starts with "Error: " and no metadata,
    and leaves the ledger as it was.  A successful response has metadata
    that count the sources, its text starts with the answer of the model
    (the source list is only appended, and only when there are sources),
    and exactly one record has been added to the ledger, for operation
    web_search, with the model and the cost the metadata report. *)
Theorem web_search_tool_outcome (remote : WebSearch.SearchRemote) (args : Tools.WebSearchArgs)
    (st : Runtime.State) :
  let out := Tools.web_search remote args st in
  match Tools.meta (fst out) with
  | None =>
      Server.isError (Tools.response (fst out)) = true
      /\ Js.startsWith "Error: " (Server.content_text (Tools.response (fst out))) = true
      /\ Runtime.costTracker (snd out) = Runtime.costTracker st
  | Some m =>
      Server.isError (Tools.response (fst out)) = false
      /\ (exists r,
            fst (WebSearch.search remote
                   {| WebSearch.query := default "" (Tools.ws_query args);
                      WebSearch.model := Tools.ws_model args;
                      WebSearch.allowedDomains := Tools.allowed_domains args;
                      WebSearch.includeSources := Tools.include_sources args |} st)
            = Js.Return r
            /\ Js.startsWith (WebSearch.text r)
                 (Server.content_text (Tools.response (fst out))) = true
            /\ Tools.meta_sourceCount m = Some (length (default [] (WebSearch.sources r)))
            /\ (WebSearch.sources r = None ->
                Server.content_text (Tools.response (fst out)) = WebSearch.text r))
      /\ (exists entry,
            Runtime.costTracker (snd out)
            = CostTracker.trackCost entry (Runtime.costTracker st)
            /\ CostTracker.operation entry = "web_search"
            /\ CostTracker.model entry = Tools.meta_model m
            /\ CostTracker.totalCost entry = Pricing.totalCost (Tools.meta_cost m)
            /\ CostTracker.estimated entry = Pricing.estimated (Tools.meta_cost m))
  end.
Proof.
  cbv zeta. unfold Tools.web_search.
  destruct (Tools.missing (Tools.ws_query args)); [by repeat split|].
  destruct (Tools.unknown_model Types.isWebSearchModel (Tools.ws_model args)) eqn:Hu.
  { simpl. split; [reflexivity|]. split; [|reflexivity].
    reflexivity. }
  match goal with |- context [WebSearch.search remote ?o st] =>
    pose proof (SearchFacts.search_ledger remote o st) as Hout;
    destruct (WebSearch.search remote o st) as [[r|e] s1] end;
    simpl in Hout; simpl.
  - destruct Hout as (Hct & _).
    split; [reflexivity|]. split.
    + exists r. split; [reflexivity|]. split; [apply with_sources_prefix|].
      split; [reflexivity|]. by intros ->.
    + eexists. split; [exact Hct|]. by repeat split.
  - split; [reflexivity|]. split; [reflexivity | exact Hout].
Qed.

Lemma web_search_tool_outcome_witness :
  exists m,
    Tools.meta (fst (Tools.web_search Cases.remote_search (Cases.search_args None)
                       Samples.fresh)) = Some m
    /\ Server.isError (Tools.response (fst (Tools.web_search Cases.remote_search
                                              (Cases.search_args None) Samples.fresh)))
       = false.
Proof.
  pose proof (web_search_tool_outcome Cases.remote_search (Cases.search_args None)
                Samples.fresh) as H.
  cbv zeta in H.
  destruct (Tools.meta (fst (Tools.web_search Cases.remote_search (Cases.search_args None)
                               Samples.fresh))) as [m|] eqn:Hm.
  - exists m. split; [reflexivity | exact (proj1 H)].
  - exfalso. revert Hm. vm_compute. discriminate.
Defined.

End ToolFacts.
